(** * Pipeline Pilot: the plan-generation route, its fallback synthesizer,
      the form's validation step and the plan parser.

    The development embeds [app/api/plan/route.ts] ([buildFallbackPlan] and
    the [POST] handler) and the submit handler of [app/page.tsx].  JavaScript
    strings are byte strings (the UTF-8 form of the text); objects with a
    fixed set of keys are records; objects used as dictionaries are finite
    maps or, where the order of keys is observable, association lists. *)

From Stdlib Require Import String Ascii List ZArith Bool Lia DecimalString DecimalNat.
From stdpp Require Import base option list gmap strings.
Import ListNotations.

(* ================================================================== *)
(** * Part I: data model                                                *)
(* ================================================================== *)

(** ** The validated request ([LeadRequest], inferred from the schema) *)

(** [LeadFormState["timeframe"]]: the three literals of [timeframeOptions]. *)
Inductive Timeframe := TwoWeeks | ThirtyDays | NinetyDays.

Definition timeframe_str (t : Timeframe) : string :=
  match t with
  | TwoWeeks => "2 weeks"
  | ThirtyDays => "30 days"
  | NinetyDays => "90 days"
  end.

(** [LeadFormState["budgetLevel"]]: the values of the budget select. *)
Inductive BudgetLevel := Lean | Balanced | Aggressive.

Definition budgetLevel_str (b : BudgetLevel) : string :=
  match b with
  | Lean => "lean"
  | Balanced => "balanced"
  | Aggressive => "aggressive"
  end.

Record LeadRequest := {
  businessName : string;
  industry : string;
  productDescription : string;
  targetCustomer : string;
  uniqueValue : string;
  goals : list string;
  channels : list string;
  tone : string;
  offer : string;
  notes : option string;
  budgetLevel : BudgetLevel;
  timeframe : Timeframe
}.

(** ** The plan ([LeadPlan]) *)

Record CampaignSummary := {
  northStar : string;
  successMetrics : list string;
  positioningTheme : string
}.

Record IdealCustomerProfile := {
  companyTraits : list string;
  buyerPersona : list string;
  painPoints : list string
}.

Record MessagingPillar := {
  title : string;
  angle : string;
  proofPoints : list string
}.

Record ChannelPlay := {
  channel : string;
  objective : string;
  play : string;
  cadence : string;
  sampleCopy : string
}.

Record AutomationFlow := {
  name : string;
  trigger : string;
  steps : list string
}.

Record Experiment := {
  hypothesis : string;
  experiment : string;
  metric : string
}.

Record LeadPlan := {
  campaignSummary : CampaignSummary;
  idealCustomerProfile : IdealCustomerProfile;
  messagingPillars : list MessagingPillar;
  channelStrategy : list ChannelPlay;
  automationWorkflow : list AutomationFlow;
  experiments : list Experiment;
  nextSteps : list string
}.

(** ** Built-ins of the platform

    [String.prototype.toLowerCase] is a total function on strings whose
    Unicode case tables are not part of this repository; the synthesizer is
    stated over any such function. *)
Class StringPrototype := { toLowerCase : string -> string }.

(** The ASCII fragment of [toLowerCase], used to run the model on examples. *)
Definition lower_ascii (c : ascii) : ascii :=
  let n := nat_of_ascii c in
  if (65 <=? n)%nat && (n <=? 90)%nat then ascii_of_nat (n + 32) else c.

Fixpoint lower_string (s : string) : string :=
  match s with
  | EmptyString => EmptyString
  | String c r => String (lower_ascii c) (lower_string r)
  end.

Definition asciiStrings : StringPrototype := {| toLowerCase := lower_string |}.

(* ================================================================== *)
(** * Part II: the fallback synthesizer                                 *)
(* ================================================================== *)

Section Fallback.
Context {SP : StringPrototype}.

(** The arrow function mapped over [payload.channels]. *)
Definition channelPlay (payload : LeadRequest) (channel : string) : ChannelPlay :=
  {| channel := channel;
     objective := "Drive " +:+ toLowerCase (offer payload) +:+ " conversions.";
     play := "Run a " +:+ budgetLevel_str (budgetLevel payload)
             +:+ " budget program combining intent data and manual research.";
     cadence := if String.eqb (timeframe_str (timeframe payload)) "2 weeks"
                then "3x weekly" else "Weekly";
     sampleCopy := "Hi {{first_name}}, " +:+ offer payload |}.

Definition buildFallbackPlan (payload : LeadRequest) : LeadPlan :=
  {| campaignSummary :=
       {| northStar := "Generate qualified pipeline for " +:+ businessName payload
                       +:+ " within " +:+ timeframe_str (timeframe payload) +:+ ".";
          successMetrics :=
            [ "Meetings booked per week";
              "Reply rate %";
              "Pipeline value influenced" ];
          positioningTheme := "Position as the " +:+ toLowerCase (uniqueValue payload) |};
     idealCustomerProfile :=
       {| companyTraits :=
            [ "Operates in " +:+ industry payload;
              "Mid-market to enterprise accounts";
              "Teams with urgent need for modernization" ];
          buyerPersona :=
            [ "Economic buyer: VP / Director level stakeholder";
              "Technical champion: hands-on practitioner";
              "Influencer: adjacent department peer" ];
          painPoints :=
            [ "Manual workflows causing wasted spend";
              "Pressure to show ROI quickly";
              "Need to differentiate in competitive market" ] |};
     messagingPillars :=
       [ {| title := "Value driver";
            angle := "Highlight how " +:+ toLowerCase (productDescription payload)
                     +:+ " unlocks measurable ROI.";
            proofPoints :=
              [ "Quantify time or cost savings";
                "Reference a key customer win";
                "Mention implementation support" ] |};
         {| title := "Risk reducer";
            angle := "Show how the offer reduces risk compared to current status quo.";
            proofPoints :=
              [ "Share guarantee or SLA";
                "Provide social proof snippet";
                "Emphasize ease-of-adoption" ] |} ];
     channelStrategy := map (channelPlay payload) (channels payload);
     automationWorkflow :=
       [ {| name := "Prompt follow-up sequence";
            trigger := "Form submission or positive reply";
            steps :=
              [ "Send tailored follow-up within 4 hours";
                "Share relevant asset on day 3";
                "Escalate to call invite on day 5 if no response" ] |} ];
     experiments :=
       [ {| hypothesis := "Referencing a mutual connection increases cold outreach replies.";
            experiment := "Test LinkedIn InMail templates with social proof block.";
            metric := "Positive reply rate" |};
         {| hypothesis := "Offering a quick teardown boosts meeting bookings.";
            experiment := "Cold email variant offering 15-min audit.";
            metric := "Meetings booked" |} ];
     nextSteps :=
       [ "Finalize lead list with top 200 accounts";
         "Draft channel-specific outreach scripts";
         "Enable experiment tracking dashboard";
         "Launch in waves and optimize weekly" ] |}.

End Fallback.

(* ================================================================== *)
(** * Part III: JSON values and text                                    *)
(* ================================================================== *)

(** What [JSON.parse] returns and [JSON.stringify] walks.  A number keeps
    its literal: floating point is left uninterpreted, and no plan or brief
    has a numeric field. *)
#[warnings="-register-all"] Inductive Json :=
| JNull
| JBool (b : bool)
| JNumber (lit : string)
| JString (s : string)
| JArray (items : list Json)
| JObject (members : list (string * Json)).

Definition dquote : ascii := "034"%char.
Definition backslash : ascii := "092"%char.

(** ** [JSON.stringify] without indentation *)

Definition hexDigit (n : nat) : ascii :=
  match n with
  | 0 => "0" | 1 => "1" | 2 => "2" | 3 => "3" | 4 => "4" | 5 => "5"
  | 6 => "6" | 7 => "7" | 8 => "8" | 9 => "9" | 10 => "a" | 11 => "b"
  | 12 => "c" | 13 => "d" | 14 => "e" | _ => "f"
  end%char.

(** QuoteJSONString, one character: the short escapes, [\u00xx] for the
    other control characters, everything else as it is. *)
Definition quoteChar (c : ascii) : string :=
  let n := nat_of_ascii c in
  if Ascii.eqb c "008" then String backslash "b"
  else if Ascii.eqb c "009" then String backslash "t"
  else if Ascii.eqb c "010" then String backslash "n"
  else if Ascii.eqb c "012" then String backslash "f"
  else if Ascii.eqb c "013" then String backslash "r"
  else if Ascii.eqb c dquote then String backslash (String dquote EmptyString)
  else if Ascii.eqb c backslash then String backslash (String backslash EmptyString)
  else if (n <? 32)%nat
       then String backslash
              (String "u" (String "0" (String "0"
                 (String (hexDigit (n / 16)) (String (hexDigit (n mod 16)) EmptyString)))))
  else String c EmptyString.

Fixpoint quoteChars (s : string) : string :=
  match s with
  | EmptyString => EmptyString
  | String c r => quoteChar c +:+ quoteChars r
  end.

Definition quoteJSONString (s : string) : string :=
  String dquote (quoteChars s +:+ String dquote EmptyString).

Fixpoint JSON_stringify (v : Json) : string :=
  match v with
  | JNull => "null"
  | JBool true => "true"
  | JBool false => "false"
  | JNumber lit => lit
  | JString s => quoteJSONString s
  | JArray [] => "[]"
  | JArray (x :: xs) =>
      "[" +:+ JSON_stringify x +:+
      (fix rest (l : list Json) : string :=
         match l with
         | [] => "]"
         | y :: l' => "," +:+ JSON_stringify y +:+ rest l'
         end) xs
  | JObject [] => "{}"
  | JObject ((k, x) :: ms) =>
      "{" +:+ quoteJSONString k +:+ ":" +:+ JSON_stringify x +:+
      (fix rest (l : list (string * Json)) : string :=
         match l with
         | [] => "}"
         | (k', y) :: l' => "," +:+ quoteJSONString k' +:+ ":" +:+ JSON_stringify y +:+ rest l'
         end) ms
  end.

(** ** [JSON.parse] *)

Definition isWs (c : ascii) : bool :=
  Ascii.eqb c " " || Ascii.eqb c "009" || Ascii.eqb c "010" || Ascii.eqb c "013".

Fixpoint skipWs (s : string) : string :=
  match s with
  | String c r => if isWs c then skipWs r else s
  | EmptyString => EmptyString
  end.

Definition isDigit (c : ascii) : bool :=
  let n := nat_of_ascii c in (48 <=? n)%nat && (n <=? 57)%nat.

Definition hexVal (c : ascii) : option N :=
  let n := nat_of_ascii c in
  if (48 <=? n)%nat && (n <=? 57)%nat then Some (N.of_nat (n - 48))
  else if (97 <=? n)%nat && (n <=? 102)%nat then Some (N.of_nat (n - 87))
  else if (65 <=? n)%nat && (n <=? 70)%nat then Some (N.of_nat (n - 55))
  else None.

(** A decoded string character: a byte of the text taken as it is, or the
    UTF-16 code unit of a [\uXXXX] escape. *)
Inductive StrUnit := UByte (c : ascii) | UCode (u : N).

Definition byteOfN (n : N) : ascii := ascii_of_N (n mod 256).

(** UTF-8 form of a code point. *)
Definition utf8 (cp : N) : string :=
  if (cp <? 128)%N then String (byteOfN cp) EmptyString
  else if (cp <? 2048)%N then
    String (byteOfN (192 + cp / 64)) (String (byteOfN (128 + cp mod 64)) EmptyString)
  else if (cp <? 65536)%N then
    String (byteOfN (224 + cp / 4096))
      (String (byteOfN (128 + (cp / 64) mod 64))
         (String (byteOfN (128 + cp mod 64)) EmptyString))
  else
    String (byteOfN (240 + cp / 262144))
      (String (byteOfN (128 + (cp / 4096) mod 64))
         (String (byteOfN (128 + (cp / 64) mod 64))
            (String (byteOfN (128 + cp mod 64)) EmptyString))).

Definition isHighSurrogate (u : N) : bool := (55296 <=? u)%N && (u <=? 56319)%N.
Definition isLowSurrogate (u : N) : bool := (56320 <=? u)%N && (u <=? 57343)%N.

(** Code units to bytes: a surrogate pair is one code point. *)
Fixpoint encodeUnits (us : list StrUnit) : string :=
  match us with
  | [] => EmptyString
  | UByte c :: r => String c (encodeUnits r)
  | UCode hi :: r =>
      match r with
      | UCode lo :: r' =>
          if isHighSurrogate hi && isLowSurrogate lo
          then utf8 (65536 + (hi - 55296) * 1024 + (lo - 56320)) +:+ encodeUnits r'
          else utf8 hi +:+ encodeUnits r
      | _ => utf8 hi +:+ encodeUnits r
      end
  end.

(** The characters of a string literal, after its opening quote. *)
Fixpoint parseChars (s : string) : option (list StrUnit * string) :=
  match s with
  | EmptyString => None
  | String c r =>
      if Ascii.eqb c dquote then Some ([], r)
      else if Ascii.eqb c backslash then
        match r with
        | String e r1 =>
            let simple (x : ascii) :=
              match parseChars r1 with
              | Some (us, r') => Some (UByte x :: us, r')
              | None => None
              end in
            if Ascii.eqb e dquote then simple dquote
            else if Ascii.eqb e backslash then simple backslash
            else if Ascii.eqb e "/" then simple "/"%char
            else if Ascii.eqb e "b" then simple "008"%char
            else if Ascii.eqb e "f" then simple "012"%char
            else if Ascii.eqb e "n" then simple "010"%char
            else if Ascii.eqb e "r" then simple "013"%char
            else if Ascii.eqb e "t" then simple "009"%char
            else if Ascii.eqb e "u" then
              match r1 with
              | String h1 (String h2 (String h3 (String h4 r2))) =>
                  match hexVal h1, hexVal h2, hexVal h3, hexVal h4 with
                  | Some a, Some b, Some c', Some d =>
                      match parseChars r2 with
                      | Some (us, r') =>
                          Some (UCode (a * 4096 + b * 256 + c' * 16 + d)%N :: us, r')
                      | None => None
                      end
                  | _, _, _, _ => None
                  end
              | _ => None
              end
            else None
        | EmptyString => None
        end
      else if (nat_of_ascii c <? 32)%nat then None
      else
        match parseChars r with
        | Some (us, r') => Some (UByte c :: us, r')
        | None => None
        end
  end.

Definition parseString (s : string) : option (string * string) :=
  match parseChars s with
  | Some (us, r) => Some (encodeUnits us, r)
  | None => None
  end.

(** The longest run of digits at the head of the text. *)
Fixpoint spanDigits (s : string) : string * string :=
  match s with
  | String c r =>
      if isDigit c then let '(ds, r') := spanDigits r in (String c ds, r')
      else (EmptyString, s)
  | EmptyString => (EmptyString, EmptyString)
  end.

(** An optional minus sign. *)
Definition takeSign (s : string) : string * string :=
  match s with
  | String c r => if Ascii.eqb c "-" then ("-", r) else (EmptyString, s)
  | EmptyString => (EmptyString, s)
  end.

(** Zero, or a non-zero digit and more digits. *)
Definition takeInt (s : string) : option (string * string) :=
  match s with
  | String c r =>
      if Ascii.eqb c "0" then Some ("0", r)
      else if isDigit c then let '(ds, r') := spanDigits r in Some (String c ds, r')
      else None
  | EmptyString => None
  end.

(** An optional fraction: a dot and one digit or more. *)
Definition takeFrac (s : string) : option (string * string) :=
  match s with
  | String c r =>
      if Ascii.eqb c "." then
        match spanDigits r with
        | (String d ds, r') => Some (String c (String d ds), r')
        | (EmptyString, _) => None
        end
      else Some (EmptyString, s)
  | EmptyString => Some (EmptyString, s)
  end.

(** An optional exponent: e or E, an optional sign, one digit or more. *)
Definition takeExp (s : string) : option (string * string) :=
  match s with
  | String c r =>
      if Ascii.eqb c "e" || Ascii.eqb c "E" then
        let '(sg, r1) :=
          match r with
          | String c1 r' =>
              if Ascii.eqb c1 "+" || Ascii.eqb c1 "-" then (String c1 EmptyString, r')
              else (EmptyString, r)
          | EmptyString => (EmptyString, r)
          end in
        match spanDigits r1 with
        | (String d ds, r') => Some (String c (sg +:+ String d ds), r')
        | (EmptyString, _) => None
        end
      else Some (EmptyString, s)
  | EmptyString => Some (EmptyString, s)
  end.

(** A number literal: sign, integer part, fraction, exponent. *)
Definition parseNumber (s : string) : option (string * string) :=
  let '(sign, s1) := takeSign s in
  match takeInt s1 with
  | None => None
  | Some (ip, s2) =>
      match takeFrac s2 with
      | None => None
      | Some (fp, s3) =>
          match takeExp s3 with
          | None => None
          | Some (ep, s4) => Some (sign +:+ ip +:+ fp +:+ ep, s4)
          end
      end
  end.

(** [s] without its prefix [p], when it has it. *)
Fixpoint stripPrefix (p s : string) : option string :=
  match p with
  | EmptyString => Some s
  | String a p' =>
      match s with
      | String b s' => if Ascii.eqb a b then stripPrefix p' s' else None
      | EmptyString => None
      end
  end.

(** Recursive descent, one unit of fuel per nested call. *)
Fixpoint parseValue (fuel : nat) (s : string) : option (Json * string) :=
  match fuel with
  | O => None
  | S f =>
      match skipWs s with
      | EmptyString => None
      | String c r =>
          if Ascii.eqb c "{" then
            match skipWs r with
            | EmptyString => None
            | String c2 r2 =>
                if Ascii.eqb c2 "}" then Some (JObject [], r2)
                else
                  match parseMembers f (String c2 r2) with
                  | Some (ms, r') => Some (JObject ms, r')
                  | None => None
                  end
            end
          else if Ascii.eqb c "[" then
            match skipWs r with
            | EmptyString => None
            | String c2 r2 =>
                if Ascii.eqb c2 "]" then Some (JArray [], r2)
                else
                  match parseElements f (String c2 r2) with
                  | Some (xs, r') => Some (JArray xs, r')
                  | None => None
                  end
            end
          else if Ascii.eqb c dquote then
            match parseString r with
            | Some (str, r') => Some (JString str, r')
            | None => None
            end
          else if Ascii.eqb c "t" then
            match stripPrefix "rue" r with
            | Some r' => Some (JBool true, r')
            | None => None
            end
          else if Ascii.eqb c "f" then
            match stripPrefix "alse" r with
            | Some r' => Some (JBool false, r')
            | None => None
            end
          else if Ascii.eqb c "n" then
            match stripPrefix "ull" r with
            | Some r' => Some (JNull, r')
            | None => None
            end
          else
            match parseNumber (String c r) with
            | Some (lit, r') => Some (JNumber lit, r')
            | None => None
            end
      end
  end
with parseElements (fuel : nat) (s : string) : option (list Json * string) :=
  match fuel with
  | O => None
  | S f =>
      match parseValue f s with
      | Some (x, r) =>
          match skipWs r with
          | String c r1 =>
              if Ascii.eqb c "," then
                match parseElements f r1 with
                | Some (xs, r') => Some (x :: xs, r')
                | None => None
                end
              else if Ascii.eqb c "]" then Some ([x], r1)
              else None
          | EmptyString => None
          end
      | None => None
      end
  end
with parseMembers (fuel : nat) (s : string) : option (list (string * Json) * string) :=
  match fuel with
  | O => None
  | S f =>
      match skipWs s with
      | String c r =>
          if Ascii.eqb c dquote then
            match parseString r with
            | Some (k, r1) =>
                match skipWs r1 with
                | String c1 r2 =>
                    if Ascii.eqb c1 ":" then
                      match parseValue f r2 with
                      | Some (x, r3) =>
                          match skipWs r3 with
                          | String c3 r4 =>
                              if Ascii.eqb c3 "," then
                                match parseMembers f r4 with
                                | Some (ms, r') => Some ((k, x) :: ms, r')
                                | None => None
                                end
                              else if Ascii.eqb c3 "}" then Some ([(k, x)], r4)
                              else None
                          | EmptyString => None
                          end
                      | None => None
                      end
                    else None
                | EmptyString => None
                end
            | None => None
            end
          else None
      | EmptyString => None
      end
  end.

(** Every nested call is preceded by at most one other call that consumes
    no character, so twice the length of the text is enough fuel
    ([JSON_parse_fuel] below). *)
Definition JSON_parse (text : string) : option Json :=
  match parseValue (2 * String.length text + 2) text with
  | Some (v, r) =>
      match skipWs r with
      | EmptyString => Some v
      | _ => None
      end
  | None => None
  end.


(** ** Auxiliaries for the round trip through text *)

(** No number occurs in the value. *)
Fixpoint numberFree (v : Json) : bool :=
  match v with
  | JNumber _ => false
  | JArray xs => forallb numberFree xs
  | JObject ms => forallb (fun kv => numberFree (snd kv)) ms
  | _ => true
  end.

(** What [parseChars] reads back for a character that [quoteChar] wrote. *)
Definition unitOf (c : ascii) : StrUnit :=
  let n := nat_of_ascii c in
  if (n <? 32)%nat
     && negb (Ascii.eqb c "008" || Ascii.eqb c "009" || Ascii.eqb c "010"
              || Ascii.eqb c "012" || Ascii.eqb c "013")
  then UCode (N.of_nat n)
  else UByte c.

Fixpoint unitsOf (s : string) : list StrUnit :=
  match s with
  | EmptyString => []
  | String c r => unitOf c :: unitsOf r
  end.

(** The text of an array after its first element. *)
Fixpoint arrayTail (l : list Json) : string :=
  match l with
  | [] => "]"
  | y :: l' => "," +:+ JSON_stringify y +:+ arrayTail l'
  end.

(** The text of an object after its first member. *)
Fixpoint objectTail (l : list (string * Json)) : string :=
  match l with
  | [] => "}"
  | (k, y) :: l' => "," +:+ quoteJSONString k +:+ ":" +:+ JSON_stringify y +:+ objectTail l'
  end.

(** The characters a number-free value can start with. *)
Definition startsValue (c : ascii) : Prop :=
  c = "{"%char \/ c = "["%char \/ c = dquote \/ c = "t"%char \/ c = "f"%char \/ c = "n"%char.

(** Writing then reading gives the value back, with enough fuel and
    whatever text follows. *)
Definition roundTrips (v : Json) : Prop :=
  numberFree v = true ->
  forall (fuel : nat) (rest : string),
    (String.length (JSON_stringify v) <= fuel)%nat ->
    parseValue fuel (JSON_stringify v +:+ rest) = Some (v, rest).

(* ================================================================== *)
(** * Part IV: validation results, thrown values and effects            *)
(* ================================================================== *)

(** ** Zod's error objects *)

(** An element of [ZodIssue.path]: an object key or an array index. *)
Inductive PathSeg := PKey (k : string) | PIndex (i : nat).

Record ZodIssue := { issue_path : list PathSeg; issue_message : string }.

Record ZodError := { issues : list ZodIssue }.

(** The property name JavaScript derives from a path element. *)
Definition propertyKey (seg : PathSeg) : string :=
  match seg with
  | PKey k => k
  | PIndex i => NilEmpty.string_of_uint (Nat.to_uint i)
  end.

(** The value of [ZodError.flatten()]. [fieldErrors] is an object used as a
    dictionary from field name to array of messages; its keys are kept in
    the order of their creation. *)
Record Flattened := {
  formErrors : list string;
  fieldErrors : list (string * list string)
}.

(** [fieldErrors[k] = fieldErrors[k] || []; fieldErrors[k].push(m)]. *)
Fixpoint pushFieldError (k m : string) (fe : list (string * list string))
  : list (string * list string) :=
  match fe with
  | [] => [(k, [m])]
  | (k', ms) :: r =>
      if String.eqb k' k then (k', ms ++ [m]) :: r
      else (k', ms) :: pushFieldError k m r
  end.

Definition flattenStep (acc : Flattened) (sub : ZodIssue) : Flattened :=
  match issue_path sub with
  | seg :: _ =>
      {| formErrors := formErrors acc;
         fieldErrors := pushFieldError (propertyKey seg) (issue_message sub) (fieldErrors acc) |}
  | [] =>
      {| formErrors := formErrors acc ++ [issue_message sub];
         fieldErrors := fieldErrors acc |}
  end.

(** [ZodError.flatten()]: one pass over the issues. *)
Definition flatten (e : ZodError) : Flattened :=
  fold_left flattenStep (issues e) {| formErrors := []; fieldErrors := [] |}.

(** The value of [schema.safeParse(raw)]. *)
Inductive SafeParseResult :=
| SafeParseSuccess (data : LeadRequest)
| SafeParseFailure (error : ZodError).

(** ** Thrown values and outcomes of calls *)

Inductive Exception :=
| SyntaxError                       (* [JSON.parse] on malformed text *)
| ZodErrorThrown (e : ZodError)     (* [schema.parse] on invalid input *)
| Error (text : string).            (* any other thrown value *)

Inductive Outcome (A : Type) :=
| Returned (a : A)
| Thrown (e : Exception).
Arguments Returned {A} a.
Arguments Thrown {A} e.

(** ** What [tryParsePlan] returns: [{ plan, raw, message }] *)
Record ParseResult := {
  plan : option LeadPlan;
  raw : option string;
  message : option string
}.

(** ** The chat-completion service *)

Record ChatMessage := { role : string; content : string }.

(** The temperature keeps its literal. *)
Record ChatRequest := {
  model : string;
  temperature : string;
  messages : list ChatMessage
}.

Record ChoiceMessage := { message_content : option string }.
Record Choice := { choice_message : option ChoiceMessage }.
Record ChatCompletion := { choices : option (list Choice) }.

Record OpenAIClient := {
  chat_completions_create : ChatRequest -> Outcome ChatCompletion
}.

(** ** The modules of the repository that [route.ts] imports

    [@/lib/schemas], [@/lib/prompt] and [@/lib/types] are not among the
    sources; the handler is stated over any implementation of them. *)
Class Lib := {
  leadRequestSchema_safeParse : Json -> SafeParseResult;
  buildLeadPlanPrompt : LeadRequest -> Outcome string;
  tryParsePlan : string -> Outcome ParseResult
}.

(** [schema.parse]: the data of [safeParse], or its error thrown. *)
Definition leadRequestSchema_parse {L : Lib} (input : Json) : Outcome LeadRequest :=
  match leadRequestSchema_safeParse input with
  | SafeParseSuccess data => Returned data
  | SafeParseFailure error => Thrown (ZodErrorThrown error)
  end.

(** ** What a request meets: its body, the process environment and the
    client that [getOpenAIClient()] yields (or the value it throws). *)
Record World := {
  request_body : string;
  OPENAI_API_KEY : option string;
  getOpenAIClient : Outcome OpenAIClient
}.

(** ** Responses *)

(** The three object literals passed to [NextResponse.json]. *)
Inductive ResponseBody :=
| InvalidInputBody (error : string) (issues : Flattened)
| FallbackBody (plan : LeadPlan) (raw : option string) (warning : string)
| ModelBody (plan : option LeadPlan) (raw : option string) (notice : option string).

Record Response := { status : nat; body : ResponseBody }.

(** Property reads on a response body, as the page does them. *)
Definition data_error (d : ResponseBody) : option string :=
  match d with InvalidInputBody e _ => Some e | _ => None end.

Definition data_plan (d : ResponseBody) : option LeadPlan :=
  match d with
  | InvalidInputBody _ _ => None
  | FallbackBody p _ _ => Some p
  | ModelBody p _ _ => p
  end.

Definition data_raw (d : ResponseBody) : option string :=
  match d with
  | InvalidInputBody _ _ => None
  | FallbackBody _ r _ => r
  | ModelBody _ r _ => r
  end.

Definition data_warning (d : ResponseBody) : option string :=
  match d with FallbackBody _ _ w => Some w | _ => None end.

Definition data_notice (d : ResponseBody) : option string :=
  match d with ModelBody _ _ n => n | _ => None end.

(** ** Effects of the handler *)

(** What the handler does besides returning: the request sent to the model
    service and the value logged.  [EvFallback] is a ghost event that marks
    a call of [buildFallbackPlan]. *)
Inductive Event :=
| EvChatCompletion (req : ChatRequest)
| EvConsoleError (e : Exception)
| EvFallback (payload : LeadRequest).

(** A computation appends to the log of events and returns or throws. *)
Definition M (A : Type) : Type := list Event -> Outcome A * list Event.

#[export] Instance M_ret : MRet M := fun A a log => (Returned a, log).

#[export] Instance M_bind : MBind M := fun A B k m log =>
  match m log with
  | (Returned a, log') => k a log'
  | (Thrown e, log') => (Thrown e, log')
  end.

Definition throw {A} (e : Exception) : M A := fun log => (Thrown e, log).

Definition emit (ev : Event) : M unit := fun log => (Returned tt, log ++ [ev]).

Definition await {A} (o : Outcome A) : M A := fun log => (o, log).

(** [try { m } catch (error) { handler error }]. *)
Definition tryCatch {A} (m : M A) (handler : Exception -> M A) : M A := fun log =>
  match m log with
  | (Thrown e, log') => handler e log'
  | r => r
  end.

Definition run {A} (m : M A) : Outcome A * list Event := m [].

(** JavaScript truthiness of an optional string. *)
Definition truthy (v : option string) : bool :=
  match v with
  | Some s => negb (String.eqb s EmptyString)
  | None => false
  end.

(* ================================================================== *)
(** * Part V: the route handler                                         *)
(* ================================================================== *)

(** The decoder of the body reader removes one leading byte order mark,
    the bytes EF BB BF of U+FEFF. *)
Definition stripBOM (text : string) : string :=
  match text with
  | String c1 (String c2 (String c3 r)) =>
      if Ascii.eqb c1 "239" && Ascii.eqb c2 "187" && Ascii.eqb c3 "191" then r else text
  | _ => text
  end.

Section Route.
Context {SP : StringPrototype} {L : Lib}.

(** [await request.json()]: the bytes of the body are decoded as UTF-8,
    which drops a leading byte order mark, and the text goes to
    [JSON.parse]. *)
Definition request_json (w : World) : M Json :=
  match JSON_parse (stripBOM (request_body w)) with
  | Some v => mret v
  | None => throw SyntaxError
  end.

Definition call_buildFallbackPlan (payload : LeadRequest) : M LeadPlan :=
  emit (EvFallback payload) ;; mret (buildFallbackPlan payload).

Definition chatRequest (prompt : string) : ChatRequest :=
  {| model := "gpt-4o-mini";
     temperature := "0.4";
     messages :=
       [ {| role := "system";
            content := "You are Pipeline Pilot, a senior demand generation strategist. Always respond with strictly valid JSON." |};
         {| role := "user"; content := prompt |} ] |}.

(** [completion.choices?.[0]?.message?.content], or the empty string. *)
Definition responseTextOf (completion : ChatCompletion) : string :=
  default EmptyString
    (cs ← choices completion; c ← head cs; m ← choice_message c; message_content m).

Definition POST (w : World) : M Response :=
  rawInput ← request_json w;
  match leadRequestSchema_safeParse rawInput with
  | SafeParseFailure error =>
      mret {| status := 400; body := InvalidInputBody "Invalid input" (flatten error) |}
  | SafeParseSuccess payload =>
      if negb (truthy (OPENAI_API_KEY w)) then
        fallback ← call_buildFallbackPlan payload;
        mret {| status := 200;
                body := FallbackBody fallback None
                  "OPENAI_API_KEY is not configured. Responding with a heuristic fallback plan." |}
      else
        tryCatch
          (client ← await (getOpenAIClient w);
           prompt ← await (buildLeadPlanPrompt payload);
           emit (EvChatCompletion (chatRequest prompt)) ;;
           completion ← await (chat_completions_create client (chatRequest prompt));
           let responseText := responseTextOf completion in
           parsed ← await (tryParsePlan responseText);
           mret {| status := 200;
                   body := ModelBody (plan parsed)
                             (match plan parsed with Some _ => None | None => raw parsed end)
                             (message parsed) |})
          (fun error =>
             emit (EvConsoleError error) ;;
             fallback ← call_buildFallbackPlan payload;
             mret {| status := 200;
                     body := FallbackBody fallback None
                       "Failed to generate plan with OpenAI. Provided a fallback strategy instead." |})
  end.

End Route.

(* ================================================================== *)
(** * Part VI: the objects that travel as JSON                          *)
(* ================================================================== *)

Definition jstrings (l : list string) : Json := JArray (map JString l).

(** The form state as a JavaScript object; [notes] is an optional key. *)
Definition leadRequestToJson (r : LeadRequest) : Json :=
  JObject
    ([ ("businessName", JString (businessName r));
       ("industry", JString (industry r));
       ("productDescription", JString (productDescription r));
       ("targetCustomer", JString (targetCustomer r));
       ("uniqueValue", JString (uniqueValue r));
       ("goals", jstrings (goals r));
       ("channels", jstrings (channels r));
       ("tone", JString (tone r));
       ("offer", JString (offer r)) ]
     ++ match notes r with
        | Some n => [ ("notes", JString n) ]
        | None => []
        end
     ++ [ ("budgetLevel", JString (budgetLevel_str (budgetLevel r)));
          ("timeframe", JString (timeframe_str (timeframe r))) ]).

Definition pillarToJson (p : MessagingPillar) : Json :=
  JObject [ ("title", JString (title p));
            ("angle", JString (angle p));
            ("proofPoints", jstrings (proofPoints p)) ].

Definition channelPlayToJson (c : ChannelPlay) : Json :=
  JObject [ ("channel", JString (channel c));
            ("objective", JString (objective c));
            ("play", JString (play c));
            ("cadence", JString (cadence c));
            ("sampleCopy", JString (sampleCopy c)) ].

Definition flowToJson (f : AutomationFlow) : Json :=
  JObject [ ("name", JString (name f));
            ("trigger", JString (trigger f));
            ("steps", jstrings (steps f)) ].

Definition experimentToJson (e : Experiment) : Json :=
  JObject [ ("hypothesis", JString (hypothesis e));
            ("experiment", JString (experiment e));
            ("metric", JString (metric e)) ].

(** A plan as the object literal of [buildFallbackPlan] lays it out. *)
Definition planToJson (p : LeadPlan) : Json :=
  JObject
    [ ("campaignSummary",
       JObject [ ("northStar", JString (northStar (campaignSummary p)));
                 ("successMetrics", jstrings (successMetrics (campaignSummary p)));
                 ("positioningTheme", JString (positioningTheme (campaignSummary p))) ]);
      ("idealCustomerProfile",
       JObject [ ("companyTraits", jstrings (companyTraits (idealCustomerProfile p)));
                 ("buyerPersona", jstrings (buyerPersona (idealCustomerProfile p)));
                 ("painPoints", jstrings (painPoints (idealCustomerProfile p))) ]);
      ("messagingPillars", JArray (map pillarToJson (messagingPillars p)));
      ("channelStrategy", JArray (map channelPlayToJson (channelStrategy p)));
      ("automationWorkflow", JArray (map flowToJson (automationWorkflow p)));
      ("experiments", JArray (map experimentToJson (experiments p)));
      ("nextSteps", jstrings (nextSteps p)) ].

(** [JSON.stringify(plan)]. *)
Definition serializePlan (p : LeadPlan) : string := JSON_stringify (planToJson p).

(* ================================================================== *)
(** * Part VII: the page's submit handler                               *)
(* ================================================================== *)

(** The state hooks of [Page]. *)
Record PageState := {
  form : LeadRequest;
  errors : gmap string string;
  loading : bool;
  page_plan : option LeadPlan;
  rawPlan : option string;
  statusMessage : option string
}.

Definition setErrors (v : gmap string string) (st : PageState) : PageState :=
  {| form := form st; errors := v; loading := loading st;
     page_plan := page_plan st; rawPlan := rawPlan st; statusMessage := statusMessage st |}.

Definition setLoading (v : bool) (st : PageState) : PageState :=
  {| form := form st; errors := errors st; loading := v;
     page_plan := page_plan st; rawPlan := rawPlan st; statusMessage := statusMessage st |}.

Definition setPlan (v : option LeadPlan) (st : PageState) : PageState :=
  {| form := form st; errors := errors st; loading := loading st;
     page_plan := v; rawPlan := rawPlan st; statusMessage := statusMessage st |}.

Definition setRawPlan (v : option string) (st : PageState) : PageState :=
  {| form := form st; errors := errors st; loading := loading st;
     page_plan := page_plan st; rawPlan := v; statusMessage := statusMessage st |}.

Definition setStatusMessage (v : option string) (st : PageState) : PageState :=
  {| form := form st; errors := errors st; loading := loading st;
     page_plan := page_plan st; rawPlan := rawPlan st; statusMessage := v |}.

Record FetchInit := {
  method : string;
  headers : list (string * string);
  fetch_body : string
}.

(** The properties that [handleSubmit] reads of the value of
    [response.json()], at the types the page declares for them; a property
    that is missing, [undefined] or [null] is [None]. *)
Record DataFields := {
  error_of : option string;
  plan_of : option LeadPlan;
  raw_of : option string;
  warning_of : option string;
  notice_of : option string
}.

(** The value of [response.json()] as the page can tell it apart: [null],
    on which a property read throws, or any other value; a number, a
    string, a boolean or an array reads as a value with none of the five
    properties. *)
Inductive FetchedJson :=
| NullJson
| ObjectJson (fields : DataFields).

(** [data?.error]. *)
Definition optionalError (data : FetchedJson) : option string :=
  match data with
  | NullJson => None
  | ObjectJson d => error_of d
  end.

(** The object that a body of the route reads as. *)
Definition dataOf (d : ResponseBody) : FetchedJson :=
  ObjectJson {| error_of := data_error d;
                plan_of := data_plan d;
                raw_of := data_raw d;
                warning_of := data_warning d;
                notice_of := data_notice d |}.

Record FetchResponse := { ok : bool; json : Outcome FetchedJson }.

(** The loop over [Object.entries(error.flatten().fieldErrors)]:
    [fieldErrors[field] = messages[0]] for every non-empty [messages]. *)
Definition firstMessages (entries : list (string * list string)) : gmap string string :=
  foldl (fun (acc : gmap string string) (entry : string * list string) =>
           match snd entry with
           | m :: _ => <[fst entry := m]> acc
           | [] => acc
           end) ∅ entries.

Section Page.
Context {L : Lib}.
Variable fetch : string -> FetchInit -> Outcome FetchResponse.

Definition networkError : option string :=
  Some "Network error. Check your connection and try generating again.".

(** [handleSubmit], from the state at the time of the event to the state
    after the last setter; what it logs on the console is left out. *)
Definition handleSubmit (st0 : PageState) : PageState :=
  let st := setErrors ∅ (setStatusMessage None st0) in
  match leadRequestSchema_parse (leadRequestToJson (form st)) with
  | Thrown (ZodErrorThrown error) =>
      setErrors (firstMessages (fieldErrors (flatten error))) st
  | Thrown _ =>
      setStatusMessage (Some "Something went wrong validating your inputs.") st
  | Returned payload =>
      let st := setLoading true st in
      let init := {| method := "POST";
                     headers := [ ("Content-Type", "application/json") ];
                     fetch_body := JSON_stringify (leadRequestToJson payload) |} in
      let st' :=
        match fetch "/api/plan" init with
        | Thrown _ => setStatusMessage networkError st
        | Returned response =>
            match json response with
            | Thrown _ => setStatusMessage networkError st
            | Returned data =>
                if negb (ok response) then
                  setRawPlan None
                    (setPlan None
                       (setStatusMessage
                          (Some (default
                                   "Unexpected error from the lead generation agent. Try again."
                                   (optionalError data))) st))
                else
                  match data with
                  | NullJson =>
                      (* [data.plan] throws a TypeError, which the [catch] takes *)
                      setStatusMessage networkError st
                  | ObjectJson d =>
                      let st := setRawPlan (raw_of d) (setPlan (plan_of d) st) in
                      if truthy (warning_of d) then setStatusMessage (warning_of d) st
                      else if truthy (notice_of d) then setStatusMessage (notice_of d) st
                      else setStatusMessage (Some "Campaign blueprint generated!") st
                  end
            end
        end in
      setLoading false st'
  end.

End Page.

(* ================================================================== *)
(** * Part VIII: the modules that are not among the sources             *)
(* ================================================================== *)

(** The value of property [k] of a parsed object: a later member with the
    same key replaces an earlier one. *)
Fixpoint field (k : string) (ms : list (string * Json)) : option Json :=
  match ms with
  | [] => None
  | (k', v) :: r =>
      match field k r with
      | Some v' => Some v'
      | None => if String.eqb k' k then Some v else None
      end
  end.

Definition asString (v : Json) : option string :=
  match v with JString s => Some s | _ => None end.

Definition asArray (v : Json) : option (list Json) :=
  match v with JArray xs => Some xs | _ => None end.

Definition asObject (v : Json) : option (list (string * Json)) :=
  match v with JObject ms => Some ms | _ => None end.

(** ** The request schema *)

Definition isSpace (c : ascii) : bool :=
  let n := nat_of_ascii c in ((9 <=? n)%nat && (n <=? 13)%nat) || (n =? 32)%nat.

Fixpoint trimStart (s : string) : string :=
  match s with
  | String c r => if isSpace c then trimStart r else s
  | EmptyString => EmptyString
  end.

Fixpoint trimEnd (s : string) : string :=
  match s with
  | EmptyString => EmptyString
  | String c r =>
      match trimEnd r with
      | EmptyString => if isSpace c then EmptyString else String c EmptyString
      | r' => String c r'
      end
  end.

Definition trim (s : string) : string := trimEnd (trimStart s).

Definition inOptions (s : string) (opts : list string) : bool :=
  existsb (String.eqb s) opts.

(** Duplicates dropped, the first occurrence kept in its place. *)
Fixpoint dedupe (seen l : list string) : list string :=
  match l with
  | [] => []
  | x :: r => if inOptions x seen then dedupe seen r else x :: dedupe (x :: seen) r
  end.

(** What the spec leaves open: the members of the three enumerations that
    the page imports from the schema module, and the bound on lengths. *)
Record SchemaOptions := {
  goalOptions : list string;
  channelOptions : list string;
  toneOptions : list string;
  maxLength : nat
}.

Definition budgetLevel_of_string (s : string) : option BudgetLevel :=
  if String.eqb s "lean" then Some Lean
  else if String.eqb s "balanced" then Some Balanced
  else if String.eqb s "aggressive" then Some Aggressive
  else None.

Definition timeframe_of_string (s : string) : option Timeframe :=
  if String.eqb s "2 weeks" then Some TwoWeeks
  else if String.eqb s "30 days" then Some ThirtyDays
  else if String.eqb s "90 days" then Some NinetyDays
  else None.

(** A checked field: its value, or the issues found in it. *)
Inductive Checked (A : Type) :=
| Valid (a : A)
| Invalid (found : list ZodIssue).
Arguments Valid {A} a.
Arguments Invalid {A} found.

(** Fields are checked one by one and every issue is kept. *)
Definition checked_ap {A B} (f : Checked (A -> B)) (x : Checked A) : Checked B :=
  match f, x with
  | Valid g, Valid a => Valid (g a)
  | Valid _, Invalid is2 => Invalid is2
  | Invalid is1, Valid _ => Invalid is1
  | Invalid is1, Invalid is2 => Invalid (is1 ++ is2)
  end.

Definition issueAt (p : list PathSeg) (m : string) : ZodIssue :=
  {| issue_path := p; issue_message := m |}.

Definition requiredString (maxLen : nat) (k : string) (ms : list (string * Json))
  : Checked string :=
  match field k ms with
  | None => Invalid [issueAt [PKey k] "Required"]
  | Some (JString s) =>
      let t := trim s in
      if String.eqb t EmptyString then Invalid [issueAt [PKey k] "Must not be empty"]
      else if (maxLen <? String.length t)%nat then Invalid [issueAt [PKey k] "Too long"]
      else Valid t
  | Some _ => Invalid [issueAt [PKey k] "Expected a string"]
  end.

Definition optionalString (k : string) (ms : list (string * Json))
  : Checked (option string) :=
  match field k ms with
  | None => Valid None
  | Some (JString s) => Valid (Some s)
  | Some _ => Invalid [issueAt [PKey k] "Expected a string"]
  end.

Definition enumValue {A} (decode : string -> option A) (k : string)
    (ms : list (string * Json)) : Checked A :=
  match field k ms with
  | None => Invalid [issueAt [PKey k] "Required"]
  | Some (JString s) =>
      match decode s with
      | Some a => Valid a
      | None => Invalid [issueAt [PKey k] "Invalid option"]
      end
  | Some _ => Invalid [issueAt [PKey k] "Expected a string"]
  end.

Definition oneOf (opts : list string) (s : string) : option string :=
  if inOptions s opts then Some s else None.

(** The issues of the elements of an array of enumerated strings. *)
Fixpoint elementIssues (opts : list string) (k : string) (i : nat) (xs : list Json)
  : list ZodIssue :=
  match xs with
  | [] => []
  | x :: r =>
      match x with
      | JString s =>
          if inOptions s opts then []
          else [issueAt [PKey k; PIndex i] "Invalid option"]
      | _ => [issueAt [PKey k; PIndex i] "Expected a string"]
      end ++ elementIssues opts k (S i) r
  end.

Definition enumArray (opts : list string) (k : string) (ms : list (string * Json))
  : Checked (list string) :=
  match field k ms with
  | None => Invalid [issueAt [PKey k] "Required"]
  | Some (JArray xs) =>
      match elementIssues opts k 0 xs with
      | [] =>
          match dedupe [] (omap asString xs) with
          | [] => Invalid [issueAt [PKey k] "Select at least one"]
          | vs => Valid vs
          end
      | found => Invalid found
      end
  | Some _ => Invalid [issueAt [PKey k] "Expected an array"]
  end.

(** Modelled from the spec: the request schema of [@/lib/schemas]
    ([leadRequestSchema]), which is not among the sources.  Presence and
    type of every field; required strings trimmed, non-empty and bounded;
    enumerated fields drawn from their closed sets, an error for every value
    outside; [goals] and [channels] deduplicated in insertion order with at
    least one element; [notes] optional.  Every issue carries the field it
    is attributed to as the head of its path.  The wording of the messages
    is not fixed by the spec. *)
Definition validate (o : SchemaOptions) (input : Json) : SafeParseResult :=
  match input with
  | JObject ms =>
      let str := requiredString (maxLength o) in
      match
        checked_ap (checked_ap (checked_ap (checked_ap (checked_ap (checked_ap
        (checked_ap (checked_ap (checked_ap (checked_ap (checked_ap (checked_ap
          (Valid Build_LeadRequest)
          (str "businessName" ms))
          (str "industry" ms))
          (str "productDescription" ms))
          (str "targetCustomer" ms))
          (str "uniqueValue" ms))
          (enumArray (goalOptions o) "goals" ms))
          (enumArray (channelOptions o) "channels" ms))
          (enumValue (oneOf (toneOptions o)) "tone" ms))
          (str "offer" ms))
          (optionalString "notes" ms))
          (enumValue budgetLevel_of_string "budgetLevel" ms))
          (enumValue timeframe_of_string "timeframe" ms)
      with
      | Valid data => SafeParseSuccess data
      | Invalid found => SafeParseFailure {| issues := found |}
      end
  | _ => SafeParseFailure {| issues := [issueAt [] "Expected an object"] |}
  end.

(** ** The prompt builder *)

Definition joinWith (sep : string) (l : list string) : string :=
  match l with
  | [] => EmptyString
  | x :: r => fold_left (fun acc y => acc +:+ sep +:+ y) r x
  end.

(** Modelled from the spec: the prompt builder of [@/lib/prompt]
    ([buildLeadPlanPrompt]), which is not among the sources.  A pure function
    that interpolates every field of the brief into a fixed template, names
    the sections of the plan and asks for a single JSON object; the wording
    of the template is not fixed by the spec. *)
Definition buildPrompt (brief : LeadRequest) : string :=
  "Business: " +:+ businessName brief
  +:+ ". Industry: " +:+ industry brief
  +:+ ". Product: " +:+ productDescription brief
  +:+ ". Target customer: " +:+ targetCustomer brief
  +:+ ". Unique value: " +:+ uniqueValue brief
  +:+ ". Goals: " +:+ joinWith ", " (goals brief)
  +:+ ". Channels: " +:+ joinWith ", " (channels brief)
  +:+ ". Tone: " +:+ tone brief
  +:+ ". Offer: " +:+ offer brief
  +:+ ". Notes: " +:+ default "none" (notes brief)
  +:+ ". Budget: " +:+ budgetLevel_str (budgetLevel brief)
  +:+ ". Timeframe: " +:+ timeframe_str (timeframe brief)
  +:+ ". Respond with only one JSON object with the keys campaignSummary, "
  +:+ "idealCustomerProfile, messagingPillars, channelStrategy, "
  +:+ "automationWorkflow, experiments and nextSteps.".

(** ** The plan parser *)

Definition nonEmpty {A} (l : list A) : option (list A) :=
  match l with
  | [] => None
  | _ => Some l
  end.

Definition stringField (k : string) (ms : list (string * Json)) : option string :=
  v ← field k ms;
  asString v.

Definition stringsField (k : string) (ms : list (string * Json)) : option (list string) :=
  v ← field k ms;
  xs ← asArray v;
  ys ← mapM (M := option) asString xs;
  nonEmpty ys.

Definition objectsField {A} (decode : list (string * Json) -> option A) (k : string)
    (ms : list (string * Json)) : option (list A) :=
  v ← field k ms;
  xs ← asArray v;
  ys ← mapM (M := option) (fun x => ms' ← asObject x; decode ms') xs;
  nonEmpty ys.

Definition objectField {A} (decode : list (string * Json) -> option A) (k : string)
    (ms : list (string * Json)) : option A :=
  v ← field k ms;
  ms' ← asObject v;
  decode ms'.

Definition decodeSummary (ms : list (string * Json)) : option CampaignSummary :=
  a ← stringField "northStar" ms;
  b ← stringsField "successMetrics" ms;
  c ← stringField "positioningTheme" ms;
  Some {| northStar := a; successMetrics := b; positioningTheme := c |}.

Definition decodeProfile (ms : list (string * Json)) : option IdealCustomerProfile :=
  a ← stringsField "companyTraits" ms;
  b ← stringsField "buyerPersona" ms;
  c ← stringsField "painPoints" ms;
  Some {| companyTraits := a; buyerPersona := b; painPoints := c |}.

Definition decodePillar (ms : list (string * Json)) : option MessagingPillar :=
  a ← stringField "title" ms;
  b ← stringField "angle" ms;
  c ← stringsField "proofPoints" ms;
  Some {| title := a; angle := b; proofPoints := c |}.

Definition decodeChannelPlay (ms : list (string * Json)) : option ChannelPlay :=
  a ← stringField "channel" ms;
  b ← stringField "objective" ms;
  c ← stringField "play" ms;
  d ← stringField "cadence" ms;
  e ← stringField "sampleCopy" ms;
  Some {| channel := a; objective := b; play := c; cadence := d; sampleCopy := e |}.

Definition decodeFlow (ms : list (string * Json)) : option AutomationFlow :=
  a ← stringField "name" ms;
  b ← stringField "trigger" ms;
  c ← stringsField "steps" ms;
  Some {| name := a; trigger := b; steps := c |}.

Definition decodeExperiment (ms : list (string * Json)) : option Experiment :=
  a ← stringField "hypothesis" ms;
  b ← stringField "experiment" ms;
  c ← stringField "metric" ms;
  Some {| hypothesis := a; experiment := b; metric := c |}.

(** Modelled from the spec: the CampaignPlan shape that [@/lib/types]
    decodes against, which is not among the sources.  Every section is
    present with its fields of the right type, and every list field is
    non-empty. *)
Definition planFromJson (v : Json) : option LeadPlan :=
  ms ← asObject v;
  a ← objectField decodeSummary "campaignSummary" ms;
  b ← objectField decodeProfile "idealCustomerProfile" ms;
  c ← objectsField decodePillar "messagingPillars" ms;
  d ← objectsField decodeChannelPlay "channelStrategy" ms;
  e ← objectsField decodeFlow "automationWorkflow" ms;
  f ← objectsField decodeExperiment "experiments" ms;
  g ← stringsField "nextSteps" ms;
  Some {| campaignSummary := a; idealCustomerProfile := b; messagingPillars := c;
          channelStrategy := d; automationWorkflow := e; experiments := f;
          nextSteps := g |}.

(** Structured decode of a text against the plan shape. *)
Definition decodePlan (text : string) : option LeadPlan :=
  v ← JSON_parse text;
  planFromJson v.

(** The text from its first opening brace on. *)
Fixpoint fromFirstBrace (s : string) : option string :=
  match s with
  | EmptyString => None
  | String c r => if Ascii.eqb c "{" then Some s else fromFirstBrace r
  end.

(** The text up to and with its last closing brace. *)
Fixpoint uptoLastBrace (s : string) : option string :=
  match s with
  | EmptyString => None
  | String c r =>
      match uptoLastBrace r with
      | Some p => Some (String c p)
      | None => if Ascii.eqb c "}" then Some (String c EmptyString) else None
      end
  end.

Definition braceSpan (text : string) : option string :=
  s ← fromFirstBrace text;
  uptoLastBrace s.

(** Modelled from the spec: [parsePlan], the [tryParsePlan] of [@/lib/types],
    which is not among the sources.  Direct decode of the whole text; failing
    that, decode of the span from the first opening brace to the last closing
    brace, with a message that notes the recovery; failing that, the text
    itself as [raw] with the failure message.  The wording of the recovery
    message is not fixed by the spec and is taken as [recoveryNote]. *)
Definition parsePlan (recoveryNote : string) (modelText : string) : ParseResult :=
  match decodePlan modelText with
  | Some p => {| plan := Some p; raw := None; message := None |}
  | None =>
      match span ← braceSpan modelText; decodePlan span with
      | Some p => {| plan := Some p; raw := None; message := Some recoveryNote |}
      | None =>
          {| plan := None; raw := Some modelText;
             message := Some "model output could not be parsed as a structured plan" |}
      end
  end.

(** Every list field of a plan is non-empty. *)
Definition validPlan (p : LeadPlan) : Prop :=
  successMetrics (campaignSummary p) <> [] /\
  companyTraits (idealCustomerProfile p) <> [] /\
  buyerPersona (idealCustomerProfile p) <> [] /\
  painPoints (idealCustomerProfile p) <> [] /\
  messagingPillars p <> [] /\
  Forall (fun x => proofPoints x <> []) (messagingPillars p) /\
  channelStrategy p <> [] /\
  automationWorkflow p <> [] /\
  Forall (fun x => steps x <> []) (automationWorkflow p) /\
  experiments p <> [] /\
  nextSteps p <> [].

(** The three modules together, as the route and the page import them. *)
Definition specLib (o : SchemaOptions) (recoveryNote : string) : Lib :=
  {| leadRequestSchema_safeParse := validate o;
     buildLeadPlanPrompt := fun brief => Returned (buildPrompt brief);
     tryParsePlan := fun text => Returned (parsePlan recoveryNote text) |}.

(* ================================================================== *)
(** * Part IX: observers of a run and sample data                       *)
(* ================================================================== *)

Definition isChatCompletion (ev : Event) : bool :=
  match ev with EvChatCompletion _ => true | _ => false end.

Definition isFallback (ev : Event) : bool :=
  match ev with EvFallback _ => true | _ => false end.

(** The model service was called during the run. *)
Definition modelInvoked (log : list Event) : bool := existsb isChatCompletion log.

(** [buildFallbackPlan] was called during the run. *)
Definition fallbackInvoked (log : list Event) : bool := existsb isFallback log.

(** The issue is attributed to field [f]: [f] is the head of its path. *)
Definition attributedTo (f : string) (i : ZodIssue) : bool :=
  match issue_path i with
  | seg :: _ => String.eqb (propertyKey seg) f
  | [] => false
  end.

(** The messages of the issues attributed to [f], in the order of the
    issues. *)
Definition messagesFor (f : string) (e : ZodError) : list string :=
  map issue_message (List.filter (attributedTo f) (issues e)).

(** The messages of the issues attributed to no field. *)
Definition rootMessages (e : ZodError) : list string :=
  map issue_message
    (List.filter (fun i => match issue_path i with [] => true | _ => false end) (issues e)).

(** [fieldErrors[f]], [None] for [undefined]. *)
Definition fieldErrorsAt (f : string) (fl : Flattened) : option (list string) :=
  (list_to_map (fieldErrors fl) : gmap string (list string)) !! f.

(** No field of the dictionary holds an empty array. *)
Definition nonEmptyValues (fe : list (string * list string)) : Prop :=
  ∀ f l, (list_to_map fe : gmap string (list string)) !! f = Some l → l ≠ [].

(** The initial form state of the page. *)
Definition defaultState : LeadRequest :=
  {| businessName := "Lumos Analytics";
     industry := "B2B SaaS • Marketing Analytics";
     productDescription :=
       "A RevOps intelligence platform that connects marketing campaigns to pipeline impact and provides automated recommendations.";
     targetCustomer :=
       "Heads of Demand Gen or Growth at Series B-D SaaS companies using HubSpot/Salesforce, running multi-channel campaigns, needing clearer ROI.";
     uniqueValue :=
       "Real-time attribution without heavy implementation, plus AI suggestions that surface tactics proven to lift opportunity creation.";
     goals := ["Book discovery calls"; "Increase demo requests"];
     channels := ["Cold email"; "LinkedIn outreach"; "Webinars"];
     tone := "Data-driven";
     offer := "Unlock a free pipeline efficiency audit with tailored next steps.";
     notes :=
       Some "We recently partnered with Gong and have a customer story from Segment. We collaborate closely with RevOps teams.";
     budgetLevel := Balanced;
     timeframe := ThirtyDays |}.

(** The members of the enumerations that the initial form state shows. *)
Definition sampleOptions : SchemaOptions :=
  {| goalOptions := ["Book discovery calls"; "Increase demo requests"];
     channelOptions := ["Cold email"; "LinkedIn outreach"; "Webinars"];
     toneOptions := ["Data-driven"];
     maxLength := 1000 |}.

Definition sampleLib : Lib := specLib sampleOptions "Recovered the plan from the surrounding text.".

(** A two-week sprint on other goals, for another customer. *)
Definition sprintState : LeadRequest :=
  {| businessName := businessName defaultState;
     industry := industry defaultState;
     productDescription := productDescription defaultState;
     targetCustomer := "RevOps leads at seed-stage startups";
     uniqueValue := uniqueValue defaultState;
     goals := ["Increase demo requests"];
     channels := channels defaultState;
     tone := "Playful";
     offer := offer defaultState;
     notes := None;
     budgetLevel := budgetLevel defaultState;
     timeframe := timeframe defaultState |}.

(** A form whose two goals are outside the enumeration. *)
Definition strayGoalsState : LeadRequest :=
  {| businessName := businessName defaultState;
     industry := industry defaultState;
     productDescription := productDescription defaultState;
     targetCustomer := targetCustomer defaultState;
     uniqueValue := uniqueValue defaultState;
     goals := ["Go viral"; "Win awards"];
     channels := channels defaultState;
     tone := tone defaultState;
     offer := offer defaultState;
     notes := notes defaultState;
     budgetLevel := budgetLevel defaultState;
     timeframe := timeframe defaultState |}.

Definition bodyOf (r : LeadRequest) : string := JSON_stringify (leadRequestToJson r).

(** No credential in the environment. *)
Definition worldNoKey : World :=
  {| request_body := bodyOf defaultState;
     OPENAI_API_KEY := None;
     getOpenAIClient := Thrown (Error "Missing OPENAI_API_KEY") |}.

Definition clientDown : OpenAIClient :=
  {| chat_completions_create := fun _ => Thrown (Error "503 Service Unavailable") |}.

(** A credential, and a service that fails. *)
Definition worldServiceDown : World :=
  {| request_body := bodyOf defaultState;
     OPENAI_API_KEY := Some "sk-test";
     getOpenAIClient := Returned clientDown |}.

Definition clientRateLimited : OpenAIClient :=
  {| chat_completions_create := fun _ => Thrown (Error "429 Too Many Requests") |}.

(** The same request, another credential, and a service that refuses. *)
Definition worldRateLimited : World :=
  {| request_body := bodyOf defaultState;
     OPENAI_API_KEY := Some "sk-live";
     getOpenAIClient := Returned clientRateLimited |}.

Definition completionOf (text : string) : ChatCompletion :=
  {| choices := Some [ {| choice_message := Some {| message_content := Some text |} |} ] |}.

Definition clientRefusing : OpenAIClient :=
  {| chat_completions_create := fun _ => Returned (completionOf "I cannot help with that.") |}.

(** A credential, and a model that answers in prose. *)
Definition worldRefusal : World :=
  {| request_body := bodyOf defaultState;
     OPENAI_API_KEY := Some "sk-test";
     getOpenAIClient := Returned clientRefusing |}.

(** A body that validation rejects. *)
Definition worldStrayGoals : World :=
  {| request_body := bodyOf strayGoalsState;
     OPENAI_API_KEY := None;
     getOpenAIClient := Thrown (Error "Missing OPENAI_API_KEY") |}.

(** A body that is not JSON. *)
Definition worldMalformed : World :=
  {| request_body := "businessName=Lumos Analytics";
     OPENAI_API_KEY := None;
     getOpenAIClient := Thrown (Error "Missing OPENAI_API_KEY") |}.

(** A page that holds the rejected form, and a network that is down. *)
Definition strayGoalsPage : PageState :=
  {| form := strayGoalsState; errors := ∅; loading := false;
     page_plan := None; rawPlan := None; statusMessage := None |}.

Definition fetchOffline (url : string) (init : FetchInit) : Outcome FetchResponse :=
  Thrown (Error "Failed to fetch").

(* ================================================================== *)
(** * Part IX-A: the rest of the page: selections and reset              *)
(* ================================================================== *)

(** ** [Set], as the page uses it: the elements in insertion order *)

Definition Set_has (x : string) (s : list string) : bool := existsb (String.eqb x) s.

Definition Set_add (x : string) (s : list string) : list string :=
  if Set_has x s then s else s ++ [x].

Definition Set_delete (x : string) (s : list string) : list string :=
  List.filter (fun y => negb (String.eqb y x)) s.

(** [new Set(iterable)]: the elements added one by one. *)
Definition newSet (l : list string) : list string :=
  foldl (fun s x => Set_add x s) [] l.

(** [Array.from(set)]. *)
Definition Array_from (s : list string) : list string := s.

(** ** [updateField] *)

(** [keyof LeadFormState]. *)
Inductive FieldKey :=
| KBusinessName | KIndustry | KProductDescription | KTargetCustomer | KUniqueValue
| KGoals | KChannels | KTone | KOffer | KNotes | KBudgetLevel | KTimeframe.

(** [LeadFormState[K]]. *)
Definition FieldValue (k : FieldKey) : Type :=
  match k with
  | KGoals | KChannels => list string
  | KNotes => option string
  | KBudgetLevel => BudgetLevel
  | KTimeframe => Timeframe
  | _ => string
  end.

(** [{ ...prev, [key]: value }]. *)
Definition withField (k : FieldKey) : FieldValue k -> LeadRequest -> LeadRequest :=
  match k as k0 return FieldValue k0 -> LeadRequest -> LeadRequest with
  | KBusinessName => fun v r =>
      Build_LeadRequest v (industry r) (productDescription r) (targetCustomer r)
        (uniqueValue r) (goals r) (channels r) (tone r) (offer r) (notes r)
        (budgetLevel r) (timeframe r)
  | KIndustry => fun v r =>
      Build_LeadRequest (businessName r) v (productDescription r) (targetCustomer r)
        (uniqueValue r) (goals r) (channels r) (tone r) (offer r) (notes r)
        (budgetLevel r) (timeframe r)
  | KProductDescription => fun v r =>
      Build_LeadRequest (businessName r) (industry r) v (targetCustomer r)
        (uniqueValue r) (goals r) (channels r) (tone r) (offer r) (notes r)
        (budgetLevel r) (timeframe r)
  | KTargetCustomer => fun v r =>
      Build_LeadRequest (businessName r) (industry r) (productDescription r) v
        (uniqueValue r) (goals r) (channels r) (tone r) (offer r) (notes r)
        (budgetLevel r) (timeframe r)
  | KUniqueValue => fun v r =>
      Build_LeadRequest (businessName r) (industry r) (productDescription r)
        (targetCustomer r) v (goals r) (channels r) (tone r) (offer r) (notes r)
        (budgetLevel r) (timeframe r)
  | KGoals => fun v r =>
      Build_LeadRequest (businessName r) (industry r) (productDescription r)
        (targetCustomer r) (uniqueValue r) v (channels r) (tone r) (offer r) (notes r)
        (budgetLevel r) (timeframe r)
  | KChannels => fun v r =>
      Build_LeadRequest (businessName r) (industry r) (productDescription r)
        (targetCustomer r) (uniqueValue r) (goals r) v (tone r) (offer r) (notes r)
        (budgetLevel r) (timeframe r)
  | KTone => fun v r =>
      Build_LeadRequest (businessName r) (industry r) (productDescription r)
        (targetCustomer r) (uniqueValue r) (goals r) (channels r) v (offer r) (notes r)
        (budgetLevel r) (timeframe r)
  | KOffer => fun v r =>
      Build_LeadRequest (businessName r) (industry r) (productDescription r)
        (targetCustomer r) (uniqueValue r) (goals r) (channels r) (tone r) v (notes r)
        (budgetLevel r) (timeframe r)
  | KNotes => fun v r =>
      Build_LeadRequest (businessName r) (industry r) (productDescription r)
        (targetCustomer r) (uniqueValue r) (goals r) (channels r) (tone r) (offer r) v
        (budgetLevel r) (timeframe r)
  | KBudgetLevel => fun v r =>
      Build_LeadRequest (businessName r) (industry r) (productDescription r)
        (targetCustomer r) (uniqueValue r) (goals r) (channels r) (tone r) (offer r)
        (notes r) v (timeframe r)
  | KTimeframe => fun v r =>
      Build_LeadRequest (businessName r) (industry r) (productDescription r)
        (targetCustomer r) (uniqueValue r) (goals r) (channels r) (tone r) (offer r)
        (notes r) (budgetLevel r) v
  end.

Definition setForm (v : LeadRequest) (st : PageState) : PageState :=
  {| form := v; errors := errors st; loading := loading st;
     page_plan := page_plan st; rawPlan := rawPlan st; statusMessage := statusMessage st |}.

(** [updateField(key, value)]: [setForm(prev => ({ ...prev, [key]: value }))]. *)
Definition updateField (k : FieldKey) (v : FieldValue k) (st : PageState) : PageState :=
  setForm (withField k v (form st)) st.

(** ** [toggleSelection] *)

(** [keyof Pick<LeadFormState, "goals" | "channels">]. *)
Inductive ListKey := GoalsKey | ChannelsKey.

Definition selectionOf (k : ListKey) (r : LeadRequest) : list string :=
  match k with
  | GoalsKey => goals r
  | ChannelsKey => channels r
  end.

Definition updateListField (k : ListKey) (v : list string) (st : PageState) : PageState :=
  match k with
  | GoalsKey => updateField KGoals v st
  | ChannelsKey => updateField KChannels v st
  end.

Definition toggleSelection (value : string) (selected : list string) (key : ListKey)
    (st : PageState) : PageState :=
  let next := newSet selected in
  let next := if Set_has value next then Set_delete value next else Set_add value next in
  updateListField key (Array_from next) st.

(** A click on the button of [value]: [toggleSelection] with the memoized
    set of the list the button belongs to ([goalSelections] for a goal,
    [channelSelections] for a channel). *)
Definition clickOption (key : ListKey) (value : string) (st : PageState) : PageState :=
  toggleSelection value (newSet (selectionOf key (form st))) key st.

(** ** [resetForm] *)

Definition resetForm (st : PageState) : PageState :=
  setStatusMessage None
    (setRawPlan None (setPlan None (setErrors ∅ (setForm defaultState st)))).

(** The page as it is first rendered. *)
Definition initialPage : PageState :=
  {| form := defaultState; errors := ∅; loading := false;
     page_plan := None; rawPlan := None; statusMessage := None |}.

(* ================================================================== *)
(** * Part IX-B: the preview of the plan                                *)
(* ================================================================== *)

(** What [PlanPreview] returns: one of its three templates, with the data
    the template is filled with. *)
Inductive PreviewView :=
| Placeholder
| RawResponse (text : string)
| Blueprint (shown : LeadPlan).

(** [PlanPreview({ plan, raw })]; [None] is the [return null] of the third
    test. *)
Definition PlanPreview (plan : option LeadPlan) (raw : option string) : option PreviewView :=
  let noPlan := match plan with None => true | Some _ => false end in
  if noPlan && negb (truthy raw) then Some Placeholder
  else if noPlan && truthy raw then Some (RawResponse (default EmptyString raw))
  else
    match plan with
    | None => None
    | Some p => Some (Blueprint p)
    end.

(** The titles of the sections of the blueprint, in their order. *)
Definition sectionTitles : list string :=
  [ "Campaign Summary"; "Ideal Customer Profile"; "Messaging Pillars";
    "Channel Strategy"; "Automation Workflow"; "Experiments"; "Next Steps" ].

(** [String(index)]. *)
Definition decimal (i : nat) : string := NilEmpty.string_of_uint (Nat.to_uint i).

(** The React keys of the lists of the blueprint. *)
Definition channelKeys (p : LeadPlan) : list string :=
  map (fun item => channel item +:+ "-" +:+ objective item) (channelStrategy p).

Definition stepKeys (flow : AutomationFlow) : list string :=
  imap (fun index _ => name flow +:+ "-" +:+ decimal index) (steps flow).

Definition experimentKeys (p : LeadPlan) : list string :=
  imap (fun index e => hypothesis e +:+ "-" +:+ decimal index) (experiments p).

(** ** [JSON.stringify(value, null, gap)] with a gap of spaces *)

Definition newline : ascii := "010"%char.

Fixpoint spaces (n : nat) : string :=
  match n with
  | O => EmptyString
  | S n' => String " " (spaces n')
  end.

(** A line break and the indentation of the next line. *)
Definition breakLine (indent : nat) : string := String newline (spaces indent).

(** SerializeJSONObject and SerializeJSONArray with a non-empty gap:
    [indent] is the indentation of the line the value starts on. *)
Fixpoint JSON_stringify_gap (gap indent : nat) (v : Json) : string :=
  match v with
  | JNull => "null"
  | JBool true => "true"
  | JBool false => "false"
  | JNumber lit => lit
  | JString s => quoteJSONString s
  | JArray [] => "[]"
  | JArray (x :: xs) =>
      "[" +:+ breakLine (indent + gap) +:+ JSON_stringify_gap gap (indent + gap) x +:+
      (fix rest (l : list Json) : string :=
         match l with
         | [] => breakLine indent +:+ "]"
         | y :: l' =>
             "," +:+ breakLine (indent + gap)
             +:+ JSON_stringify_gap gap (indent + gap) y +:+ rest l'
         end) xs
  | JObject [] => "{}"
  | JObject ((k, x) :: ms) =>
      "{" +:+ breakLine (indent + gap) +:+ quoteJSONString k +:+ ": "
      +:+ JSON_stringify_gap gap (indent + gap) x +:+
      (fix rest (l : list (string * Json)) : string :=
         match l with
         | [] => breakLine indent +:+ "}"
         | (k', y) :: l' =>
             "," +:+ breakLine (indent + gap) +:+ quoteJSONString k' +:+ ": "
             +:+ JSON_stringify_gap gap (indent + gap) y +:+ rest l'
         end) ms
  end.

(** The text of an indented array after its first element. *)
Definition arrayTailGap (gap indent : nat) : list Json -> string :=
  fix rest (l : list Json) : string :=
    match l with
    | [] => breakLine indent +:+ "]"
    | y :: l' =>
        "," +:+ breakLine (indent + gap)
        +:+ JSON_stringify_gap gap (indent + gap) y +:+ rest l'
    end.

(** The text of an indented object after its first member. *)
Definition objectTailGap (gap indent : nat) : list (string * Json) -> string :=
  fix rest (l : list (string * Json)) : string :=
    match l with
    | [] => breakLine indent +:+ "}"
    | (k, y) :: l' =>
        "," +:+ breakLine (indent + gap) +:+ quoteJSONString k +:+ ": "
        +:+ JSON_stringify_gap gap (indent + gap) y +:+ rest l'
    end.

(** The indented text reads back as the value, with enough fuel and
    whatever text follows. *)
Definition roundTripsGap (v : Json) : Prop :=
  numberFree v = true ->
  forall (gap indent fuel : nat) (rest : string),
    (String.length (JSON_stringify_gap gap indent v) <= fuel)%nat ->
    parseValue fuel (JSON_stringify_gap gap indent v +:+ rest) = Some (v, rest).

(** ** [handleCopy] *)

(** The text that [handleCopy] hands to the clipboard:
    [plan ? JSON.stringify(plan, null, 2) : raw ?? ""]. *)
Definition clipboardText (plan : option LeadPlan) (raw : option string) : string :=
  match plan with
  | Some p => JSON_stringify_gap 2 0 (planToJson p)
  | None => default EmptyString raw
  end.

(** [handleCopy]: the text written, and the value of [copied] after the
    [try] statement; [writeText] is the clipboard of the browser.  The timer
    that clears [copied] later is left out. *)
Definition handleCopy (writeText : string -> Outcome unit)
    (plan : option LeadPlan) (raw : option string) : string * bool :=
  let text := clipboardText plan raw in
  match writeText text with
  | Returned _ => (text, true)
  | Thrown _ => (text, false)
  end.

(* ================================================================== *)
(** * Part IX-C: the page in front of the route                         *)
(* ================================================================== *)

(** The second argument of the [fetch] call of [handleSubmit]. *)
Definition planRequest (payload : LeadRequest) : FetchInit :=
  {| method := "POST";
     headers := [ ("Content-Type", "application/json") ];
     fetch_body := JSON_stringify (leadRequestToJson payload) |}.

(** [Response.ok]: a status from 200 to 299. *)
Definition responseOk (r : Response) : bool :=
  (200 <=? status r)%nat && (status r <=? 299)%nat.

(** The world that a request with this body meets on the server [env]. *)
Definition worldOf (env : World) (requestBody : string) : World :=
  {| request_body := requestBody;
     OPENAI_API_KEY := OPENAI_API_KEY env;
     getOpenAIClient := getOpenAIClient env |}.

(** [fetch] answered by the route: the response of [POST] for the body of
    the request, its JSON body read back as the object it was built from.
    What the framework sends when the handler throws is not part of the
    repository and is left as [onCrash]. *)
Definition fetchRoute {SP : StringPrototype} {L : Lib} (env : World)
    (onCrash : Exception -> Outcome FetchResponse)
    (url : string) (init : FetchInit) : Outcome FetchResponse :=
  match fst (run (POST (worldOf env (fetch_body init)))) with
  | Returned r => Returned {| ok := responseOk r; json := Returned (dataOf (body r)) |}
  | Thrown e => onCrash e
  end.

(** The text holds no hyphen. *)
Fixpoint dashFree (s : string) : bool :=
  match s with
  | EmptyString => true
  | String c r => negb (Ascii.eqb c "-") && dashFree r
  end.

(** ** More sample data *)

(** A server one release behind the page: its schema does not know the
    channel "Webinars" yet. *)
Definition olderOptions : SchemaOptions :=
  {| goalOptions := ["Book discovery calls"; "Increase demo requests"];
     channelOptions := ["Cold email"; "LinkedIn outreach"];
     toneOptions := ["Data-driven"];
     maxLength := 1000 |}.

Definition olderLib : Lib := specLib olderOptions "Recovered the plan from the surrounding text.".

(** A parser that throws on every text. *)
Definition throwingParserLib : Lib :=
  {| leadRequestSchema_safeParse := validate sampleOptions;
     buildLeadPlanPrompt := fun brief => Returned (buildPrompt brief);
     tryParsePlan := fun _ => Thrown (Error "Maximum call stack size exceeded") |}.

(** A credential that the client factory refuses. *)
Definition worldBadCredential : World :=
  {| request_body := bodyOf defaultState;
     OPENAI_API_KEY := Some "sk-";
     getOpenAIClient := Thrown (Error "The OPENAI_API_KEY is malformed") |}.

(** A credential, and a model that answers with the JSON text of a plan. *)
Definition worldModelPlan : World :=
  {| request_body := bodyOf defaultState;
     OPENAI_API_KEY := Some "sk-test";
     getOpenAIClient :=
       Returned
         {| chat_completions_create := fun _ =>
              Returned (completionOf
                          (serializePlan (@buildFallbackPlan asciiStrings sprintState))) |} |}.

(** The answer of the route to the default brief on a server without
    credential. *)
Definition answerNoKey : Response :=
  {| status := 200;
     body := FallbackBody (@buildFallbackPlan asciiStrings defaultState) None
               "OPENAI_API_KEY is not configured. Responding with a heuristic fallback plan." |}.

(** The default brief behind a byte order mark, on a server without
    credential. *)
Definition worldNoKeyBOM : World :=
  {| request_body := String "239" (String "187" (String "191" (bodyOf defaultState)));
     OPENAI_API_KEY := None;
     getOpenAIClient := Thrown (Error "OPENAI_API_KEY is not set") |}.

(** A page that shows the plan and the raw text of an earlier answer. *)
Definition shownPage : PageState :=
  {| form := defaultState; errors := ∅; loading := false;
     page_plan := Some (@buildFallbackPlan asciiStrings sprintState);
     rawPlan := Some "An earlier answer of the model.";
     statusMessage := Some "Campaign blueprint generated!" |}.

(** A server that answers with a plan, a warning and a notice at once. *)
Definition bothTexts : DataFields :=
  {| error_of := None;
     plan_of := Some (@buildFallbackPlan asciiStrings defaultState);
     raw_of := None;
     warning_of := Some "The plan was cut short.";
     notice_of := Some "Recovered the plan from the surrounding text." |}.

Definition fetchBothTexts (url : string) (init : FetchInit) : Outcome FetchResponse :=
  Returned {| ok := true; json := Returned (ObjectJson bothTexts) |}.

(** A server that answers 200 with the body [null]. *)
Definition fetchNull (url : string) (init : FetchInit) : Outcome FetchResponse :=
  Returned {| ok := true; json := Returned NullJson |}.

(** What the browser makes of a crash of the handler: a 500 without a JSON
    body. *)
Definition crashPage (e : Exception) : Outcome FetchResponse :=
  Returned {| ok := false; json := Thrown SyntaxError |}.

(** A crash of the handler seen as a network failure. *)
Definition crashOffline (e : Exception) : Outcome FetchResponse :=
  Thrown (Error "Failed to fetch").

(* ================================================================== *)
(** * Part IX-D: the body of the synthesizer as syntax                  *)
(* ================================================================== *)

(** [buildFallbackPlan] once more, as the expression that the function
    returns, with an evaluator for the constructs of JavaScript it is
    written in and for those that would make a function depend on what is
    outside of it: a read of the clock, a read of a variable of the module or
    of the process, a write to one, and output on the console. *)

#[warnings="-register-all"] Inductive Expr :=
| EStr (s : string)                                 (* a string literal *)
| ETemplate (parts : list Expr)                     (* a template literal, its texts as [EStr] *)
| EVar (x : string)                                 (* an identifier *)
| EMember (e : Expr) (key : string)                 (* [e.key] *)
| EToLowerCase (e : Expr)                           (* [e.toLowerCase()] *)
| EMap (e : Expr) (param : string) (callback : Expr)  (* [e.map((param) => (callback))] *)
| EArray (items : list Expr)                        (* [[e, ...]] *)
| EObject (props : list (string * Expr))            (* [{ key: e, ... }] *)
| ECond (test thenE elseE : Expr)                   (* [test ? thenE : elseE] *)
| EEqStr (e : Expr) (lit : string)                  (* [e === "lit"] *)
| EDateNow                                          (* [Date.now()] *)
| EConsoleLog (e : Expr)                            (* [console.log(e)] *)
| EAssign (x : string) (e : Expr).                  (* [x = e], [x] declared outside *)

(** What is outside the function: the clock, the variables declared around
    it, and what was written on the console. *)
Record Ambient := {
  clock : nat;
  outer : list (string * Json);
  console : list (option Json)
}.

(** How an evaluation ends: with a value, with a thrown value, or in a case
    that the evaluator does not cover. *)
Inductive Completion (A : Type) :=
| Normal (a : A)
| Abrupt (e : Exception)
| Uncovered.
Arguments Normal {A} a.
Arguments Abrupt {A} e.
Arguments Uncovered {A}.

(** An evaluation reads and changes what is outside. *)
Definition Js (A : Type) : Type := Ambient -> Completion A * Ambient.

Definition retJs {A} (x : A) : Js A := fun a => (Normal x, a).

Definition bindJs {A B} (m : Js A) (k : A -> Js B) : Js B := fun a =>
  match m a with
  | (Normal x, a') => k x a'
  | (Abrupt e, a') => (Abrupt e, a')
  | (Uncovered, a') => (Uncovered, a')
  end.

Definition throwJs {A} (e : Exception) : Js A := fun a => (Abrupt e, a).

Definition uncovered {A} : Js A := fun a => (Uncovered, a).

Definition TypeError : Exception := Error "TypeError".
Definition ReferenceError : Exception := Error "ReferenceError".

Section MapJs.
Context {A B : Type} (f : A -> Js B).

(** The elements one after the other, from left to right. *)
Fixpoint mapJs (l : list A) : Js (list B) :=
  match l with
  | [] => retJs []
  | x :: r => bindJs (f x) (fun y => bindJs (mapJs r) (fun ys => retJs (y :: ys)))
  end.

End MapJs.

(** A JavaScript value is a JSON value or [undefined], which is [None]. *)

(** ToString. *)
Fixpoint ToString (v : Json) : string :=
  match v with
  | JNull => "null"
  | JBool true => "true"
  | JBool false => "false"
  | JNumber lit => lit
  | JString s => s
  | JArray items =>
      (fix join (l : list Json) : string :=
         match l with
         | [] => EmptyString
         | x :: r =>
             let s := match x with JNull => EmptyString | _ => ToString x end in
             match r with
             | [] => s
             | _ :: _ => s +:+ "," +:+ join r
             end
         end) items
  | JObject _ => "[object Object]"
  end.

Definition ToStringValue (v : option Json) : string :=
  match v with
  | None => "undefined"
  | Some j => ToString j
  end.

(** ToBoolean; the zero test of a number is not covered. *)
Definition ToBoolean (v : option Json) : option bool :=
  match v with
  | None | Some JNull => Some false
  | Some (JBool b) => Some b
  | Some (JString s) => Some (negb (String.eqb s EmptyString))
  | Some (JNumber _) => None
  | Some (JArray _) | Some (JObject _) => Some true
  end.

(** The texts of a template literal, joined. *)
Fixpoint joinParts (l : list string) : string :=
  match l with
  | [] => EmptyString
  | [s] => s
  | s :: r => s +:+ joinParts r
  end.

(** A property of an object: of two members with one key the later one
    counts. *)
Definition property (key : string) (members : list (string * Json)) : option Json :=
  fold_left (fun found m => if String.eqb (fst m) key then Some (snd m) else found)
            members None.

(** A variable: the innermost binding first. *)
Fixpoint lookupVar (x : string) (bindings : list (string * Json)) : option Json :=
  match bindings with
  | [] => None
  | (y, v) :: r => if String.eqb y x then Some v else lookupVar x r
  end.

Fixpoint distinctb (keys : list string) : bool :=
  match keys with
  | [] => true
  | k :: r => negb (existsb (String.eqb k) r) && distinctb r
  end.

(** An array or an object that holds [undefined] is not a JSON value. *)
Fixpoint allDefined {K} (l : list (K * option Json)) : option (list (K * Json)) :=
  match l with
  | [] => Some []
  | (k, Some v) :: r =>
      match allDefined r with
      | Some r' => Some ((k, v) :: r')
      | None => None
      end
  | (_, None) :: _ => None
  end.

Definition definedArray (vs : list (option Json)) : Js (option Json) :=
  match allDefined (map (fun v => (tt, v)) vs) with
  | Some l => retJs (Some (JArray (map snd l)))
  | None => uncovered
  end.

Definition definedObject (ps : list (string * option Json)) : Js (option Json) :=
  match allDefined ps with
  | Some l => retJs (Some (JObject l))
  | None => uncovered
  end.

Section Evaluator.
Context {SP : StringPrototype}.

(** The value of an expression, with the parameters in scope [ρ]. *)
Fixpoint evalExpr (e : Expr) (ρ : list (string * Json)) {struct e} : Js (option Json) :=
  match e with
  | EStr s => retJs (Some (JString s))
  | ETemplate parts =>
      bindJs (mapJs (fun p => evalExpr p ρ) parts) (fun vs =>
      retJs (Some (JString (joinParts (map ToStringValue vs)))))
  | EVar x =>
      fun a =>
        match lookupVar x ρ with
        | Some v => (Normal (Some v), a)
        | None =>
            match lookupVar x (outer a) with
            | Some v => (Normal (Some v), a)
            | None => (Abrupt ReferenceError, a)
            end
        end
  | EMember e' key =>
      bindJs (evalExpr e' ρ) (fun v =>
        match v with
        | None | Some JNull => throwJs TypeError
        | Some (JObject members) => retJs (property key members)
        | Some _ => uncovered
        end)
  | EToLowerCase e' =>
      bindJs (evalExpr e' ρ) (fun v =>
        match v with
        | Some (JString s) => retJs (Some (JString (toLowerCase s)))
        | _ => throwJs TypeError
        end)
  | EMap e' param callback =>
      bindJs (evalExpr e' ρ) (fun v =>
        match v with
        | Some (JArray items) =>
            bindJs (mapJs (fun item => evalExpr callback ((param, item) :: ρ)) items)
                   definedArray
        | _ => throwJs TypeError
        end)
  | EArray items =>
      bindJs (mapJs (fun item => evalExpr item ρ) items) definedArray
  | EObject props =>
      if distinctb (map fst props) then
        bindJs (mapJs (fun p => match p with
                                | (key, e') =>
                                    bindJs (evalExpr e' ρ) (fun v => retJs (key, v))
                                end) props)
               definedObject
      else uncovered
  | ECond test thenE elseE =>
      bindJs (evalExpr test ρ) (fun v =>
        match ToBoolean v with
        | Some true => evalExpr thenE ρ
        | Some false => evalExpr elseE ρ
        | None => uncovered
        end)
  | EEqStr e' lit =>
      bindJs (evalExpr e' ρ) (fun v =>
        retJs (Some (JBool match v with
                           | Some (JString s) => String.eqb s lit
                           | _ => false
                           end)))
  | EDateNow =>
      fun a => (Normal (Some (JNumber (decimal (clock a)))), a)
  | EConsoleLog e' =>
      bindJs (evalExpr e' ρ) (fun v a =>
        (Normal None,
         {| clock := clock a; outer := outer a; console := console a ++ [v] |}))
  | EAssign x e' =>
      bindJs (evalExpr e' ρ) (fun v a =>
        match lookupVar x ρ, lookupVar x (outer a), v with
        | Some _, _, _ => (Uncovered, a)
        | None, None, _ => (Abrupt ReferenceError, a)
        | None, Some _, None => (Uncovered, a)
        | None, Some _, Some j =>
            (Normal v,
             {| clock := clock a; outer := (x, j) :: outer a; console := console a |})
        end)
  end.

End Evaluator.

(** ** The expression that [buildFallbackPlan] returns *)

(** [payload.key]. *)
Definition payload_ (key : string) : Expr := EMember (EVar "payload") key.

Definition campaignSummary_e : Expr :=
  EObject
    [ ("northStar",
       ETemplate [ EStr "Generate qualified pipeline for "; payload_ "businessName";
                   EStr " within "; payload_ "timeframe"; EStr "." ]);
      ("successMetrics",
       EArray [ EStr "Meetings booked per week";
                EStr "Reply rate %";
                EStr "Pipeline value influenced" ]);
      ("positioningTheme",
       ETemplate [ EStr "Position as the "; EToLowerCase (payload_ "uniqueValue") ]) ].

Definition idealCustomerProfile_e : Expr :=
  EObject
    [ ("companyTraits",
       EArray [ ETemplate [ EStr "Operates in "; payload_ "industry" ];
                EStr "Mid-market to enterprise accounts";
                EStr "Teams with urgent need for modernization" ]);
      ("buyerPersona",
       EArray [ EStr "Economic buyer: VP / Director level stakeholder";
                EStr "Technical champion: hands-on practitioner";
                EStr "Influencer: adjacent department peer" ]);
      ("painPoints",
       EArray [ EStr "Manual workflows causing wasted spend";
                EStr "Pressure to show ROI quickly";
                EStr "Need to differentiate in competitive market" ]) ].

Definition messagingPillars_e : Expr :=
  EArray
    [ EObject
        [ ("title", EStr "Value driver");
          ("angle",
           ETemplate [ EStr "Highlight how "; EToLowerCase (payload_ "productDescription");
                       EStr " unlocks measurable ROI." ]);
          ("proofPoints",
           EArray [ EStr "Quantify time or cost savings";
                    EStr "Reference a key customer win";
                    EStr "Mention implementation support" ]) ];
      EObject
        [ ("title", EStr "Risk reducer");
          ("angle", EStr "Show how the offer reduces risk compared to current status quo.");
          ("proofPoints",
           EArray [ EStr "Share guarantee or SLA";
                    EStr "Provide social proof snippet";
                    EStr "Emphasize ease-of-adoption" ]) ] ].

(** The object that the arrow function returns; [channel] alone stands for
    [channel: channel]. *)
Definition channelPlay_e : Expr :=
  EObject
    [ ("channel", EVar "channel");
      ("objective",
       ETemplate [ EStr "Drive "; EToLowerCase (payload_ "offer"); EStr " conversions." ]);
      ("play",
       ETemplate [ EStr "Run a "; payload_ "budgetLevel";
                   EStr " budget program combining intent data and manual research." ]);
      ("cadence",
       ECond (EEqStr (payload_ "timeframe") "2 weeks") (EStr "3x weekly") (EStr "Weekly"));
      ("sampleCopy", ETemplate [ EStr "Hi {{first_name}}, "; payload_ "offer" ]) ].

Definition channelStrategy_e : Expr :=
  EMap (payload_ "channels") "channel" channelPlay_e.

Definition automationWorkflow_e : Expr :=
  EArray
    [ EObject
        [ ("name", EStr "Prompt follow-up sequence");
          ("trigger", EStr "Form submission or positive reply");
          ("steps",
           EArray [ EStr "Send tailored follow-up within 4 hours";
                    EStr "Share relevant asset on day 3";
                    EStr "Escalate to call invite on day 5 if no response" ]) ] ].

Definition experiments_e : Expr :=
  EArray
    [ EObject
        [ ("hypothesis",
           EStr "Referencing a mutual connection increases cold outreach replies.");
          ("experiment", EStr "Test LinkedIn InMail templates with social proof block.");
          ("metric", EStr "Positive reply rate") ];
      EObject
        [ ("hypothesis", EStr "Offering a quick teardown boosts meeting bookings.");
          ("experiment", EStr "Cold email variant offering 15-min audit.");
          ("metric", EStr "Meetings booked") ] ].

Definition nextSteps_e : Expr :=
  EArray [ EStr "Finalize lead list with top 200 accounts";
           EStr "Draft channel-specific outreach scripts";
           EStr "Enable experiment tracking dashboard";
           EStr "Launch in waves and optimize weekly" ].

Definition buildFallbackPlan_body : Expr :=
  EObject
    [ ("campaignSummary", campaignSummary_e);
      ("idealCustomerProfile", idealCustomerProfile_e);
      ("messagingPillars", messagingPillars_e);
      ("channelStrategy", channelStrategy_e);
      ("automationWorkflow", automationWorkflow_e);
      ("experiments", experiments_e);
      ("nextSteps", nextSteps_e) ].

(** A call [buildFallbackPlan(payload)]: the body with the parameter bound
    to the object of the brief. *)
Definition buildFallbackPlan_call {SP : StringPrototype} (payload : LeadRequest)
  : Js (option Json) :=
  evalExpr buildFallbackPlan_body [ ("payload", leadRequestToJson payload) ].

(** An expression that ends normally in every state of the world, with one
    value, and leaves the world as it was. *)
Definition yields {SP : StringPrototype} (e : Expr) (ρ : list (string * Json)) (v : Json)
  : Prop :=
  forall a : Ambient, evalExpr e ρ a = (Normal (Some v), a).

(** An expression that stamps its text with the time, and two states of the
    world that differ in the clock only. *)
Definition stamped_e : Expr :=
  ETemplate [ EStr "Generated at "; EDateNow ].

Definition midnight : Ambient := {| clock := 0; outer := []; console := [] |}.

Definition later : Ambient := {| clock := 1500; outer := []; console := [] |}.

(* ================================================================== *)
(** * Part X: the fallback synthesizer, proved                          *)
(* ================================================================== *)

Section FallbackFacts.
Context {SP : StringPrototype}.

Lemma channelPlay_channel (payload : LeadRequest) (c : string) :
  channel (channelPlay payload c) = c.
Proof. reflexivity. Qed.

Lemma channelStrategy_channels (payload : LeadRequest) :
  map channel (channelStrategy (buildFallbackPlan payload)) = channels payload.
Proof.
  cbn [buildFallbackPlan channelStrategy].
  induction (channels payload) as [|c cs IH]; cbn [map].
  - reflexivity.
  - now rewrite IH.
Qed.

(** C1. The channel strategy of the fallback plan has one entry per element
    of [payload.channels], and the [channel] of its i-th entry is the i-th
    element of [payload.channels]: same count, same order. *)
Theorem fallback_channelStrategy_mirrors_channels (payload : LeadRequest) :
  length (channelStrategy (buildFallbackPlan payload)) = length (channels payload)
  /\ map channel (channelStrategy (buildFallbackPlan payload)) = channels payload
  /\ forall i : nat,
       channel <$> (channelStrategy (buildFallbackPlan payload) !! i)
       = channels payload !! i.
Proof.
  split; [|split].
  - cbn [buildFallbackPlan channelStrategy]. apply length_map.
  - apply channelStrategy_channels.
  - intros i. cbn [buildFallbackPlan channelStrategy].
    rewrite list_lookup_fmap.
    destruct (channels payload !! i); reflexivity.
Qed.

(** C5. Every entry of the fallback channel strategy has cadence
    "3x weekly" when the timeframe is "2 weeks", and "Weekly" for the two
    other timeframes. *)
Theorem fallback_cadence_by_timeframe (payload : LeadRequest) :
  Forall (fun cp : ChannelPlay =>
            cadence cp = match timeframe payload with
                         | TwoWeeks => "3x weekly"
                         | ThirtyDays | NinetyDays => "Weekly"
                         end)
         (channelStrategy (buildFallbackPlan payload)).
Proof.
  cbn [buildFallbackPlan channelStrategy].
  induction (channels payload) as [|c cs IH]; cbn [map]; constructor.
  - unfold channelPlay; cbn [cadence].
    destruct (timeframe payload); reflexivity.
  - exact IH.
Qed.

(** C10. Two briefs that agree on businessName, industry, productDescription,
    uniqueValue, channels, offer, budgetLevel and timeframe have the same
    fallback plan: goals, tone, notes and targetCustomer are ignored. *)
Theorem fallback_ignores_goals_tone_notes_targetCustomer (b1 b2 : LeadRequest) :
  businessName b1 = businessName b2 ->
  industry b1 = industry b2 ->
  productDescription b1 = productDescription b2 ->
  uniqueValue b1 = uniqueValue b2 ->
  channels b1 = channels b2 ->
  offer b1 = offer b2 ->
  budgetLevel b1 = budgetLevel b2 ->
  timeframe b1 = timeframe b2 ->
  buildFallbackPlan b1 = buildFallbackPlan b2.
Proof.
  intros Hn Hi Hp Hu Hc Ho Hb Ht.
  unfold buildFallbackPlan, channelPlay.
  rewrite Hn, Hi, Hp, Hu, Hc, Ho, Hb, Ht.
  reflexivity.
Qed.

End FallbackFacts.

Section SyntaxFacts.
Context {SP : StringPrototype}.

Lemma mapJs_yields {A} (f : A -> Js (option Json)) (l : list A) (vs : list Json) :
  Forall2 (fun x v => forall a, f x a = (Normal (Some v), a)) l vs ->
  forall a, mapJs f l a = (Normal (map Some vs), a).
Proof.
  induction 1 as [|x v l vs Hx _ IH]; intros a; [reflexivity|].
  cbn [mapJs map]. unfold bindJs at 1. rewrite Hx.
  unfold bindJs at 1. rewrite IH. reflexivity.
Qed.

Lemma definedArray_Some (vs : list Json) (a : Ambient) :
  definedArray (map Some vs) a = (Normal (Some (JArray vs)), a).
Proof.
  unfold definedArray.
  assert (H : allDefined (map (fun v => (tt, v)) (map Some vs))
              = Some (map (fun v => (tt, v)) vs)).
  { induction vs as [|v vs IH]; [reflexivity|]. cbn [map allDefined]. now rewrite IH. }
  rewrite H. unfold retJs. rewrite map_map. cbn [snd]. now rewrite map_id.
Qed.

Lemma definedObject_Some (ms : list (string * Json)) (a : Ambient) :
  definedObject (map (fun m => (fst m, Some (snd m))) ms) a = (Normal (Some (JObject ms)), a).
Proof.
  unfold definedObject.
  assert (H : allDefined (map (fun m : string * Json => (fst m, Some (snd m))) ms) = Some ms).
  { induction ms as [|[k v] ms IH]; [reflexivity|]. cbn [map allDefined fst snd].
    now rewrite IH. }
  now rewrite H.
Qed.

(** An object literal with distinct keys whose properties yield values
    yields the object of these values. *)
Lemma yields_object (props : list (string * Expr)) (ρ : list (string * Json))
    (ms : list (string * Json)) :
  distinctb (map fst props) = true ->
  Forall2 (fun p m => fst p = fst m /\ yields (snd p) ρ (snd m)) props ms ->
  yields (EObject props) ρ (JObject ms).
Proof.
  intros Hkeys Hall a. cbn [evalExpr]. rewrite Hkeys.
  assert (Hmap : forall a,
    mapJs (fun p : string * Expr =>
             match p with
             | (key, e') => bindJs (evalExpr e' ρ) (fun v => retJs (key, v))
             end) props a
    = (Normal (map (fun m => (fst m, Some (snd m))) ms), a)).
  { clear a Hkeys. induction Hall as [|[k e] [k' v] props ms [Hk He] _ IH]; intros a;
      [reflexivity|].
    cbn [fst snd] in Hk, He. subst k'.
    cbn [mapJs map fst snd]. unfold bindJs at 1. unfold bindJs at 1. rewrite He.
    unfold retJs at 1. unfold bindJs at 1. rewrite IH. reflexivity. }
  unfold bindJs. rewrite Hmap. apply definedObject_Some.
Qed.

(** [e.map(callback)] on an array whose elements the callback maps to
    values yields the array of these values. *)
Lemma yields_map (e callback : Expr) (param : string) (ρ : list (string * Json))
    (items results : list Json) :
  yields e ρ (JArray items) ->
  Forall2 (fun item r => yields callback ((param, item) :: ρ) r) items results ->
  yields (EMap e param callback) ρ (JArray results).
Proof.
  intros He Hall a. cbn [evalExpr]. unfold bindJs at 1. rewrite He.
  unfold bindJs. rewrite (mapJs_yields _ items results Hall). apply definedArray_Some.
Qed.

Ltac brief payload :=
  destruct payload as [? ? ? ? ? ? ? ? ? [?|] [] []].

Lemma yields_campaignSummary (payload : LeadRequest) :
  yields campaignSummary_e [ ("payload", leadRequestToJson payload) ]
    (JObject
       [ ("northStar", JString (northStar (campaignSummary (buildFallbackPlan payload))));
         ("successMetrics",
          jstrings (successMetrics (campaignSummary (buildFallbackPlan payload))));
         ("positioningTheme",
          JString (positioningTheme (campaignSummary (buildFallbackPlan payload)))) ]).
Proof. intros a. brief payload; vm_compute; reflexivity. Qed.

Lemma yields_idealCustomerProfile (payload : LeadRequest) :
  yields idealCustomerProfile_e [ ("payload", leadRequestToJson payload) ]
    (JObject
       [ ("companyTraits",
          jstrings (companyTraits (idealCustomerProfile (buildFallbackPlan payload))));
         ("buyerPersona",
          jstrings (buyerPersona (idealCustomerProfile (buildFallbackPlan payload))));
         ("painPoints",
          jstrings (painPoints (idealCustomerProfile (buildFallbackPlan payload)))) ]).
Proof. intros a. brief payload; vm_compute; reflexivity. Qed.

Lemma yields_messagingPillars (payload : LeadRequest) :
  yields messagingPillars_e [ ("payload", leadRequestToJson payload) ]
    (JArray (map pillarToJson (messagingPillars (buildFallbackPlan payload)))).
Proof. intros a. brief payload; vm_compute; reflexivity. Qed.

Lemma yields_channels (payload : LeadRequest) :
  yields (payload_ "channels") [ ("payload", leadRequestToJson payload) ]
    (JArray (map JString (channels payload))).
Proof. intros a. brief payload; vm_compute; reflexivity. Qed.

(** The arrow function on one channel. *)
Lemma yields_channelPlay (payload : LeadRequest) (c : string) :
  yields channelPlay_e [ ("channel", JString c); ("payload", leadRequestToJson payload) ]
    (channelPlayToJson (channelPlay payload c)).
Proof. intros a. brief payload; vm_compute; reflexivity. Qed.

Lemma yields_channelStrategy (payload : LeadRequest) :
  yields channelStrategy_e [ ("payload", leadRequestToJson payload) ]
    (JArray (map channelPlayToJson (channelStrategy (buildFallbackPlan payload)))).
Proof.
  apply (yields_map _ _ _ _ (map JString (channels payload))); [apply yields_channels|].
  cbn [buildFallbackPlan channelStrategy].
  induction (channels payload) as [|c cs IH]; cbn [map]; constructor.
  - apply yields_channelPlay.
  - exact IH.
Qed.

Lemma yields_automationWorkflow (payload : LeadRequest) :
  yields automationWorkflow_e [ ("payload", leadRequestToJson payload) ]
    (JArray (map flowToJson (automationWorkflow (buildFallbackPlan payload)))).
Proof. intros a. vm_compute. reflexivity. Qed.

Lemma yields_experiments (payload : LeadRequest) :
  yields experiments_e [ ("payload", leadRequestToJson payload) ]
    (JArray (map experimentToJson (experiments (buildFallbackPlan payload)))).
Proof. intros a. vm_compute. reflexivity. Qed.

Lemma yields_nextSteps (payload : LeadRequest) :
  yields nextSteps_e [ ("payload", leadRequestToJson payload) ]
    (jstrings (nextSteps (buildFallbackPlan payload))).
Proof. intros a. vm_compute. reflexivity. Qed.

(** The expression evaluates to the object of the plan that the function
    of Part II computes, in every state of the world, and leaves it as it
    was. *)
Lemma buildFallbackPlan_call_yields (payload : LeadRequest) (a : Ambient) :
  buildFallbackPlan_call payload a
  = (Normal (Some (planToJson (buildFallbackPlan payload))), a).
Proof.
  unfold buildFallbackPlan_call, buildFallbackPlan_body, planToJson.
  apply yields_object; [reflexivity|].
  repeat (constructor; [split; [reflexivity|]; cbn [snd] |]).
  - apply yields_campaignSummary.
  - apply yields_idealCustomerProfile.
  - apply yields_messagingPillars.
  - apply yields_channelStrategy.
  - apply yields_automationWorkflow.
  - apply yields_experiments.
  - apply yields_nextSteps.
  - constructor.
Qed.

(** C6. The fallback synthesizer is deterministic.  The expression that
    [buildFallbackPlan] returns, evaluated for one brief in two states of
    the world (clock, variables around the function, console), returns both
    times the object of the same plan, with the same serialized text,
    and changes nothing: it reads no clock and no variable besides its
    parameter, writes none, and prints nothing. *)
Theorem buildFallbackPlan_deterministic (payload : LeadRequest) (a1 a2 : Ambient) :
  fst (buildFallbackPlan_call payload a1) = fst (buildFallbackPlan_call payload a2)
  /\ fst (buildFallbackPlan_call payload a1)
     = Normal (Some (planToJson (buildFallbackPlan payload)))
  /\ snd (buildFallbackPlan_call payload a1) = a1
  /\ (forall plan1 plan2 : Json,
        fst (buildFallbackPlan_call payload a1) = Normal (Some plan1) ->
        fst (buildFallbackPlan_call payload a2) = Normal (Some plan2) ->
        plan1 = plan2
        /\ JSON_stringify plan1 = JSON_stringify plan2
        /\ JSON_stringify plan1 = serializePlan (buildFallbackPlan payload)).
Proof.
  rewrite !buildFallbackPlan_call_yields. cbn [fst snd].
  split; [reflexivity|]. split; [reflexivity|]. split; [reflexivity|].
  intros plan1 plan2 [= <-] [= <-]. repeat split.
Qed.

End SyntaxFacts.

(** The evaluator tells a function that reads the clock from one that does
    not: the stamped text differs between two states of the world. *)
Example stamped_depends_on_clock :
  fst (@evalExpr asciiStrings stamped_e [] midnight)
  = Normal (Some (JString "Generated at 0"))
  /\ fst (@evalExpr asciiStrings stamped_e [] later)
     = Normal (Some (JString "Generated at 1500")).
Proof. split; vm_compute; reflexivity. Qed.

Lemma fallback_ignores_witness :
  goals defaultState <> goals sprintState
  /\ tone defaultState <> tone sprintState
  /\ notes defaultState <> notes sprintState
  /\ targetCustomer defaultState <> targetCustomer sprintState
  /\ @buildFallbackPlan asciiStrings defaultState = @buildFallbackPlan asciiStrings sprintState.
Proof.
  split; [discriminate|]. split; [discriminate|].
  split; [discriminate|]. split; [discriminate|].
  apply (@fallback_ignores_goals_tone_notes_targetCustomer asciiStrings defaultState sprintState);
    reflexivity.
Defined.

(* ================================================================== *)
(** * Part XI: the route handler, proved                                *)
(* ================================================================== *)

(** Unfolds the monad of the handler down to matches on outcomes. *)
Ltac unfold_M :=
  unfold run, mbind, M_bind, mret, M_ret, tryCatch, await, emit, throw,
    call_buildFallbackPlan in *.

Section RouteFacts.
Context {SP : StringPrototype} {L : Lib}.

(** A text that starts with the first byte of a byte order mark is not
    JSON. *)
Lemma JSON_parse_BOM (r : string) : JSON_parse (String "239" r) = None.
Proof.
  unfold JSON_parse. cbn [String.length].
  replace (2 * S (String.length r) + 2) with (S (2 * String.length r + 3)) by lia.
  reflexivity.
Qed.

(** A body that is JSON as it stands has no byte order mark to drop. *)
Lemma stripBOM_parsed (text : string) (v : Json) :
  JSON_parse text = Some v -> stripBOM text = text.
Proof.
  intros H. destruct text as [|c1 [|c2 [|c3 r]]]; try reflexivity.
  cbn [stripBOM]. destruct (Ascii.eqb c1 "239") eqn:E1; [|reflexivity].
  apply Ascii.eqb_eq in E1. subst c1. now rewrite JSON_parse_BOM in H.
Qed.

Lemma request_json_parsed (w : World) (rawInput : Json) (log : list Event) :
  JSON_parse (request_body w) = Some rawInput ->
  request_json w log = (Returned rawInput, log).
Proof.
  intros H. unfold request_json. now rewrite (stripBOM_parsed _ _ H), H.
Qed.

Lemma request_json_malformed (w : World) (log : list Event) :
  JSON_parse (stripBOM (request_body w)) = None ->
  request_json w log = (Thrown SyntaxError, log).
Proof. intros H. unfold request_json. now rewrite H. Qed.

(** C2. With a valid brief and no credential configured, the handler
    answers with status 200, the fallback plan of the brief, raw null and
    a warning, and the model service is not called. *)
Theorem POST_without_credential (w : World) (rawInput : Json) (payload : LeadRequest) :
  JSON_parse (request_body w) = Some rawInput ->
  leadRequestSchema_safeParse rawInput = SafeParseSuccess payload ->
  truthy (OPENAI_API_KEY w) = false ->
  run (POST w)
  = (Returned
       {| status := 200;
          body := FallbackBody (buildFallbackPlan payload) None
                    "OPENAI_API_KEY is not configured. Responding with a heuristic fallback plan." |},
     [EvFallback payload])
  /\ modelInvoked (snd (run (POST w))) = false.
Proof.
  intros Hjson Hvalid Hkey.
  assert (Hrun : run (POST w)
    = (Returned
         {| status := 200;
            body := FallbackBody (buildFallbackPlan payload) None
                      "OPENAI_API_KEY is not configured. Responding with a heuristic fallback plan." |},
       [EvFallback payload])).
  { unfold POST. unfold_M.
    now rewrite (request_json_parsed _ _ _ Hjson), Hvalid, Hkey. }
  split; [exact Hrun | now rewrite Hrun].
Qed.

(** The run of the handler when the call to the model service throws. *)
Lemma POST_service_failure_run
    (w : World) (rawInput : Json) (payload : LeadRequest)
    (client : OpenAIClient) (prompt : string) (e : Exception) :
  JSON_parse (request_body w) = Some rawInput ->
  leadRequestSchema_safeParse rawInput = SafeParseSuccess payload ->
  truthy (OPENAI_API_KEY w) = true ->
  getOpenAIClient w = Returned client ->
  buildLeadPlanPrompt payload = Returned prompt ->
  chat_completions_create client (chatRequest prompt) = Thrown e ->
  run (POST w)
  = (Returned
       {| status := 200;
          body := FallbackBody (buildFallbackPlan payload) None
                    "Failed to generate plan with OpenAI. Provided a fallback strategy instead." |},
     [EvChatCompletion (chatRequest prompt); EvConsoleError e; EvFallback payload]).
Proof.
  intros Hjson Hvalid Hkey Hclient Hprompt Hcall.
  unfold POST. unfold_M.
  rewrite (request_json_parsed _ _ _ Hjson), Hvalid, Hkey. cbn.
  rewrite Hclient, Hprompt. cbn. rewrite Hcall. reflexivity.
Qed.

(** C3. With a valid brief and a credential, when the call to the model
    service throws, the handler answers with status 200, the fallback plan
    of the brief, raw null and a fixed warning; the thrown value goes to the
    console only: the same request meets the same response whatever the
    service throws. *)
Theorem POST_model_call_throws
    (w : World) (rawInput : Json) (payload : LeadRequest)
    (client : OpenAIClient) (prompt : string) (e : Exception) :
  JSON_parse (request_body w) = Some rawInput ->
  leadRequestSchema_safeParse rawInput = SafeParseSuccess payload ->
  truthy (OPENAI_API_KEY w) = true ->
  getOpenAIClient w = Returned client ->
  buildLeadPlanPrompt payload = Returned prompt ->
  chat_completions_create client (chatRequest prompt) = Thrown e ->
  run (POST w)
  = (Returned
       {| status := 200;
          body := FallbackBody (buildFallbackPlan payload) None
                    "Failed to generate plan with OpenAI. Provided a fallback strategy instead." |},
     [EvChatCompletion (chatRequest prompt); EvConsoleError e; EvFallback payload])
  /\ forall (w' : World) (client' : OpenAIClient) (e' : Exception),
       request_body w' = request_body w ->
       truthy (OPENAI_API_KEY w') = true ->
       getOpenAIClient w' = Returned client' ->
       chat_completions_create client' (chatRequest prompt) = Thrown e' ->
       fst (run (POST w')) = fst (run (POST w)).
Proof.
  intros Hjson Hvalid Hkey Hclient Hprompt Hcall. split.
  - now apply (POST_service_failure_run w rawInput payload client prompt e).
  - intros w' client' e' Hbody Hkey' Hclient' Hcall'.
    rewrite (POST_service_failure_run w rawInput payload client prompt e) by assumption.
    rewrite (POST_service_failure_run w' rawInput payload client' prompt e');
      [reflexivity | now rewrite Hbody | assumption..].
Qed.

(** C4. When the model answers and the parser finds no plan in the text,
    the handler answers with plan null, the raw text that the parser
    returned and the parser's message as notice, and [buildFallbackPlan] is
    not called.  With the parser of the spec, the raw text is the model's
    text and the notice is always there. *)
Theorem POST_unparseable_model_output
    (w : World) (rawInput : Json) (payload : LeadRequest)
    (client : OpenAIClient) (prompt : string)
    (completion : ChatCompletion) (parsed : ParseResult) :
  JSON_parse (request_body w) = Some rawInput ->
  leadRequestSchema_safeParse rawInput = SafeParseSuccess payload ->
  truthy (OPENAI_API_KEY w) = true ->
  getOpenAIClient w = Returned client ->
  buildLeadPlanPrompt payload = Returned prompt ->
  chat_completions_create client (chatRequest prompt) = Returned completion ->
  tryParsePlan (responseTextOf completion) = Returned parsed ->
  plan parsed = None ->
  run (POST w)
  = (Returned {| status := 200; body := ModelBody None (raw parsed) (message parsed) |},
     [EvChatCompletion (chatRequest prompt)])
  /\ fallbackInvoked (snd (run (POST w))) = false
  /\ forall note : string,
       parsed = parsePlan note (responseTextOf completion) ->
       raw parsed = Some (responseTextOf completion)
       /\ message parsed = Some "model output could not be parsed as a structured plan".
Proof.
  intros Hjson Hvalid Hkey Hclient Hprompt Hcall Hparse Hnone.
  assert (Hrun : run (POST w)
    = (Returned {| status := 200; body := ModelBody None (raw parsed) (message parsed) |},
       [EvChatCompletion (chatRequest prompt)])).
  { unfold POST. unfold_M.
    rewrite (request_json_parsed _ _ _ Hjson), Hvalid, Hkey. cbn.
    rewrite Hclient, Hprompt. cbn. now rewrite Hcall, Hparse, Hnone. }
  split; [exact Hrun|]. split; [now rewrite Hrun|].
  - intros note ->. revert Hnone. unfold parsePlan.
    destruct (decodePlan (responseTextOf completion)); [discriminate|].
    destruct (_ ≫= _); [discriminate|].
    intros _. split; reflexivity.
Qed.

(** X9. When the parser finds a plan, directly or by recovery, the handler
    answers with the plan, raw null and the parser's message as notice, and
    the only effect is the one call to the model service. *)
Lemma POST_model_plan
    (w : World) (rawInput : Json) (payload : LeadRequest)
    (client : OpenAIClient) (prompt : string)
    (completion : ChatCompletion) (parsed : ParseResult) (p : LeadPlan) :
  JSON_parse (request_body w) = Some rawInput ->
  leadRequestSchema_safeParse rawInput = SafeParseSuccess payload ->
  truthy (OPENAI_API_KEY w) = true ->
  getOpenAIClient w = Returned client ->
  buildLeadPlanPrompt payload = Returned prompt ->
  chat_completions_create client (chatRequest prompt) = Returned completion ->
  tryParsePlan (responseTextOf completion) = Returned parsed ->
  plan parsed = Some p ->
  run (POST w)
  = (Returned {| status := 200; body := ModelBody (Some p) None (message parsed) |},
     [EvChatCompletion (chatRequest prompt)]).
Proof.
  intros Hjson Hvalid Hkey Hclient Hprompt Hcall Hparse Hplan.
  unfold POST. unfold_M.
  rewrite (request_json_parsed _ _ _ Hjson), Hvalid, Hkey. cbn.
  rewrite Hclient, Hprompt. cbn. now rewrite Hcall, Hparse, Hplan.
Qed.

(** With a valid brief and a credential there are two kinds of answer:
    what the parser made of the model's text, or, whatever was thrown inside
    the [try] block (by the client factory, the prompt builder, the service
    or the parser), the fallback response. *)
Lemma POST_with_credential (w : World) (rawInput : Json) (payload : LeadRequest) :
  JSON_parse (request_body w) = Some rawInput ->
  leadRequestSchema_safeParse rawInput = SafeParseSuccess payload ->
  truthy (OPENAI_API_KEY w) = true ->
  exists (response : Response) (log : list Event),
    run (POST w) = (Returned response, log)
    /\ status response = 200
    /\ (body response
        = FallbackBody (buildFallbackPlan payload) None
            "Failed to generate plan with OpenAI. Provided a fallback strategy instead."
        \/ exists parsed : ParseResult,
             body response
             = ModelBody (plan parsed)
                 (match plan parsed with Some _ => None | None => raw parsed end)
                 (message parsed)).
Proof.
  intros Hjson Hvalid Hkey. unfold POST. unfold_M.
  rewrite (request_json_parsed _ _ _ Hjson), Hvalid, Hkey. cbn.
  destruct (getOpenAIClient w) as [client|e]; cbn; [|eauto 8].
  destruct (buildLeadPlanPrompt payload) as [prompt|e]; cbn; [|eauto 8].
  destruct (chat_completions_create client (chatRequest prompt)) as [completion|e];
    cbn; [|eauto 8].
  destruct (tryParsePlan (responseTextOf completion)) as [parsed|e]; cbn; eauto 8.
Qed.

(** Once the body has been read as JSON, every branch of the handler ends
    in exactly one response: nothing is thrown past the handler. *)
Lemma POST_responds_on_json (w : World) (rawInput : Json) :
  JSON_parse (request_body w) = Some rawInput ->
  exists (response : Response) (log : list Event),
    run (POST w) = (Returned response, log)
    /\ (status response = 200 \/ status response = 400).
Proof.
  intros Hjson. unfold POST. unfold_M.
  rewrite (request_json_parsed _ _ _ Hjson).
  destruct (leadRequestSchema_safeParse rawInput) as [payload|error].
  - destruct (truthy (OPENAI_API_KEY w)); cbn.
    + destruct (getOpenAIClient w) as [client|e]; cbn; [|eauto 6].
      destruct (buildLeadPlanPrompt payload) as [prompt|e]; cbn; [|eauto 6].
      destruct (chat_completions_create client (chatRequest prompt)) as [completion|e];
        cbn; [|eauto 6].
      destruct (tryParsePlan (responseTextOf completion)) as [parsed|e]; cbn; eauto 6.
    + eauto 6.
  - cbn. eauto 6.
Qed.

(** The one way out of the handler without a response: [request.json()]
    is awaited outside of any [try], so a body that is not JSON once its
    byte order mark is dropped makes the handler throw. *)
Lemma POST_throws_on_malformed_body (w : World) :
  JSON_parse (stripBOM (request_body w)) = None ->
  run (POST w) = (Thrown SyntaxError, []).
Proof.
  intros Hjson. unfold POST. unfold_M.
  now rewrite (request_json_malformed _ _ Hjson).
Qed.

End RouteFacts.

(** A byte order mark before the brief is dropped by the body reader: the
    answer is the one to the brief itself, although [JSON.parse] alone
    rejects the text. *)
Example POST_reads_past_byte_order_mark :
  JSON_parse (request_body worldNoKeyBOM) = None
  /\ fst (run (@POST asciiStrings sampleLib worldNoKeyBOM))
     = fst (run (@POST asciiStrings sampleLib worldNoKey))
  /\ fst (run (@POST asciiStrings sampleLib worldNoKeyBOM)) = Returned answerNoKey.
Proof. repeat split; vm_compute; reflexivity. Qed.

(** C8, at the failing input: for the body [businessName=Lumos Analytics]
    the handler throws and returns no response. *)
Theorem POST_malformed_body_no_response :
  JSON_parse (request_body worldMalformed) = None
  /\ run (@POST asciiStrings sampleLib worldMalformed) = (Thrown SyntaxError, []).
Proof. split; vm_compute; reflexivity. Qed.

Lemma POST_without_credential_witness :
  run (@POST asciiStrings sampleLib worldNoKey)
  = (Returned
       {| status := 200;
          body := FallbackBody (@buildFallbackPlan asciiStrings defaultState) None
                    "OPENAI_API_KEY is not configured. Responding with a heuristic fallback plan." |},
     [EvFallback defaultState])
  /\ modelInvoked (snd (run (@POST asciiStrings sampleLib worldNoKey))) = false.
Proof.
  apply (@POST_without_credential asciiStrings sampleLib worldNoKey
           (leadRequestToJson defaultState) defaultState);
    vm_compute; reflexivity.
Defined.

Lemma POST_model_call_throws_witness :
  run (@POST asciiStrings sampleLib worldServiceDown)
  = (Returned
       {| status := 200;
          body := FallbackBody (@buildFallbackPlan asciiStrings defaultState) None
                    "Failed to generate plan with OpenAI. Provided a fallback strategy instead." |},
     [EvChatCompletion (chatRequest (buildPrompt defaultState));
      EvConsoleError (Error "503 Service Unavailable");
      EvFallback defaultState])
  /\ fst (run (@POST asciiStrings sampleLib worldRateLimited))
     = fst (run (@POST asciiStrings sampleLib worldServiceDown)).
Proof.
  destruct (@POST_model_call_throws asciiStrings sampleLib worldServiceDown
              (leadRequestToJson defaultState) defaultState clientDown
              (buildPrompt defaultState) (Error "503 Service Unavailable"))
    as [Hrun Hsame]; try (vm_compute; reflexivity).
  split; [exact Hrun|].
  apply (Hsame worldRateLimited clientRateLimited (Error "429 Too Many Requests"));
    vm_compute; reflexivity.
Defined.

Lemma POST_unparseable_model_output_witness :
  run (@POST asciiStrings sampleLib worldRefusal)
  = (Returned {| status := 200;
                 body := ModelBody None (Some "I cannot help with that.")
                           (Some "model output could not be parsed as a structured plan") |},
     [EvChatCompletion (chatRequest (buildPrompt defaultState))])
  /\ fallbackInvoked (snd (run (@POST asciiStrings sampleLib worldRefusal))) = false.
Proof.
  destruct (@POST_unparseable_model_output asciiStrings sampleLib worldRefusal
              (leadRequestToJson defaultState) defaultState clientRefusing
              (buildPrompt defaultState) (completionOf "I cannot help with that.")
              (parsePlan "Recovered the plan from the surrounding text."
                 "I cannot help with that."))
    as [Hrun [Hlog _]]; try (vm_compute; reflexivity).
  split; [exact Hrun | exact Hlog].
Defined.

(* ================================================================== *)
(** * Part XII: validation failures                                     *)
(* ================================================================== *)

Section FlattenFacts.

Lemma messagesFor_cons (f : string) (i : ZodIssue) (l : list ZodIssue) :
  messagesFor f {| issues := i :: l |}
  = (if attributedTo f i then [issue_message i] else [])
    ++ messagesFor f {| issues := l |}.
Proof.
  unfold messagesFor, attributedTo; cbn.
  destruct (issue_path i) as [|seg p]; [reflexivity|].
  destruct (String.eqb (propertyKey seg) f); reflexivity.
Qed.

Lemma pushFieldError_to_map (k m : string) (fe : list (string * list string)) :
  (list_to_map (pushFieldError k m fe) : gmap string (list string))
  = <[k := default [] ((list_to_map fe : gmap string (list string)) !! k) ++ [m]]>
      (list_to_map fe).
Proof.
  induction fe as [|[k' ms] r IH]; cbn [pushFieldError].
  - reflexivity.
  - destruct (String.eqb_spec k' k) as [->|Hne]; cbn [list_to_map foldr uncurry fst snd curry].
    + rewrite lookup_insert_eq; cbn. now rewrite insert_insert_eq.
    + rewrite IH, lookup_insert_ne by exact Hne.
      now rewrite insert_insert_ne by exact Hne.
Qed.

Lemma pushFieldError_keys (k m : string) (fe : list (string * list string)) :
  NoDup fe.*1 →
  NoDup (pushFieldError k m fe).*1
  ∧ (∀ x, x ∈ (pushFieldError k m fe).*1 ↔ x = k ∨ x ∈ fe.*1).
Proof.
  intros Hnd.
  induction fe as [|[k' ms] r IH]; cbn [pushFieldError].
  - split; [apply NoDup_singleton|]. intros x; cbn.
    rewrite list_elem_of_singleton. split; [now left | intros [H|H]; [exact H|inversion H]].
  - cbn in Hnd. apply NoDup_cons in Hnd as [Hnotin Hnd].
    destruct (String.eqb_spec k' k) as [->|Hne]; cbn.
    + split; [apply NoDup_cons; auto|]. intros x.
      rewrite elem_of_cons. tauto.
    + destruct (IH Hnd) as [IH1 IH2]. split.
      * apply NoDup_cons. split; [|exact IH1].
        rewrite IH2. intros [->|Hin]; [congruence|contradiction].
      * intros x. rewrite elem_of_cons, IH2, elem_of_cons. tauto.
Qed.

Lemma nonEmpty_default (o : option (list string)) :
  (∀ l, o = Some l → l ≠ []) → nonEmpty (default [] o) = o.
Proof.
  destruct o as [[|x l]|]; cbn; intros H; try reflexivity.
  now destruct (H [] eq_refl).
Qed.

Lemma flatten_fold_fields (l : list ZodIssue) (acc : Flattened) (f : string) :
  nonEmptyValues (fieldErrors acc) →
  fieldErrorsAt f (fold_left flattenStep l acc)
  = nonEmpty (default [] (fieldErrorsAt f acc) ++ messagesFor f {| issues := l |}).
Proof.
  revert acc. induction l as [|i l IH]; intros acc Hacc; cbn [fold_left].
  - unfold messagesFor; cbn. rewrite app_nil_r.
    symmetry. apply nonEmpty_default. intros l' Hl'. exact (Hacc f l' Hl').
  - rewrite IH, messagesFor_cons.
    + f_equal. unfold flattenStep, attributedTo, fieldErrorsAt.
      destruct (issue_path i) as [|seg p]; cbn [fieldErrors]; [reflexivity|].
      rewrite pushFieldError_to_map.
      destruct (String.eqb_spec (propertyKey seg) f) as [->|Hne].
      * rewrite lookup_insert_eq; cbn. now rewrite <- app_assoc.
      * now rewrite lookup_insert_ne by exact Hne.
    + unfold flattenStep.
      destruct (issue_path i) as [|seg p]; cbn [fieldErrors]; [exact Hacc|].
      intros g l'. rewrite pushFieldError_to_map.
      destruct (String.eqb_spec (propertyKey seg) g) as [->|Hne].
      * rewrite lookup_insert_eq. intros [= <-].
        now destruct (default [] _).
      * rewrite lookup_insert_ne by exact Hne. apply Hacc.
Qed.

Lemma flatten_fold_form (l : list ZodIssue) (acc : Flattened) :
  formErrors (fold_left flattenStep l acc)
  = formErrors acc ++ rootMessages {| issues := l |}.
Proof.
  revert acc. induction l as [|i l IH]; intros acc; cbn [fold_left].
  - unfold rootMessages; cbn. now rewrite app_nil_r.
  - rewrite IH. unfold flattenStep, rootMessages; cbn.
    destruct (issue_path i); cbn; [now rewrite <- app_assoc | reflexivity].
Qed.

Lemma flatten_fold_keys (l : list ZodIssue) (acc : Flattened) :
  NoDup (fieldErrors acc).*1 → NoDup (fieldErrors (fold_left flattenStep l acc)).*1.
Proof.
  revert acc. induction l as [|i l IH]; intros acc Hacc; cbn [fold_left]; [exact Hacc|].
  apply IH. unfold flattenStep.
  destruct (issue_path i); cbn [fieldErrors]; [exact Hacc|].
  now apply pushFieldError_keys.
Qed.

(** [fieldErrors[f]] is [undefined] for a field without issues, and
    otherwise the messages of its issues, all of them, in their order. *)
Lemma flatten_fieldErrors (e : ZodError) (f : string) :
  fieldErrorsAt f (flatten e) = nonEmpty (messagesFor f e).
Proof.
  unfold flatten. rewrite flatten_fold_fields.
  - destruct e; reflexivity.
  - intros g l. cbn. now rewrite lookup_empty.
Qed.

Lemma flatten_formErrors (e : ZodError) : formErrors (flatten e) = rootMessages e.
Proof. unfold flatten. rewrite flatten_fold_form. destruct e; reflexivity. Qed.

Lemma firstMessages_fold (fe : list (string * list string)) (acc : gmap string string)
    (f : string) :
  NoDup fe.*1 →
  foldl (fun (acc : gmap string string) (entry : string * list string) =>
           match snd entry with
           | m :: _ => <[fst entry := m]> acc
           | [] => acc
           end) acc fe !! f
  = match (list_to_map fe : gmap string (list string)) !! f ≫= head with
    | Some m => Some m
    | None => acc !! f
    end.
Proof.
  revert acc. induction fe as [|[k ms] r IH]; intros acc Hnd; cbn [foldl].
  - cbn. now rewrite lookup_empty.
  - cbn in Hnd. apply NoDup_cons in Hnd as [Hnotin Hnd].
    rewrite IH by exact Hnd. cbn [list_to_map foldr uncurry fst snd curry].
    destruct (decide (k = f)) as [->|Hne].
    + rewrite lookup_insert_eq.
      rewrite (not_elem_of_list_to_map_1 r f Hnotin). cbn.
      destruct ms as [|m ms]; cbn; [reflexivity|]. now rewrite lookup_insert_eq.
    + rewrite lookup_insert_ne by exact Hne.
      destruct (_ ≫= head) as [m|]; [reflexivity|].
      destruct ms as [|m ms]; cbn; [reflexivity|].
      now rewrite lookup_insert_ne by exact Hne.
Qed.

(** The page keeps the first message of every field. *)
Lemma firstMessages_flatten (e : ZodError) (f : string) :
  firstMessages (fieldErrors (flatten e)) !! f = head (messagesFor f e).
Proof.
  unfold firstMessages. rewrite firstMessages_fold.
  - fold (fieldErrorsAt f (flatten e)). rewrite flatten_fieldErrors.
    destruct (messagesFor f e); cbn; [apply lookup_empty | reflexivity].
  - unfold flatten. apply flatten_fold_keys. cbn. apply NoDup_nil_2.
Qed.

End FlattenFacts.

Section InvalidInput.
Context {SP : StringPrototype} {L : Lib}.

(** What the page does with a form that the schema rejects: the error map
    is the first message of every field, and no request is sent. *)
Lemma handleSubmit_invalid_form
    (fetch : string -> FetchInit -> Outcome FetchResponse) (st : PageState)
    (error : ZodError) :
  leadRequestSchema_safeParse (leadRequestToJson (form st)) = SafeParseFailure error ->
  handleSubmit fetch st
  = setErrors (firstMessages (fieldErrors (flatten error)))
      (setErrors ∅ (setStatusMessage None st)).
Proof.
  intros Hfail. unfold handleSubmit, leadRequestSchema_parse. cbn [form setErrors setStatusMessage].
  now rewrite Hfail.
Qed.

(** C7, as the code has it. For a body that fails validation the handler
    throws nothing and answers 400 with the error "Invalid input" and, as
    issues, the flattened validation error: [fieldErrors] maps every
    offending field to the list of all its messages in the order of the
    issues, the first violation at its head, and [formErrors] lists the
    messages attributed to no field.  The page, on the same input, keeps the
    head: one message per field, the first. *)
Theorem POST_invalid_input (w : World) (rawInput : Json) (error : ZodError) :
  JSON_parse (request_body w) = Some rawInput ->
  leadRequestSchema_safeParse rawInput = SafeParseFailure error ->
  run (POST w)
  = (Returned {| status := 400;
                 body := InvalidInputBody "Invalid input" (flatten error) |}, [])
  /\ formErrors (flatten error) = rootMessages error
  /\ (forall f : string,
        fieldErrorsAt f (flatten error) = nonEmpty (messagesFor f error))
  /\ (forall (f : string) (fetch : string -> FetchInit -> Outcome FetchResponse)
             (st : PageState),
        leadRequestToJson (form st) = rawInput ->
        errors (handleSubmit fetch st) !! f = head (messagesFor f error)).
Proof.
  intros Hjson Hfail. repeat split.
  - unfold POST. unfold_M.
    now rewrite (request_json_parsed _ _ _ Hjson), Hfail.
  - apply flatten_formErrors.
  - intros f. apply flatten_fieldErrors.
  - intros f fetch st Hform.
    rewrite (handleSubmit_invalid_form fetch st error) by now rewrite Hform.
    cbn [errors setErrors]. apply firstMessages_flatten.
Qed.

End InvalidInput.

(** C7, as the spec has it, fails: for a body whose two goals are outside
    the enumeration, the issues of the 400 response map [goals] to two
    messages, not to a single one. *)
Lemma POST_issues_hold_every_message :
  exists found : Flattened,
    run (@POST asciiStrings sampleLib worldStrayGoals)
    = (Returned {| status := 400; body := InvalidInputBody "Invalid input" found |}, [])
    /\ fieldErrorsAt "goals" found = Some ["Invalid option"; "Invalid option"]
    /\ forall m : string, fieldErrorsAt "goals" found <> Some [m].
Proof.
  eexists. split; [vm_compute; reflexivity|]. split.
  - vm_compute. reflexivity.
  - intros m. vm_compute. discriminate.
Qed.

Lemma POST_invalid_input_witness :
  run (@POST asciiStrings sampleLib worldStrayGoals)
  = (Returned
       {| status := 400;
          body := InvalidInputBody "Invalid input"
                    {| formErrors := [];
                       fieldErrors := [("goals", ["Invalid option"; "Invalid option"])] |} |},
     [])
  /\ errors (@handleSubmit sampleLib fetchOffline strayGoalsPage) !! "goals"
     = Some "Invalid option".
Proof.
  destruct (@POST_invalid_input asciiStrings sampleLib worldStrayGoals
              (leadRequestToJson strayGoalsState)
              {| issues := [ issueAt [PKey "goals"; PIndex 0] "Invalid option";
                             issueAt [PKey "goals"; PIndex 1] "Invalid option" ] |})
    as [Hrun [_ [_ Hpage]]]; try (vm_compute; reflexivity).
  split.
  - exact Hrun.
  - exact (Hpage "goals" fetchOffline strayGoalsPage eq_refl).
Defined.

(* ================================================================== *)
(** * Part XIII: JSON text, proved                                      *)
(* ================================================================== *)

Section JsonFacts.

Lemma append_cons (x : ascii) (a b : string) : String x a +:+ b = String x (a +:+ b).
Proof. reflexivity. Qed.

Lemma append_nil_l (b : string) : EmptyString +:+ b = b.
Proof. reflexivity. Qed.

Lemma append_assoc (a b c : string) : (a +:+ b) +:+ c = a +:+ (b +:+ c).
Proof.
  induction a as [|x a IH]; [reflexivity|].
  now rewrite !append_cons, IH.
Qed.

Lemma append_nil_r (a : string) : a +:+ EmptyString = a.
Proof.
  induction a as [|x a IH]; [reflexivity|].
  now rewrite append_cons, IH.
Qed.

Lemma length_append (a b : string) :
  String.length (a +:+ b) = (String.length a + String.length b)%nat.
Proof.
  induction a as [|x a IH]; [reflexivity|].
  rewrite append_cons. cbn. now rewrite IH.
Qed.

(** Induction on values, with the hypothesis for every element of an array
    and every member of an object. *)
Lemma Json_nested_ind (P : Json -> Prop) :
  P JNull ->
  (forall b, P (JBool b)) ->
  (forall lit, P (JNumber lit)) ->
  (forall s, P (JString s)) ->
  (forall xs, Forall P xs -> P (JArray xs)) ->
  (forall ms, Forall (fun kv => P (snd kv)) ms -> P (JObject ms)) ->
  forall v, P v.
Proof.
  intros Hnull Hbool Hnum Hstr Harr Hobj.
  fix IH 1. intros [ | b | lit | s | xs | ms ].
  - exact Hnull.
  - apply Hbool.
  - apply Hnum.
  - apply Hstr.
  - apply Harr.
    exact ((fix all (l : list Json) : Forall P l :=
              match l with
              | [] => List.Forall_nil P
              | x :: r => @List.Forall_cons _ P x r (IH x) (all r)
              end) xs).
  - apply Hobj.
    exact ((fix all (l : list (string * Json)) : Forall (fun kv => P (snd kv)) l :=
              match l with
              | [] => List.Forall_nil _
              | kv :: r => @List.Forall_cons _ _ kv r (IH (snd kv)) (all r)
              end) ms).
Qed.

(** *** Strings *)

Lemma parseChars_quoteChar (c : ascii) (rest : string) :
  parseChars (quoteChar c +:+ rest)
  = match parseChars rest with
    | Some (us, r) => Some (unitOf c :: us, r)
    | None => None
    end.
Proof. destruct c as [[] [] [] [] [] [] [] []]; reflexivity. Qed.

Lemma parseChars_quoteChars (s rest : string) :
  parseChars (quoteChars s +:+ String dquote rest) = Some (unitsOf s, rest).
Proof.
  induction s as [|c s IH]; cbn [quoteChars unitsOf].
  - reflexivity.
  - now rewrite append_assoc, parseChars_quoteChar, IH.
Qed.

Lemma encodeUnits_unitOf (c : ascii) (us : list StrUnit) :
  encodeUnits (unitOf c :: us) = String c (encodeUnits us).
Proof.
  destruct c as [[] [] [] [] [] [] [] []]; destruct us as [|[c2|lo] us];
    reflexivity.
Qed.

Lemma encodeUnits_unitsOf (s : string) : encodeUnits (unitsOf s) = s.
Proof.
  induction s as [|c s IH]; cbn [unitsOf]; [reflexivity|].
  now rewrite encodeUnits_unitOf, IH.
Qed.

(** A quoted string reads back as itself. *)
Lemma parseString_quoted (s rest : string) :
  parseString (quoteChars s +:+ String dquote rest) = Some (s, rest).
Proof.
  unfold parseString. now rewrite parseChars_quoteChars, encodeUnits_unitsOf.
Qed.

Lemma quoteJSONString_append (s rest : string) :
  quoteJSONString s +:+ rest = String dquote (quoteChars s +:+ String dquote rest).
Proof. unfold quoteJSONString. now rewrite append_cons, append_assoc. Qed.

(** *** The text of arrays and objects *)

Lemma stringify_array_cons (x : Json) (xs : list Json) :
  JSON_stringify (JArray (x :: xs)) = "[" +:+ JSON_stringify x +:+ arrayTail xs.
Proof. reflexivity. Qed.

Lemma stringify_object_cons (k : string) (x : Json) (ms : list (string * Json)) :
  JSON_stringify (JObject ((k, x) :: ms))
  = "{" +:+ quoteJSONString k +:+ ":" +:+ JSON_stringify x +:+ objectTail ms.
Proof. reflexivity. Qed.

Lemma stringify_head (v : Json) :
  numberFree v = true ->
  exists (c : ascii) (s : string), JSON_stringify v = String c s /\ startsValue c.
Proof.
  unfold startsValue.
  destruct v as [ | [] | lit | s | [|x xs] | [|[k x] ms] ]; intros Hnf;
    try discriminate.
  - exists "n"%char, "ull". auto 10.
  - exists "t"%char, "rue". auto 10.
  - exists "f"%char, "alse". auto 10.
  - eexists dquote, _. split; [reflexivity | auto 10].
  - exists "["%char, "]". auto 10.
  - rewrite stringify_array_cons. eexists "["%char, _. split; [reflexivity | auto 10].
  - exists "{"%char, "}". auto 10.
  - rewrite stringify_object_cons. eexists "{"%char, _. split; [reflexivity | auto 10].
Qed.

Lemma arrayTail_length (xs : list Json) : (1 <= String.length (arrayTail xs))%nat.
Proof. destruct xs; cbn [arrayTail]; [cbn; lia|]. rewrite length_append. cbn. lia. Qed.

Lemma objectTail_length (ms : list (string * Json)) :
  (1 <= String.length (objectTail ms))%nat.
Proof.
  destruct ms as [|[k y] ms]; cbn [objectTail]; [cbn; lia|].
  rewrite length_append. cbn. lia.
Qed.

(** *** One step of the parser *)

Lemma parseValue_array_open (f : nat) (c : ascii) (s : string) :
  startsValue c ->
  parseValue (S f) (String "[" (String c s))
  = match parseElements f (String c s) with
    | Some (xs, r') => Some (JArray xs, r')
    | None => None
    end.
Proof. intros [->|[->|[->|[->|[->| ->]]]]]; reflexivity. Qed.

Lemma parseValue_object_open (f : nat) (s : string) :
  parseValue (S f) (String "{" (String dquote s))
  = match parseMembers f (String dquote s) with
    | Some (ms, r') => Some (JObject ms, r')
    | None => None
    end.
Proof. reflexivity. Qed.

Lemma parseElements_last (f : nat) (s rest : string) (x : Json) :
  parseValue f s = Some (x, String "]" rest) ->
  parseElements (S f) s = Some ([x], rest).
Proof. intros H. cbn [parseElements]. rewrite H. reflexivity. Qed.

Lemma parseElements_more (f : nat) (s r : string) (x : Json) :
  parseValue f s = Some (x, String "," r) ->
  parseElements (S f) s
  = match parseElements f r with
    | Some (xs, r') => Some (x :: xs, r')
    | None => None
    end.
Proof. intros H. cbn [parseElements]. rewrite H. reflexivity. Qed.

Lemma parseMembers_last (f : nat) (k s rest : string) (x : Json) :
  parseValue f s = Some (x, String "}" rest) ->
  parseMembers (S f) (quoteJSONString k +:+ String ":" s) = Some ([(k, x)], rest).
Proof.
  intros H. rewrite quoteJSONString_append. cbn [parseMembers].
  change (skipWs (String dquote ?t)) with (String dquote t).
  change (Ascii.eqb dquote dquote) with true. cbv iota.
  rewrite parseString_quoted.
  change (skipWs (String ":" s)) with (String ":" s).
  change (Ascii.eqb ":" ":") with true. cbv iota.
  rewrite H. reflexivity.
Qed.

Lemma parseMembers_more (f : nat) (k s r : string) (x : Json) :
  parseValue f s = Some (x, String "," r) ->
  parseMembers (S f) (quoteJSONString k +:+ String ":" s)
  = match parseMembers f r with
    | Some (ms, r') => Some ((k, x) :: ms, r')
    | None => None
    end.
Proof.
  intros H. rewrite quoteJSONString_append. cbn [parseMembers].
  change (skipWs (String dquote ?t)) with (String dquote t).
  change (Ascii.eqb dquote dquote) with true. cbv iota.
  rewrite parseString_quoted.
  change (skipWs (String ":" s)) with (String ":" s).
  change (Ascii.eqb ":" ":") with true. cbv iota.
  rewrite H. reflexivity.
Qed.

Lemma parseValue_string (f : nat) (s : string) :
  parseValue (S f) (String dquote s)
  = match parseString s with
    | Some (str, r') => Some (JString str, r')
    | None => None
    end.
Proof. reflexivity. Qed.

Lemma parseValue_array_first (f : nat) (v : Json) (r : string) :
  numberFree v = true ->
  parseValue (S f) (String "[" (JSON_stringify v +:+ r))
  = match parseElements f (JSON_stringify v +:+ r) with
    | Some (xs, r') => Some (JArray xs, r')
    | None => None
    end.
Proof.
  intros Hnf. destruct (stringify_head v Hnf) as (c & s & Heq & Hc).
  rewrite Heq, append_cons. now apply parseValue_array_open.
Qed.

Lemma parseValue_object_first (f : nat) (k r : string) :
  parseValue (S f) (String "{" (quoteJSONString k +:+ r))
  = match parseMembers f (quoteJSONString k +:+ r) with
    | Some (ms, r') => Some (JObject ms, r')
    | None => None
    end.
Proof. rewrite quoteJSONString_append. apply parseValue_object_open. Qed.

(** Literal prefixes pushed to the front, appends associated to the right. *)
Ltac norm_append :=
  repeat (rewrite append_assoc || rewrite append_cons || rewrite append_nil_l).

(** *** Elements and members *)

Lemma parseElements_roundtrip (xs : list Json) :
  Forall roundTrips xs ->
  forallb numberFree xs = true ->
  forall x : Json, roundTrips x -> numberFree x = true ->
  forall (f : nat) (rest : string),
    (String.length (JSON_stringify x +:+ arrayTail xs) <= f)%nat ->
    parseElements f (JSON_stringify x +:+ arrayTail xs +:+ rest) = Some (x :: xs, rest).
Proof.
  induction xs as [|y xs IH]; intros Hall Hnf x Hx Hnx f rest Hlen;
    rewrite length_append in Hlen; cbn [arrayTail] in *.
  - cbn [String.length] in Hlen.
    destruct f as [|f]; [lia|]. norm_append.
    apply parseElements_last, Hx; [exact Hnx | lia].
  - rewrite !length_append in Hlen. cbn [String.length] in Hlen.
    pose proof (arrayTail_length xs) as Htail.
    apply Forall_cons in Hall as [Hy Hall].
    cbn [forallb] in Hnf. apply andb_true_iff in Hnf as [Hny Hnf].
    destruct f as [|f]; [lia|]. norm_append.
    rewrite (parseElements_more f _ (JSON_stringify y +:+ arrayTail xs +:+ rest) x).
    + rewrite IH; auto. rewrite length_append. lia.
    + apply Hx; [exact Hnx | lia].
Qed.

Lemma parseMembers_roundtrip (ms : list (string * Json)) :
  Forall (fun kv => roundTrips (snd kv)) ms ->
  forallb (fun kv => numberFree (snd kv)) ms = true ->
  forall (k : string) (x : Json), roundTrips x -> numberFree x = true ->
  forall (f : nat) (rest : string),
    (String.length (JSON_stringify x +:+ objectTail ms) <= f)%nat ->
    parseMembers f (quoteJSONString k +:+ String ":" (JSON_stringify x +:+ objectTail ms +:+ rest))
    = Some ((k, x) :: ms, rest).
Proof.
  induction ms as [|[k' y] ms IH]; intros Hall Hnf k x Hx Hnx f rest Hlen;
    rewrite length_append in Hlen; cbn [objectTail] in *.
  - cbn [String.length] in Hlen.
    destruct f as [|f]; [lia|]. norm_append.
    apply parseMembers_last, Hx; [exact Hnx | lia].
  - rewrite !length_append in Hlen. cbn [String.length] in Hlen.
    pose proof (objectTail_length ms) as Htail.
    apply Forall_cons in Hall as [Hy Hall]. cbn [snd] in Hy.
    cbn [forallb snd] in Hnf. apply andb_true_iff in Hnf as [Hny Hnf].
    destruct f as [|f]; [lia|]. norm_append.
    rewrite (parseMembers_more f k _
               (quoteJSONString k' +:+ String ":" (JSON_stringify y +:+ objectTail ms +:+ rest)) x).
    + rewrite IH; auto. rewrite length_append. lia.
    + apply Hx; [exact Hnx | lia].
Qed.

(** *** Every number-free value survives the round trip *)

Theorem stringify_roundTrips (v : Json) : roundTrips v.
Proof.
  induction v as [ | b | lit | s | xs IH | ms IH ] using Json_nested_ind;
    intros Hnf fuel rest Hlen.
  - destruct fuel as [|f]; [cbn in Hlen; lia | reflexivity].
  - destruct fuel as [|f]; [destruct b; cbn in Hlen; lia | destruct b; reflexivity].
  - discriminate Hnf.
  - destruct fuel as [|f]; [cbn in Hlen; lia|].
    cbn [JSON_stringify]. rewrite quoteJSONString_append, parseValue_string.
    now rewrite parseString_quoted.
  - destruct xs as [|x xs].
    + destruct fuel as [|f]; [cbn in Hlen; lia | reflexivity].
    + rewrite stringify_array_cons in *.
      apply Forall_cons in IH as [Hx Hxs].
      cbn [numberFree forallb] in Hnf. apply andb_true_iff in Hnf as [Hnx Hnxs].
      rewrite !length_append in Hlen. cbn [String.length] in Hlen.
      destruct fuel as [|f]; [lia|]. norm_append.
      rewrite parseValue_array_first by exact Hnx.
      rewrite parseElements_roundtrip; auto. rewrite length_append. lia.
  - destruct ms as [|[k x] ms].
    + destruct fuel as [|f]; [cbn in Hlen; lia | reflexivity].
    + rewrite stringify_object_cons in *.
      apply Forall_cons in IH as [Hx Hms]. cbn [snd] in Hx.
      cbn [numberFree forallb snd] in Hnf. apply andb_true_iff in Hnf as [Hnx Hnms].
      rewrite !length_append in Hlen. cbn [String.length] in Hlen.
      destruct fuel as [|f]; [lia|]. norm_append.
      rewrite parseValue_object_first.
      rewrite parseMembers_roundtrip; auto. rewrite length_append. lia.
Qed.

(** [JSON.parse(JSON.stringify(v))] is [v]. *)
Theorem JSON_parse_stringify (v : Json) :
  numberFree v = true -> JSON_parse (JSON_stringify v) = Some v.
Proof.
  intros Hnf. unfold JSON_parse.
  rewrite <- (append_nil_r (JSON_stringify v)) at 2.
  rewrite (stringify_roundTrips v Hnf); [reflexivity | lia].
Qed.

End JsonFacts.

(* ================================================================== *)
(** * Part XIV: the plan parser, proved                                 *)
(* ================================================================== *)

Section ParserFacts.

Lemma mapM_asString (l : list string) :
  mapM (M := option) asString (map JString l) = Some l.
Proof.
  induction l as [|x l IH]; [reflexivity|].
  cbn [map]. cbn. now rewrite IH.
Qed.

Lemma mapM_decode {A} (toJson : A -> Json) (decode : list (string * Json) -> option A)
    (l : list A) :
  Forall (fun x => (ms ← asObject (toJson x); decode ms) = Some x) l ->
  mapM (M := option) (fun v => ms ← asObject v; decode ms) (map toJson l) = Some l.
Proof.
  induction 1 as [|x l Hx Hl IH]; [reflexivity|].
  cbn [map]. cbn. cbn in Hx. rewrite Hx. cbn. now rewrite IH.
Qed.

Lemma nonEmpty_Some {A} (l : list A) : l <> [] -> nonEmpty l = Some l.
Proof. destruct l; [congruence | reflexivity]. Qed.

Lemma stringsField_jstrings (l : list string) :
  l <> [] ->
  (ys ← mapM (M := option) asString (map JString l); nonEmpty ys) = Some l.
Proof. intros Hl. rewrite mapM_asString. cbn. now apply nonEmpty_Some. Qed.

Lemma decodePillar_toJson (x : MessagingPillar) :
  proofPoints x <> [] ->
  (ms ← asObject (pillarToJson x); decodePillar ms) = Some x.
Proof.
  intros Hne. unfold pillarToJson, decodePillar, stringField, stringsField, jstrings. cbn.
  rewrite mapM_asString. cbn. rewrite (nonEmpty_Some _ Hne). now destruct x.
Qed.

Lemma decodeChannelPlay_toJson (x : ChannelPlay) :
  (ms ← asObject (channelPlayToJson x); decodeChannelPlay ms) = Some x.
Proof. now destruct x. Qed.

Lemma decodeFlow_toJson (x : AutomationFlow) :
  steps x <> [] ->
  (ms ← asObject (flowToJson x); decodeFlow ms) = Some x.
Proof.
  intros Hne. unfold flowToJson, decodeFlow, stringField, stringsField, jstrings. cbn.
  rewrite mapM_asString. cbn. rewrite (nonEmpty_Some _ Hne). now destruct x.
Qed.

Lemma decodeExperiment_toJson (x : Experiment) :
  (ms ← asObject (experimentToJson x); decodeExperiment ms) = Some x.
Proof. now destruct x. Qed.

(** Decoding the object of a valid plan gives the plan back. *)
Lemma planFromJson_planToJson (p : LeadPlan) :
  validPlan p -> planFromJson (planToJson p) = Some p.
Proof.
  intros (H1 & H2 & H3 & H4 & H5 & H6 & H7 & H8 & H9 & H10 & H11).
  unfold planFromJson, planToJson, objectField, objectsField, decodeSummary,
    decodeProfile, stringField, stringsField, jstrings. cbn.
  rewrite !mapM_asString. cbn.
  rewrite (nonEmpty_Some _ H1), (nonEmpty_Some _ H2), (nonEmpty_Some _ H3),
    (nonEmpty_Some _ H4). cbn.
  rewrite (mapM_decode pillarToJson decodePillar).
  2: { eapply Forall_impl; [exact H6|]. intros x Hx. now apply decodePillar_toJson. }
  cbn. rewrite (nonEmpty_Some _ H5). cbn.
  rewrite (mapM_decode channelPlayToJson decodeChannelPlay).
  2: { apply Forall_forall. intros x _. apply decodeChannelPlay_toJson. }
  cbn. rewrite (nonEmpty_Some _ H7). cbn.
  rewrite (mapM_decode flowToJson decodeFlow).
  2: { eapply Forall_impl; [exact H9|]. intros x Hx. now apply decodeFlow_toJson. }
  cbn. rewrite (nonEmpty_Some _ H8). cbn.
  rewrite (mapM_decode experimentToJson decodeExperiment).
  2: { apply Forall_forall. intros x _. apply decodeExperiment_toJson. }
  cbn. rewrite (nonEmpty_Some _ H10), (nonEmpty_Some _ H11). cbn.
  destruct p as [[] [] ? ? ? ? ?]; reflexivity.
Qed.

Lemma numberFree_jstrings (l : list string) : forallb numberFree (map JString l) = true.
Proof. induction l; [reflexivity | exact IHl]. Qed.

Lemma numberFree_map {A} (toJson : A -> Json) (l : list A) :
  (forall x, numberFree (toJson x) = true) ->
  forallb numberFree (map toJson l) = true.
Proof.
  intros H. induction l as [|x l IH]; [reflexivity|].
  cbn [map forallb]. now rewrite H, IH.
Qed.

(** The object of a plan holds strings, arrays and objects only. *)
Lemma numberFree_planToJson (p : LeadPlan) : numberFree (planToJson p) = true.
Proof.
  unfold planToJson, jstrings. cbn [numberFree forallb snd].
  rewrite !numberFree_jstrings.
  rewrite !numberFree_map; [reflexivity | | | | ];
    intros x; unfold experimentToJson, flowToJson, channelPlayToJson, pillarToJson, jstrings;
    cbn [numberFree forallb snd]; rewrite ?numberFree_jstrings; reflexivity.
Qed.

(** The direct decode of the text of a valid plan succeeds. *)
Lemma decodePlan_serializePlan (p : LeadPlan) :
  validPlan p -> decodePlan (serializePlan p) = Some p.
Proof.
  intros Hvalid. unfold decodePlan, serializePlan.
  rewrite (JSON_parse_stringify _ (numberFree_planToJson p)).
  exact (planFromJson_planToJson p Hvalid).
Qed.

(** C9. For every valid plan, [parsePlan] applied to the exact JSON text
    of the plan returns that plan, with raw null and no message. *)
Theorem parsePlan_roundtrip (recoveryNote : string) (p : LeadPlan) :
  validPlan p ->
  parsePlan recoveryNote (serializePlan p)
  = {| plan := Some p; raw := None; message := None |}.
Proof.
  intros Hvalid. unfold parsePlan.
  now rewrite (decodePlan_serializePlan p Hvalid).
Qed.

End ParserFacts.

Lemma fallback_plan_valid (payload : LeadRequest) :
  channels payload <> [] -> validPlan (@buildFallbackPlan asciiStrings payload).
Proof.
  intros Hch. unfold validPlan. cbn.
  repeat split; try discriminate.
  - repeat constructor; discriminate.
  - destruct (channels payload); [congruence | discriminate].
  - repeat constructor; discriminate.
Qed.

Lemma parsePlan_roundtrip_witness :
  validPlan (@buildFallbackPlan asciiStrings defaultState)
  /\ parsePlan "Recovered the plan from the surrounding text."
       (serializePlan (@buildFallbackPlan asciiStrings defaultState))
     = {| plan := Some (@buildFallbackPlan asciiStrings defaultState);
          raw := None; message := None |}.
Proof.
  assert (Hvalid : validPlan (@buildFallbackPlan asciiStrings defaultState)).
  { unfold validPlan. cbn. repeat split; try discriminate; repeat constructor; discriminate. }
  split; [exact Hvalid|].
  exact (parsePlan_roundtrip "Recovered the plan from the surrounding text."
           (@buildFallbackPlan asciiStrings defaultState) Hvalid).
Defined.

(* ================================================================== *)
(** * Part XV: the fuel of the JSON parser is enough                    *)
(* ================================================================== *)

Section FuelFacts.

Local Abbreviation len := String.length.

Lemma skipWs_length (s : string) : (len (skipWs s) <= len s)%nat.
Proof.
  induction s as [|c s IH]; cbn [skipWs]; [lia|].
  destruct (isWs c); cbn [String.length]; lia.
Qed.

Lemma spanDigits_length (s ds r : string) :
  spanDigits s = (ds, r) -> (len r <= len s)%nat.
Proof.
  revert ds r. induction s as [|c s IH]; intros ds r; cbn [spanDigits].
  - intros [= <- <-]. lia.
  - destruct (isDigit c).
    + destruct (spanDigits s) as [ds' r'] eqn:E. intros [= <- <-].
      specialize (IH _ _ eq_refl). cbn [String.length]. lia.
    + intros [= <- <-]. lia.
Qed.

Lemma takeSign_length (s sg r : string) : takeSign s = (sg, r) -> (len r <= len s)%nat.
Proof.
  destruct s as [|c s]; cbn [takeSign].
  - intros [= <- <-]. lia.
  - destruct (Ascii.eqb c "-"); intros [= <- <-]; cbn [String.length]; lia.
Qed.

Lemma takeInt_length (s ip r : string) : takeInt s = Some (ip, r) -> (len r <= len s)%nat.
Proof.
  destruct s as [|c s]; cbn [takeInt]; [discriminate|].
  destruct (Ascii.eqb c "0"); [intros [= <- <-]; cbn [String.length]; lia|].
  destruct (isDigit c); [|discriminate].
  destruct (spanDigits s) as [ds r'] eqn:E. intros [= <- <-].
  apply spanDigits_length in E. cbn [String.length]. lia.
Qed.

Lemma takeFrac_length (s fp r : string) : takeFrac s = Some (fp, r) -> (len r <= len s)%nat.
Proof.
  destruct s as [|c s]; cbn [takeFrac]; [intros [= <- <-]; lia|].
  destruct (Ascii.eqb c "."); [|intros [= <- <-]; lia].
  destruct (spanDigits s) as [[|d ds] r'] eqn:E; [discriminate|]. intros [= <- <-].
  apply spanDigits_length in E. cbn [String.length]. lia.
Qed.

Lemma takeExp_length (s ep r : string) : takeExp s = Some (ep, r) -> (len r <= len s)%nat.
Proof.
  destruct s as [|c s]; cbn [takeExp]; [intros [= <- <-]; lia|].
  destruct (Ascii.eqb c "e" || Ascii.eqb c "E"); [|intros [= <- <-]; lia].
  destruct s as [|c1 s1].
  - cbn. discriminate.
  - destruct (Ascii.eqb c1 "+" || Ascii.eqb c1 "-").
    + destruct (spanDigits s1) as [[|d ds] r'] eqn:E; [discriminate|]. intros [= <- <-].
      apply spanDigits_length in E. cbn [String.length]. lia.
    + destruct (spanDigits (String c1 s1)) as [[|d ds] r'] eqn:E; [discriminate|].
      intros [= <- <-]. apply spanDigits_length in E. cbn [String.length] in *. lia.
Qed.

Lemma parseNumber_length (s lit r : string) :
  parseNumber s = Some (lit, r) -> (len r <= len s)%nat.
Proof.
  unfold parseNumber.
  destruct (takeSign s) as [sg s1] eqn:E1. apply takeSign_length in E1.
  destruct (takeInt s1) as [[ip s2]|] eqn:E2; [|discriminate]. apply takeInt_length in E2.
  destruct (takeFrac s2) as [[fp s3]|] eqn:E3; [|discriminate]. apply takeFrac_length in E3.
  destruct (takeExp s3) as [[ep s4]|] eqn:E4; [|discriminate]. apply takeExp_length in E4.
  intros [= <- <-]. lia.
Qed.

Lemma stripPrefix_length (p s r : string) :
  stripPrefix p s = Some r -> (len r <= len s)%nat.
Proof.
  revert s. induction p as [|a p IH]; intros s; cbn [stripPrefix].
  - intros [= <-]. lia.
  - destruct s as [|b s]; [discriminate|].
    destruct (Ascii.eqb a b); [|discriminate].
    intros H. apply IH in H. cbn [String.length]. lia.
Qed.

Lemma parseChars_length (n : nat) :
  forall (s : string) (us : list StrUnit) (r : string),
    (len s <= n)%nat -> parseChars s = Some (us, r) -> (len r <= len s)%nat.
Proof.
  induction n as [|n IH]; intros s us r Hn; destruct s as [|c s];
    cbn [String.length] in Hn; try discriminate; try lia.
  cbn [parseChars].
  destruct (Ascii.eqb c dquote); [intros [= <- <-]; cbn [String.length]; lia|].
  destruct (Ascii.eqb c backslash).
  - destruct s as [|e s1]; [discriminate|]. cbn [String.length] in Hn.
    assert (Hsimple : forall x : ascii,
               match parseChars s1 with
               | Some (us0, r') => Some (UByte x :: us0, r')
               | None => None
               end = Some (us, r) -> (len r <= len (String c (String e s1)))%nat).
    { intros x. destruct (parseChars s1) as [[us0 r']|] eqn:E; [|discriminate].
      intros [= <- <-]. apply IH in E; [|lia]. cbn [String.length]. lia. }
    repeat (match goal with
            | |- context [if ?b then _ else _] => destruct b; [now apply Hsimple|]
            end).
    destruct (Ascii.eqb e "u"); [|discriminate].
    destruct s1 as [|h1 [|h2 [|h3 [|h4 r2]]]]; try discriminate.
    destruct (hexVal h1), (hexVal h2), (hexVal h3), (hexVal h4); try discriminate.
    destruct (parseChars r2) as [[us0 r']|] eqn:E; [|discriminate].
    intros [= <- <-]. cbn [String.length] in Hn. apply IH in E; [|lia].
    cbn [String.length]. lia.
  - destruct (nat_of_ascii c <? 32)%nat; [discriminate|].
    destruct (parseChars s) as [[us0 r']|] eqn:E; [|discriminate].
    intros [= <- <-]. apply IH in E; [|lia]. cbn [String.length]. lia.
Qed.

Lemma parseString_length (s str r : string) :
  parseString s = Some (str, r) -> (len r <= len s)%nat.
Proof.
  unfold parseString. destruct (parseChars s) as [[us r']|] eqn:E; [|discriminate].
  intros [= <- <-]. now apply (parseChars_length (len s)) in E.
Qed.

(** A successful parse consumes a prefix of the text, and succeeds again
    with any fuel from twice the number of characters it consumed. *)
Lemma parse_fuel_enough (f : nat) :
  (forall s v r, parseValue f s = Some (v, r) ->
     (len r <= len s)%nat
     /\ forall g, (2 * (len s - len r) + 1 <= g)%nat -> parseValue g s = Some (v, r))
  /\ (forall s xs r, parseElements f s = Some (xs, r) ->
        (len r < len s)%nat
        /\ forall g, (2 * (len s - len r) <= g)%nat -> parseElements g s = Some (xs, r))
  /\ (forall s ms r, parseMembers f s = Some (ms, r) ->
        (len r < len s)%nat
        /\ forall g, (2 * (len s - len r) <= g)%nat -> parseMembers g s = Some (ms, r)).
Proof.
  induction f as [|f (IHv & IHe & IHm)];
    [repeat split; intros; discriminate|].
  split; [|split].
  - intros s v r H. cbn [parseValue] in H.
    pose proof (skipWs_length s) as Hws.
    destruct (skipWs s) as [|c r0] eqn:Hs; [discriminate|]. cbn [String.length] in Hws.
    destruct (Ascii.eqb c "{") eqn:E1.
    { pose proof (skipWs_length r0) as Hws2.
      destruct (skipWs r0) as [|c2 r2] eqn:Hs2; [discriminate|]. cbn [String.length] in Hws2.
      destruct (Ascii.eqb c2 "}") eqn:E2.
      - injection H as <- <-. split; [lia|]. intros [|g] Hg; [lia|].
        cbn [parseValue]. now rewrite Hs, E1, Hs2, E2.
      - destruct (parseMembers f (String c2 r2)) as [[ms r']|] eqn:Hm; [|discriminate].
        injection H as <- <-. apply IHm in Hm as [Hl Hg']. cbn [String.length] in Hl, Hg'.
        split; [lia|]. intros [|g] Hg; [lia|].
        cbn [parseValue]. rewrite Hs, E1, Hs2, E2, Hg'; [reflexivity | lia]. }
    destruct (Ascii.eqb c "[") eqn:E3.
    { pose proof (skipWs_length r0) as Hws2.
      destruct (skipWs r0) as [|c2 r2] eqn:Hs2; [discriminate|]. cbn [String.length] in Hws2.
      destruct (Ascii.eqb c2 "]") eqn:E2.
      - injection H as <- <-. split; [lia|]. intros [|g] Hg; [lia|].
        cbn [parseValue]. now rewrite Hs, E1, E3, Hs2, E2.
      - destruct (parseElements f (String c2 r2)) as [[xs r']|] eqn:He; [|discriminate].
        injection H as <- <-. apply IHe in He as [Hl Hg']. cbn [String.length] in Hl, Hg'.
        split; [lia|]. intros [|g] Hg; [lia|].
        cbn [parseValue]. rewrite Hs, E1, E3, Hs2, E2, Hg'; [reflexivity | lia]. }
    destruct (Ascii.eqb c dquote) eqn:E4.
    { destruct (parseString r0) as [[str r']|] eqn:Hstr; [|discriminate].
      injection H as <- <-. pose proof (parseString_length _ _ _ Hstr).
      split; [lia|]. intros [|g] Hg; [lia|].
      cbn [parseValue]. now rewrite Hs, E1, E3, E4, Hstr. }
    destruct (Ascii.eqb c "t") eqn:E5.
    { destruct (stripPrefix "rue" r0) as [r'|] eqn:Hp; [|discriminate].
      injection H as <- <-. pose proof (stripPrefix_length _ _ _ Hp).
      split; [lia|]. intros [|g] Hg; [lia|].
      cbn [parseValue]. now rewrite Hs, E1, E3, E4, E5, Hp. }
    destruct (Ascii.eqb c "f") eqn:E6.
    { destruct (stripPrefix "alse" r0) as [r'|] eqn:Hp; [|discriminate].
      injection H as <- <-. pose proof (stripPrefix_length _ _ _ Hp).
      split; [lia|]. intros [|g] Hg; [lia|].
      cbn [parseValue]. now rewrite Hs, E1, E3, E4, E5, E6, Hp. }
    destruct (Ascii.eqb c "n") eqn:E7.
    { destruct (stripPrefix "ull" r0) as [r'|] eqn:Hp; [|discriminate].
      injection H as <- <-. pose proof (stripPrefix_length _ _ _ Hp).
      split; [lia|]. intros [|g] Hg; [lia|].
      cbn [parseValue]. now rewrite Hs, E1, E3, E4, E5, E6, E7, Hp. }
    destruct (parseNumber (String c r0)) as [[lit r']|] eqn:Hnum; [|discriminate].
    injection H as <- <-. pose proof (parseNumber_length _ _ _ Hnum) as Hl.
    cbn [String.length] in Hl.
    split; [lia|]. intros [|g] Hg; [lia|].
    cbn [parseValue]. now rewrite Hs, E1, E3, E4, E5, E6, E7, Hnum.
  - intros s xs r H. cbn [parseElements] in H.
    destruct (parseValue f s) as [[x r1]|] eqn:Hv; [|discriminate].
    apply IHv in Hv as [Hl Hg'].
    pose proof (skipWs_length r1) as Hws.
    destruct (skipWs r1) as [|c r2] eqn:Hs; [discriminate|]. cbn [String.length] in Hws.
    destruct (Ascii.eqb c ",") eqn:E1.
    + destruct (parseElements f r2) as [[xs' r']|] eqn:He; [|discriminate].
      injection H as <- <-. apply IHe in He as [Hl2 Hg2].
      split; [lia|]. intros [|g] Hg; [lia|].
      cbn [parseElements]. rewrite Hg' by lia. rewrite Hs, E1, Hg2; [reflexivity | lia].
    + destruct (Ascii.eqb c "]") eqn:E2; [|discriminate].
      injection H as <- <-.
      split; [lia|]. intros [|g] Hg; [lia|].
      cbn [parseElements]. rewrite Hg' by lia. now rewrite Hs, E1, E2.
  - intros s ms r H. cbn [parseMembers] in H.
    pose proof (skipWs_length s) as Hws.
    destruct (skipWs s) as [|c r0] eqn:Hs; [discriminate|]. cbn [String.length] in Hws.
    destruct (Ascii.eqb c dquote) eqn:E1; [|discriminate].
    destruct (parseString r0) as [[k r1]|] eqn:Hk; [|discriminate].
    pose proof (parseString_length _ _ _ Hk) as Hlk.
    pose proof (skipWs_length r1) as Hws1.
    destruct (skipWs r1) as [|c1 r2] eqn:Hs1; [discriminate|]. cbn [String.length] in Hws1.
    destruct (Ascii.eqb c1 ":") eqn:E2; [|discriminate].
    destruct (parseValue f r2) as [[x r3]|] eqn:Hv; [|discriminate].
    apply IHv in Hv as [Hl Hg'].
    pose proof (skipWs_length r3) as Hws3.
    destruct (skipWs r3) as [|c3 r4] eqn:Hs3; [discriminate|]. cbn [String.length] in Hws3.
    destruct (Ascii.eqb c3 ",") eqn:E3.
    + destruct (parseMembers f r4) as [[ms' r']|] eqn:Hm; [|discriminate].
      injection H as <- <-. apply IHm in Hm as [Hl2 Hg2].
      split; [lia|]. intros [|g] Hg; [lia|].
      cbn [parseMembers]. rewrite Hs, E1, Hk, Hs1, E2. rewrite Hg' by lia.
      rewrite Hs3, E3, Hg2; [reflexivity | lia].
    + destruct (Ascii.eqb c3 "}") eqn:E4; [|discriminate].
      injection H as <- <-.
      split; [lia|]. intros [|g] Hg; [lia|].
      cbn [parseMembers]. rewrite Hs, E1, Hk, Hs1, E2. rewrite Hg' by lia.
      now rewrite Hs3, E3, E4.
Qed.

(** [JSON_parse] never fails for lack of fuel: a text that the parser
    reads with some amount of fuel, up to trailing white space, is read by
    [JSON_parse]. *)
Theorem JSON_parse_fuel (text : string) (fuel : nat) (v : Json) (r : string) :
  parseValue fuel text = Some (v, r) ->
  skipWs r = EmptyString ->
  JSON_parse text = Some v.
Proof.
  intros H Hr. destruct (parse_fuel_enough fuel) as [Hv _].
  apply Hv in H as [Hl Hg]. unfold JSON_parse.
  rewrite Hg by lia. now rewrite Hr.
Qed.

End FuelFacts.

(* ================================================================== *)
(** * Part XVI: the model at work                                       *)
(* ================================================================== *)

(** The parser on prose: no plan, the text as raw, the failure message. *)
Example parsePlan_prose :
  parsePlan "Recovered the plan from the surrounding text." "I cannot help with that."
  = {| plan := None;
       raw := Some "I cannot help with that.";
       message := Some "model output could not be parsed as a structured plan" |}.
Proof. vm_compute. reflexivity. Qed.

(** The parser on a plan wrapped in prose: the plan, with the note. *)
Example parsePlan_wrapped :
  parsePlan "Recovered the plan from the surrounding text."
    ("Sure! Here you go: "
     +:+ serializePlan (@buildFallbackPlan asciiStrings defaultState)
     +:+ " Hope that helps.")
  = {| plan := Some (@buildFallbackPlan asciiStrings defaultState);
       raw := None;
       message := Some "Recovered the plan from the surrounding text." |}.
Proof. vm_compute. reflexivity. Qed.

(** A stray closing brace in the prose after the plan defeats the recovery:
    the span runs from the first opening brace to the last closing one. *)
Example parsePlan_stray_brace :
  plan (parsePlan "Recovered the plan from the surrounding text."
          (serializePlan (@buildFallbackPlan asciiStrings defaultState)
           +:+ " (see section 2}"))
  = None.
Proof. vm_compute. reflexivity. Qed.

(** The schema on the initial form state, and on a form without goals. *)
Example validate_defaultState :
  validate sampleOptions (leadRequestToJson defaultState) = SafeParseSuccess defaultState.
Proof. vm_compute. reflexivity. Qed.

Example validate_no_goals :
  validate sampleOptions
    (JObject [ ("businessName", JString "Lumos Analytics");
               ("industry", JString "B2B SaaS");
               ("productDescription", JString "A RevOps intelligence platform");
               ("targetCustomer", JString "Heads of Demand Gen");
               ("uniqueValue", JString "Real-time attribution");
               ("goals", JArray []);
               ("channels", JArray [JString "Webinars"; JString "Webinars"]);
               ("tone", JString "Data-driven");
               ("offer", JString "  Free audit ");
               ("budgetLevel", JString "lean");
               ("timeframe", JString "2 weeks") ])
  = SafeParseFailure {| issues := [ issueAt [PKey "goals"] "Select at least one" ] |}.
Proof. vm_compute. reflexivity. Qed.

(** A whole run with a credential and a model that answers with a plan. *)
Example POST_model_answers_with_plan :
  let p := @buildFallbackPlan asciiStrings sprintState in
  let w := {| request_body := bodyOf defaultState;
              OPENAI_API_KEY := Some "sk-test";
              getOpenAIClient :=
                Returned {| chat_completions_create :=
                              fun _ => Returned (completionOf (serializePlan p)) |} |} in
  fst (run (@POST asciiStrings sampleLib w))
  = Returned {| status := 200; body := ModelBody (Some p) None None |}.
Proof. vm_compute. reflexivity. Qed.

(* ================================================================== *)
(** * Part XVII: indented JSON text, proved                             *)
(* ================================================================== *)

Section GapFacts.

Lemma spaces_length (n : nat) : String.length (spaces n) = n.
Proof. induction n as [|n IH]; cbn; [reflexivity | now rewrite IH]. Qed.

Lemma breakLine_length (n : nat) : String.length (breakLine n) = S n.
Proof. unfold breakLine. cbn. now rewrite spaces_length. Qed.

Lemma skipWs_spaces (n : nat) (s : string) : skipWs (spaces n +:+ s) = skipWs s.
Proof. induction n as [|n IH]; [reflexivity|]. cbn [spaces]. rewrite append_cons. exact IH. Qed.

Lemma skipWs_breakLine (n : nat) (s : string) : skipWs (breakLine n +:+ s) = skipWs s.
Proof. unfold breakLine. rewrite append_cons. exact (skipWs_spaces n s). Qed.

Lemma skipWs_startsValue (c : ascii) (s : string) :
  startsValue c -> skipWs (String c s) = String c s.
Proof. intros [->|[->|[->|[->|[->| ->]]]]]; reflexivity. Qed.

(** The parser does not see white space in front of a value or a member. *)
Lemma parseValue_ws (f : nat) (s1 s2 : string) :
  skipWs s1 = skipWs s2 -> parseValue f s1 = parseValue f s2.
Proof. intros H. destruct f as [|f]; [reflexivity|]. cbn [parseValue]. now rewrite H. Qed.

Lemma parseElements_ws (f : nat) (s1 s2 : string) :
  skipWs s1 = skipWs s2 -> parseElements f s1 = parseElements f s2.
Proof.
  intros H. destruct f as [|f]; [reflexivity|].
  cbn [parseElements]. now rewrite (parseValue_ws f s1 s2 H).
Qed.

Lemma parseMembers_ws (f : nat) (s1 s2 : string) :
  skipWs s1 = skipWs s2 -> parseMembers f s1 = parseMembers f s2.
Proof. intros H. destruct f as [|f]; [reflexivity|]. cbn [parseMembers]. now rewrite H. Qed.

Lemma stringify_gap_array_cons (gap indent : nat) (x : Json) (xs : list Json) :
  JSON_stringify_gap gap indent (JArray (x :: xs))
  = "[" +:+ breakLine (indent + gap) +:+ JSON_stringify_gap gap (indent + gap) x
    +:+ arrayTailGap gap indent xs.
Proof. reflexivity. Qed.

Lemma stringify_gap_object_cons (gap indent : nat) (k : string) (x : Json)
    (ms : list (string * Json)) :
  JSON_stringify_gap gap indent (JObject ((k, x) :: ms))
  = "{" +:+ breakLine (indent + gap) +:+ quoteJSONString k +:+ ": "
    +:+ JSON_stringify_gap gap (indent + gap) x +:+ objectTailGap gap indent ms.
Proof. reflexivity. Qed.

Lemma stringify_gap_head (gap indent : nat) (v : Json) :
  numberFree v = true ->
  exists (c : ascii) (s : string),
    JSON_stringify_gap gap indent v = String c s /\ startsValue c.
Proof.
  unfold startsValue.
  destruct v as [ | [] | lit | s | [|x xs] | [|[k x] ms] ]; intros Hnf;
    try discriminate.
  - exists "n"%char, "ull". auto 10.
  - exists "t"%char, "rue". auto 10.
  - exists "f"%char, "alse". auto 10.
  - eexists dquote, _. split; [reflexivity | auto 10].
  - exists "["%char, "]". auto 10.
  - rewrite stringify_gap_array_cons. eexists "["%char, _. split; [reflexivity | auto 10].
  - exists "{"%char, "}". auto 10.
  - rewrite stringify_gap_object_cons. eexists "{"%char, _. split; [reflexivity | auto 10].
Qed.

Lemma skipWs_stringify_gap (gap indent : nat) (v : Json) (r : string) :
  numberFree v = true ->
  skipWs (JSON_stringify_gap gap indent v +:+ r) = JSON_stringify_gap gap indent v +:+ r.
Proof.
  intros Hnf. destruct (stringify_gap_head gap indent v Hnf) as (c & s & Heq & Hc).
  rewrite Heq, append_cons. now apply skipWs_startsValue.
Qed.

(** *** One step of the parser, white space allowed *)

Lemma parseValue_array_gap (f : nat) (gap indent : nat) (v : Json) (r0 r : string) :
  numberFree v = true ->
  skipWs r0 = JSON_stringify_gap gap indent v +:+ r ->
  parseValue (S f) (String "[" r0)
  = match parseElements f (JSON_stringify_gap gap indent v +:+ r) with
    | Some (xs, r') => Some (JArray xs, r')
    | None => None
    end.
Proof.
  intros Hnf Hskip. destruct (stringify_gap_head gap indent v Hnf) as (c & s & Heq & Hc).
  rewrite Heq, append_cons in *. cbn [parseValue].
  change (skipWs (String "[" r0)) with (String "[" r0).
  change (Ascii.eqb "[" "{") with false. change (Ascii.eqb "[" "[") with true. cbv iota.
  rewrite Hskip.
  destruct Hc as [->|[->|[->|[->|[->| ->]]]]]; reflexivity.
Qed.

Lemma parseValue_object_gap (f : nat) (k r0 r : string) :
  skipWs r0 = quoteJSONString k +:+ r ->
  parseValue (S f) (String "{" r0)
  = match parseMembers f (quoteJSONString k +:+ r) with
    | Some (ms, r') => Some (JObject ms, r')
    | None => None
    end.
Proof.
  intros Hskip. rewrite quoteJSONString_append in *. cbn [parseValue].
  change (skipWs (String "{" r0)) with (String "{" r0).
  change (Ascii.eqb "{" "{") with true. cbv iota.
  rewrite Hskip. reflexivity.
Qed.

Lemma parseElements_gap_last (f : nat) (s r rest : string) (x : Json) :
  parseValue f s = Some (x, r) ->
  skipWs r = String "]" rest ->
  parseElements (S f) s = Some ([x], rest).
Proof. intros H Hr. cbn [parseElements]. rewrite H, Hr. reflexivity. Qed.

Lemma parseElements_gap_more (f : nat) (s r r1 : string) (x : Json) :
  parseValue f s = Some (x, r) ->
  skipWs r = String "," r1 ->
  parseElements (S f) s
  = match parseElements f r1 with
    | Some (xs, r') => Some (x :: xs, r')
    | None => None
    end.
Proof. intros H Hr. cbn [parseElements]. rewrite H, Hr. reflexivity. Qed.

Lemma parseMembers_gap_key (f : nat) (k r2 : string) :
  parseMembers (S f) (quoteJSONString k +:+ String ":" r2)
  = match parseValue f r2 with
    | Some (x, r3) =>
        match skipWs r3 with
        | String c3 r4 =>
            if Ascii.eqb c3 "," then
              match parseMembers f r4 with
              | Some (ms, r') => Some ((k, x) :: ms, r')
              | None => None
              end
            else if Ascii.eqb c3 "}" then Some ([(k, x)], r4)
            else None
        | EmptyString => None
        end
    | None => None
    end.
Proof.
  rewrite quoteJSONString_append. cbn [parseMembers].
  change (skipWs (String dquote ?t)) with (String dquote t).
  change (Ascii.eqb dquote dquote) with true. cbv iota.
  rewrite parseString_quoted.
  change (skipWs (String ":" r2)) with (String ":" r2).
  change (Ascii.eqb ":" ":") with true. cbv iota.
  reflexivity.
Qed.

Lemma arrayTailGap_nil (gap indent : nat) :
  arrayTailGap gap indent [] = breakLine indent +:+ "]".
Proof. reflexivity. Qed.

Lemma arrayTailGap_cons (gap indent : nat) (y : Json) (l : list Json) :
  arrayTailGap gap indent (y :: l)
  = "," +:+ breakLine (indent + gap)
    +:+ JSON_stringify_gap gap (indent + gap) y +:+ arrayTailGap gap indent l.
Proof. reflexivity. Qed.

Lemma objectTailGap_nil (gap indent : nat) :
  objectTailGap gap indent [] = breakLine indent +:+ "}".
Proof. reflexivity. Qed.

Lemma objectTailGap_cons (gap indent : nat) (k : string) (y : Json)
    (l : list (string * Json)) :
  objectTailGap gap indent ((k, y) :: l)
  = "," +:+ breakLine (indent + gap) +:+ quoteJSONString k +:+ ": "
    +:+ JSON_stringify_gap gap (indent + gap) y +:+ objectTailGap gap indent l.
Proof. reflexivity. Qed.

Lemma arrayTailGap_length (gap indent : nat) (xs : list Json) :
  (1 <= String.length (arrayTailGap gap indent xs))%nat.
Proof.
  destruct xs; [rewrite arrayTailGap_nil | rewrite arrayTailGap_cons];
    rewrite length_append; [rewrite breakLine_length|]; cbn; lia.
Qed.

Lemma objectTailGap_length (gap indent : nat) (ms : list (string * Json)) :
  (1 <= String.length (objectTailGap gap indent ms))%nat.
Proof.
  destruct ms as [|[k y] ms]; [rewrite objectTailGap_nil | rewrite objectTailGap_cons];
    rewrite length_append; [rewrite breakLine_length|]; cbn; lia.
Qed.

(** Literal prefixes pushed to the front, appends associated to the right. *)
Ltac push_append :=
  repeat (rewrite append_assoc || rewrite append_cons || rewrite append_nil_l).

(** *** Elements and members *)

Lemma parseElements_roundtrip_gap (xs : list Json) :
  Forall roundTripsGap xs ->
  forallb numberFree xs = true ->
  forall x : Json, roundTripsGap x -> numberFree x = true ->
  forall (gap indent f : nat) (rest : string),
    (String.length (JSON_stringify_gap gap (indent + gap) x +:+ arrayTailGap gap indent xs)
     <= f)%nat ->
    parseElements f
      (JSON_stringify_gap gap (indent + gap) x +:+ arrayTailGap gap indent xs +:+ rest)
    = Some (x :: xs, rest).
Proof.
  induction xs as [|y xs IH]; intros Hall Hnf x Hx Hnx gap indent f rest Hlen;
    rewrite length_append in Hlen.
  - rewrite arrayTailGap_nil in *.
    rewrite length_append, breakLine_length in Hlen. cbn [String.length] in Hlen.
    destruct f as [|f]; [lia|].
    apply (parseElements_gap_last f _ ((breakLine indent +:+ "]") +:+ rest)).
    + apply Hx; [exact Hnx | lia].
    + rewrite append_assoc, skipWs_breakLine. reflexivity.
  - rewrite arrayTailGap_cons in *.
    rewrite !length_append, breakLine_length in Hlen. cbn [String.length] in Hlen.
    pose proof (arrayTailGap_length gap indent xs) as Htail.
    apply Forall_cons in Hall as [Hy Hall].
    cbn [forallb] in Hnf. apply andb_true_iff in Hnf as [Hny Hnf].
    destruct f as [|f]; [lia|].
    rewrite (parseElements_gap_more f _
               (("," +:+ breakLine (indent + gap)
                 +:+ JSON_stringify_gap gap (indent + gap) y +:+ arrayTailGap gap indent xs)
                +:+ rest)
               (breakLine (indent + gap)
                +:+ JSON_stringify_gap gap (indent + gap) y
                +:+ arrayTailGap gap indent xs +:+ rest) x).
    + rewrite (parseElements_ws f _
                 (JSON_stringify_gap gap (indent + gap) y
                  +:+ arrayTailGap gap indent xs +:+ rest))
        by apply skipWs_breakLine.
      rewrite IH; auto. rewrite length_append. lia.
    + apply Hx; [exact Hnx | lia].
    + push_append. reflexivity.
Qed.

Lemma parseMembers_roundtrip_gap (ms : list (string * Json)) :
  Forall (fun kv => roundTripsGap (snd kv)) ms ->
  forallb (fun kv => numberFree (snd kv)) ms = true ->
  forall (k : string) (x : Json), roundTripsGap x -> numberFree x = true ->
  forall (gap indent f : nat) (rest : string),
    (String.length (JSON_stringify_gap gap (indent + gap) x +:+ objectTailGap gap indent ms)
     <= f)%nat ->
    parseMembers f
      (quoteJSONString k +:+ String ":" (String " "
         (JSON_stringify_gap gap (indent + gap) x +:+ objectTailGap gap indent ms +:+ rest)))
    = Some ((k, x) :: ms, rest).
Proof.
  induction ms as [|[k' y] ms IH]; intros Hall Hnf k x Hx Hnx gap indent f rest Hlen;
    rewrite length_append in Hlen.
  - rewrite objectTailGap_nil in *.
    rewrite length_append, breakLine_length in Hlen. cbn [String.length] in Hlen.
    destruct f as [|f]; [lia|].
    rewrite parseMembers_gap_key.
    rewrite (parseValue_ws f _
               (JSON_stringify_gap gap (indent + gap) x +:+ (breakLine indent +:+ "}") +:+ rest))
      by reflexivity.
    rewrite Hx; [|exact Hnx|lia].
    rewrite append_assoc, skipWs_breakLine. reflexivity.
  - rewrite objectTailGap_cons in *.
    rewrite !length_append, breakLine_length in Hlen. cbn [String.length] in Hlen.
    pose proof (objectTailGap_length gap indent ms) as Htail.
    apply Forall_cons in Hall as [Hy Hall]. cbn [snd] in Hy.
    cbn [forallb snd] in Hnf. apply andb_true_iff in Hnf as [Hny Hnf].
    destruct f as [|f]; [lia|].
    rewrite parseMembers_gap_key.
    rewrite (parseValue_ws f _
               (JSON_stringify_gap gap (indent + gap) x
                +:+ ("," +:+ breakLine (indent + gap) +:+ quoteJSONString k' +:+ ": "
                     +:+ JSON_stringify_gap gap (indent + gap) y
                     +:+ objectTailGap gap indent ms) +:+ rest))
      by reflexivity.
    rewrite Hx; [|exact Hnx|lia].
    push_append.
    change (skipWs (String "," ?t)) with (String "," t).
    change (Ascii.eqb "," ",") with true. cbv iota.
    rewrite (parseMembers_ws f _
               (quoteJSONString k' +:+ String ":" (String " "
                  (JSON_stringify_gap gap (indent + gap) y
                   +:+ objectTailGap gap indent ms +:+ rest))))
      by apply skipWs_breakLine.
    rewrite IH; auto. rewrite length_append. lia.
Qed.

(** *** Every number-free value survives the round trip through indented text *)

Theorem stringify_gap_roundTrips (v : Json) : roundTripsGap v.
Proof.
  induction v as [ | b | lit | s | xs IH | ms IH ] using Json_nested_ind;
    intros Hnf gap indent fuel rest Hlen.
  - destruct fuel as [|f]; [cbn in Hlen; lia | reflexivity].
  - destruct fuel as [|f]; [destruct b; cbn in Hlen; lia | destruct b; reflexivity].
  - discriminate Hnf.
  - destruct fuel as [|f]; [cbn in Hlen; lia|].
    cbn [JSON_stringify_gap]. rewrite quoteJSONString_append, parseValue_string.
    now rewrite parseString_quoted.
  - destruct xs as [|x xs].
    + destruct fuel as [|f]; [cbn in Hlen; lia | reflexivity].
    + rewrite stringify_gap_array_cons in *.
      apply Forall_cons in IH as [Hx Hxs].
      cbn [numberFree forallb] in Hnf. apply andb_true_iff in Hnf as [Hnx Hnxs].
      rewrite !length_append, breakLine_length in Hlen. cbn [String.length] in Hlen.
      destruct fuel as [|f]; [lia|]. push_append.
      rewrite (parseValue_array_gap f gap (indent + gap) x _
                 (arrayTailGap gap indent xs +:+ rest) Hnx).
      * rewrite parseElements_roundtrip_gap; auto. rewrite length_append. lia.
      * rewrite skipWs_breakLine. now apply skipWs_stringify_gap.
  - destruct ms as [|[k x] ms].
    + destruct fuel as [|f]; [cbn in Hlen; lia | reflexivity].
    + rewrite stringify_gap_object_cons in *.
      apply Forall_cons in IH as [Hx Hms]. cbn [snd] in Hx.
      cbn [numberFree forallb snd] in Hnf. apply andb_true_iff in Hnf as [Hnx Hnms].
      rewrite !length_append, breakLine_length in Hlen. cbn [String.length] in Hlen.
      destruct fuel as [|f]; [lia|]. push_append.
      rewrite (parseValue_object_gap f k _
                 (String ":" (String " "
                    (JSON_stringify_gap gap (indent + gap) x
                     +:+ objectTailGap gap indent ms +:+ rest)))).
      * rewrite parseMembers_roundtrip_gap; auto. rewrite length_append. lia.
      * rewrite skipWs_breakLine. rewrite quoteJSONString_append. reflexivity.
Qed.

(** [JSON.parse(JSON.stringify(v, null, gap))] is [v]. *)
Lemma JSON_parse_stringify_gap (gap : nat) (v : Json) :
  numberFree v = true -> JSON_parse (JSON_stringify_gap gap 0 v) = Some v.
Proof.
  intros Hnf. unfold JSON_parse.
  rewrite <- (append_nil_r (JSON_stringify_gap gap 0 v)) at 2.
  rewrite (stringify_gap_roundTrips v Hnf); [reflexivity | lia].
Qed.

End GapFacts.

(* ================================================================== *)
(** * Part XVIII: selections on the page, proved                        *)
(* ================================================================== *)

Section SelectionFacts.

Lemma Set_has_elem (x : string) (s : list string) : Set_has x s = true ↔ x ∈ s.
Proof.
  unfold Set_has. induction s as [|y s IH]; cbn [existsb].
  - split; [discriminate | intros H; inversion H].
  - rewrite orb_true_iff, IH, elem_of_cons, String.eqb_eq. tauto.
Qed.

Lemma Set_has_not_elem (x : string) (s : list string) : Set_has x s = false ↔ x ∉ s.
Proof.
  rewrite <- Set_has_elem. destruct (Set_has x s); split; try congruence; tauto.
Qed.

Lemma Set_add_elem (x y : string) (s : list string) : y ∈ Set_add x s ↔ y = x ∨ y ∈ s.
Proof.
  unfold Set_add. destruct (Set_has x s) eqn:E.
  - apply Set_has_elem in E. split; [tauto | intros [->|H]; assumption].
  - rewrite elem_of_app, list_elem_of_singleton. tauto.
Qed.

Lemma Set_add_NoDup (x : string) (s : list string) : NoDup s → NoDup (Set_add x s).
Proof.
  intros Hs. unfold Set_add. destruct (Set_has x s) eqn:E; [exact Hs|].
  apply Set_has_not_elem in E. apply NoDup_app. split; [exact Hs|]. split.
  - intros y Hy Hyx. apply list_elem_of_singleton in Hyx. now subst.
  - apply NoDup_singleton.
Qed.

Lemma Set_delete_elem (x y : string) (s : list string) :
  y ∈ Set_delete x s ↔ y ∈ s ∧ y ≠ x.
Proof.
  unfold Set_delete. induction s as [|z s IH]; cbn [List.filter].
  - split; [intros H; inversion H | intros [H _]; inversion H].
  - destruct (String.eqb_spec z x) as [->|Hne]; cbn [negb].
    + rewrite IH, elem_of_cons. split; [tauto | intros [[->|H] Hn]; tauto].
    + rewrite !elem_of_cons, IH. split; [|tauto].
      intros [->|[H Hn]]; tauto.
Qed.

Lemma Set_delete_NoDup (x : string) (s : list string) : NoDup s → NoDup (Set_delete x s).
Proof.
  unfold Set_delete. induction 1 as [|z s Hz Hs IH]; cbn [List.filter]; [constructor|].
  destruct (negb (String.eqb z x)); [|exact IH].
  constructor; [|exact IH]. intros Hin. apply (Set_delete_elem x z s) in Hin. tauto.
Qed.

Lemma Set_delete_absent (x : string) (s : list string) : x ∉ s → Set_delete x s = s.
Proof.
  unfold Set_delete. induction s as [|z s IH]; intros Hx; cbn [List.filter]; [reflexivity|].
  apply not_elem_of_cons in Hx as [Hne Hx].
  destruct (String.eqb_spec z x) as [->|_]; [congruence|]. cbn [negb]. now rewrite IH.
Qed.

Lemma newSet_fold (l acc : list string) :
  NoDup acc →
  NoDup (foldl (fun s x => Set_add x s) acc l)
  ∧ ∀ y, y ∈ foldl (fun s x => Set_add x s) acc l ↔ y ∈ acc ∨ y ∈ l.
Proof.
  revert acc. induction l as [|x l IH]; intros acc Hacc; cbn [foldl].
  - split; [exact Hacc|]. intros y. rewrite elem_of_nil. tauto.
  - destruct (IH (Set_add x acc) (Set_add_NoDup x acc Hacc)) as [Hnd Hel].
    split; [exact Hnd|]. intros y. rewrite Hel, Set_add_elem, elem_of_cons. tauto.
Qed.

Lemma newSet_NoDup (l : list string) : NoDup (newSet l).
Proof. apply newSet_fold. constructor. Qed.

Lemma newSet_elem (l : list string) (y : string) : y ∈ newSet l ↔ y ∈ l.
Proof.
  unfold newSet. destruct (newSet_fold l [] (NoDup_nil_2 (A := string))) as [_ H].
  rewrite H, elem_of_nil. tauto.
Qed.

Lemma newSet_fold_id (l acc : list string) :
  NoDup (acc ++ l) → foldl (fun s x => Set_add x s) acc l = acc ++ l.
Proof.
  revert acc. induction l as [|x l IH]; intros acc Hnd; cbn [foldl].
  - now rewrite app_nil_r.
  - assert (Hx : x ∉ acc).
    { apply NoDup_app in Hnd as (_ & Hdis & _). intros Hin. apply (Hdis x Hin). left. }
    unfold Set_add at 2. rewrite (proj2 (Set_has_not_elem x acc) Hx).
    rewrite IH; rewrite <- app_assoc; [reflexivity | exact Hnd].
Qed.

(** A list without duplicates is its own set. *)
Lemma newSet_id (l : list string) : NoDup l → newSet l = l.
Proof. intros H. unfold newSet. now rewrite newSet_fold_id. Qed.

Lemma selectionOf_updateListField (k : ListKey) (v : list string) (st : PageState) :
  selectionOf k (form (updateListField k v st)) = v.
Proof. destruct k; reflexivity. Qed.

(** The list of a page after a click, in terms of the list before. *)
Lemma clickOption_selection (k : ListKey) (value : string) (st : PageState) :
  selectionOf k (form (clickOption k value st))
  = let s := newSet (selectionOf k (form st)) in
    if Set_has value s then Set_delete value s else Set_add value s.
Proof.
  unfold clickOption, toggleSelection. rewrite selectionOf_updateListField.
  unfold Array_from. now rewrite (newSet_id _ (newSet_NoDup _)).
Qed.

(** X1. After a click on an option the list it belongs to has no
    duplicates, holds the option exactly when it did not before, and holds
    any other value exactly when it did before. *)
Theorem clickOption_flips_membership (k : ListKey) (value : string) (st : PageState) :
  NoDup (selectionOf k (form (clickOption k value st)))
  ∧ (value ∈ selectionOf k (form (clickOption k value st))
     ↔ value ∉ selectionOf k (form st))
  ∧ (∀ x, x ≠ value →
       (x ∈ selectionOf k (form (clickOption k value st)) ↔ x ∈ selectionOf k (form st))).
Proof.
  rewrite clickOption_selection. cbv zeta.
  pose proof (newSet_NoDup (selectionOf k (form st))) as Hnd.
  destruct (Set_has value (newSet (selectionOf k (form st)))) eqn:E.
  - apply Set_has_elem in E. rewrite newSet_elem in E.
    split; [now apply Set_delete_NoDup|]. split.
    + rewrite Set_delete_elem. tauto.
    + intros x Hx. rewrite Set_delete_elem, newSet_elem. tauto.
  - apply Set_has_not_elem in E. rewrite newSet_elem in E.
    split; [now apply Set_add_NoDup|]. split.
    + rewrite Set_add_elem. tauto.
    + intros x Hx. rewrite Set_add_elem, newSet_elem. tauto.
Qed.

Lemma updateListField_twice (k : ListKey) (v : list string) (st : PageState) :
  selectionOf k (form st) = v → updateListField k v st = st.
Proof. destruct k, st as [[] ? ? ? ? ?]; cbn; intros ->; reflexivity. Qed.

Lemma updateListField_overwrite (k : ListKey) (v1 v2 : list string) (st : PageState) :
  updateListField k v2 (updateListField k v1 st) = updateListField k v2 st.
Proof. destruct k; reflexivity. Qed.

(** X2. Selecting an option that was not selected and clicking it again
    gives back the page as it was, when the list had no duplicates. *)
Theorem clickOption_select_then_deselect (k : ListKey) (value : string) (st : PageState) :
  NoDup (selectionOf k (form st)) →
  value ∉ selectionOf k (form st) →
  clickOption k value (clickOption k value st) = st.
Proof.
  intros Hnd Hnot.
  assert (H1 : selectionOf k (form (clickOption k value st))
               = selectionOf k (form st) ++ [value]).
  { rewrite clickOption_selection. cbv zeta. rewrite (newSet_id _ Hnd).
    rewrite (proj2 (Set_has_not_elem _ _) Hnot). unfold Set_add.
    now rewrite (proj2 (Set_has_not_elem _ _) Hnot). }
  assert (Hnd1 : NoDup (selectionOf k (form st) ++ [value])).
  { apply NoDup_app. split; [exact Hnd|]. split; [|apply NoDup_singleton].
    intros y Hy Hyv. apply list_elem_of_singleton in Hyv. now subst. }
  unfold clickOption at 1, toggleSelection. rewrite H1.
  rewrite !(newSet_id _ Hnd1).
  assert (Hin : Set_has value (selectionOf k (form st) ++ [value]) = true).
  { apply Set_has_elem, elem_of_app. right. now apply list_elem_of_singleton. }
  rewrite Hin. unfold Array_from, Set_delete.
  rewrite List.filter_app. fold (Set_delete value (selectionOf k (form st))).
  rewrite (Set_delete_absent _ _ Hnot). cbn [List.filter].
  rewrite String.eqb_refl. cbn [negb]. rewrite app_nil_r.
  unfold clickOption, toggleSelection. rewrite updateListField_overwrite.
  now apply updateListField_twice.
Qed.

End SelectionFacts.

Section ReselectFacts.
Context {SP : StringPrototype}.

Lemma clickOption_deselected (k : ListKey) (value : string) (st : PageState) :
  NoDup (selectionOf k (form st)) →
  value ∈ selectionOf k (form st) →
  selectionOf k (form (clickOption k value st)) = Set_delete value (selectionOf k (form st)).
Proof.
  intros Hnd Hin. rewrite clickOption_selection. cbv zeta. rewrite (newSet_id _ Hnd).
  now rewrite (proj2 (Set_has_elem _ _) Hin).
Qed.

(** X3. Deselecting a selected option and selecting it again moves the
    option to the end of the list: the list comes back as it was exactly
    when the option was the last one already.  For a channel, the entry of
    the fallback plan for that channel becomes the last one. *)
Theorem clickOption_reselect_moves_last (k : ListKey) (value : string) (st : PageState) :
  NoDup (selectionOf k (form st)) →
  value ∈ selectionOf k (form st) →
  selectionOf k (form (clickOption k value (clickOption k value st)))
  = Set_delete value (selectionOf k (form st)) ++ [value]
  ∧ (selectionOf k (form (clickOption k value (clickOption k value st)))
     = selectionOf k (form st)
     ↔ last (selectionOf k (form st)) = Some value)
  ∧ (k = ChannelsKey →
     channel <$> last (channelStrategy
                         (buildFallbackPlan
                            (form (clickOption k value (clickOption k value st)))))
     = Some value).
Proof.
  intros Hnd Hin.
  assert (Hsel : selectionOf k (form (clickOption k value (clickOption k value st)))
                 = Set_delete value (selectionOf k (form st)) ++ [value]).
  { rewrite clickOption_selection. cbv zeta.
    rewrite (clickOption_deselected k value st Hnd Hin).
    rewrite (newSet_id _ (Set_delete_NoDup value _ Hnd)).
    assert (Hout : value ∉ Set_delete value (selectionOf k (form st))).
    { rewrite Set_delete_elem. tauto. }
    rewrite (proj2 (Set_has_not_elem _ _) Hout). unfold Set_add.
    now rewrite (proj2 (Set_has_not_elem _ _) Hout). }
  split; [exact Hsel|]. split.
  - rewrite Hsel. split.
    + intros Hback. apply (f_equal last) in Hback. now rewrite last_snoc in Hback.
    + intros Hlast. apply last_Some in Hlast as [front Hfront].
      rewrite Hfront in Hnd |- *.
      apply NoDup_app in Hnd as (_ & Hfresh & _).
      assert (Hout : value ∉ front).
      { intros Hv. apply (Hfresh value Hv). now apply list_elem_of_singleton. }
      unfold Set_delete. rewrite List.filter_app.
      fold (Set_delete value front). rewrite (Set_delete_absent _ _ Hout).
      cbn [List.filter]. rewrite String.eqb_refl. cbn [negb]. now rewrite app_nil_r.
  - intros ->. cbn [selectionOf] in Hsel.
    cbn [buildFallbackPlan channelStrategy]. rewrite Hsel.
    rewrite map_app. cbn [map]. now rewrite last_snoc.
Qed.

End ReselectFacts.

Lemma clickOption_select_then_deselect_witness :
  clickOption GoalsKey "Expand into new markets"
    (clickOption GoalsKey "Expand into new markets" initialPage)
  = initialPage.
Proof.
  apply (clickOption_select_then_deselect GoalsKey "Expand into new markets" initialPage).
  - apply (bool_decide_unpack _). vm_compute. exact I.
  - apply (bool_decide_unpack _). vm_compute. exact I.
Defined.

Lemma clickOption_reselect_moves_last_witness :
  channels (form (clickOption ChannelsKey "Cold email"
                    (clickOption ChannelsKey "Cold email" initialPage)))
  = ["LinkedIn outreach"; "Webinars"; "Cold email"]
  ∧ (channels (form (clickOption ChannelsKey "Cold email"
                       (clickOption ChannelsKey "Cold email" initialPage)))
     = ["Cold email"; "LinkedIn outreach"; "Webinars"]
     ↔ last ["Cold email"; "LinkedIn outreach"; "Webinars"] = Some "Cold email")
  ∧ channel <$> last (channelStrategy
                        (@buildFallbackPlan asciiStrings
                           (form (clickOption ChannelsKey "Cold email"
                                    (clickOption ChannelsKey "Cold email" initialPage)))))
    = Some "Cold email".
Proof.
  destruct (@clickOption_reselect_moves_last asciiStrings ChannelsKey "Cold email" initialPage)
    as (Hsel & Hback & Hlast).
  - apply (bool_decide_unpack _). vm_compute. exact I.
  - apply (bool_decide_unpack _). vm_compute. exact I.
  - split; [exact Hsel|]. split; [exact Hback | exact (Hlast eq_refl)].
Defined.

(* ================================================================== *)
(** * Part XIX: the submit handler, proved                              *)
(* ================================================================== *)

Section SubmitFacts.
Context {L : Lib}.

Lemma handleSubmit_valid_form
    (fetch : string -> FetchInit -> Outcome FetchResponse) (st : PageState)
    (payload : LeadRequest) :
  leadRequestSchema_safeParse (leadRequestToJson (form st)) = SafeParseSuccess payload ->
  handleSubmit fetch st
  = let st1 := setLoading true (setErrors ∅ (setStatusMessage None st)) in
    setLoading false
      match fetch "/api/plan" (planRequest payload) with
      | Thrown _ => setStatusMessage networkError st1
      | Returned response =>
          match json response with
          | Thrown _ => setStatusMessage networkError st1
          | Returned data =>
              if negb (ok response) then
                setRawPlan None
                  (setPlan None
                     (setStatusMessage
                        (Some (default
                                 "Unexpected error from the lead generation agent. Try again."
                                 (optionalError data))) st1))
              else
                match data with
                | NullJson => setStatusMessage networkError st1
                | ObjectJson d =>
                    let st2 := setRawPlan (raw_of d) (setPlan (plan_of d) st1) in
                    if truthy (warning_of d) then setStatusMessage (warning_of d) st2
                    else if truthy (notice_of d) then setStatusMessage (notice_of d) st2
                    else setStatusMessage (Some "Campaign blueprint generated!") st2
                end
          end
      end.
Proof.
  intros Hok. unfold handleSubmit, leadRequestSchema_parse.
  cbn [form setErrors setStatusMessage]. now rewrite Hok.
Qed.

(** X4. When the form fails validation no request is sent: the outcome
    does not depend on the network, the plan and the raw text on display
    stay, the status message is cleared and the loading flag is not
    touched. *)
Theorem handleSubmit_rejected_form_sends_nothing (st : PageState) (error : ZodError) :
  leadRequestSchema_safeParse (leadRequestToJson (form st)) = SafeParseFailure error ->
  forall fetch fetch' : string -> FetchInit -> Outcome FetchResponse,
    handleSubmit fetch st = handleSubmit fetch' st
    /\ page_plan (handleSubmit fetch st) = page_plan st
    /\ rawPlan (handleSubmit fetch st) = rawPlan st
    /\ statusMessage (handleSubmit fetch st) = None
    /\ loading (handleSubmit fetch st) = loading st
    /\ form (handleSubmit fetch st) = form st.
Proof.
  intros Hfail fetch fetch'.
  rewrite !(handleSubmit_invalid_form _ st error Hfail). repeat split.
Qed.

(** X5. When the form passes validation, whatever the network does the
    handler ends with the loading flag down, no field errors, the form as it
    was and a status message for the user. *)
Theorem handleSubmit_settles
    (fetch : string -> FetchInit -> Outcome FetchResponse) (st : PageState)
    (payload : LeadRequest) :
  leadRequestSchema_safeParse (leadRequestToJson (form st)) = SafeParseSuccess payload ->
  loading (handleSubmit fetch st) = false
  /\ errors (handleSubmit fetch st) = ∅
  /\ form (handleSubmit fetch st) = form st
  /\ exists text : string, statusMessage (handleSubmit fetch st) = Some text.
Proof.
  intros Hok. rewrite (handleSubmit_valid_form fetch st payload Hok). cbv zeta.
  destruct (fetch "/api/plan" (planRequest payload)) as [response|e];
    [|cbn; unfold networkError; eauto 6].
  destruct (json response) as [data|e]; [|cbn; unfold networkError; eauto 6].
  destruct (ok response); cbn [negb]; [|cbn; eauto 6].
  destruct data as [|d]; [cbn; unfold networkError; eauto 6|].
  destruct (warning_of d) as [w|] eqn:Hw; cbn [truthy].
  - destruct (negb (String.eqb w EmptyString)); [cbn; eauto 6|].
    destruct (notice_of d) as [n|] eqn:Hn; cbn [truthy]; [|cbn; eauto 6].
    destruct (negb (String.eqb n EmptyString)); cbn; eauto 6.
  - destruct (notice_of d) as [n|] eqn:Hn; cbn [truthy]; [|cbn; eauto 6].
    destruct (negb (String.eqb n EmptyString)); cbn; eauto 6.
Qed.

(** X6. When the request fails on the network, or the body of the answer
    is not JSON, the plan and the raw text on display stay as they were and
    the status is the network-error message. *)
Theorem handleSubmit_network_failure_keeps_plan
    (fetch : string -> FetchInit -> Outcome FetchResponse) (st : PageState)
    (payload : LeadRequest) :
  leadRequestSchema_safeParse (leadRequestToJson (form st)) = SafeParseSuccess payload ->
  ((exists e, fetch "/api/plan" (planRequest payload) = Thrown e)
   \/ (exists response e,
         fetch "/api/plan" (planRequest payload) = Returned response
         /\ json response = Thrown e)) ->
  page_plan (handleSubmit fetch st) = page_plan st
  /\ rawPlan (handleSubmit fetch st) = rawPlan st
  /\ statusMessage (handleSubmit fetch st)
     = Some "Network error. Check your connection and try generating again.".
Proof.
  intros Hok Hnet. rewrite (handleSubmit_valid_form fetch st payload Hok). cbv zeta.
  destruct Hnet as [[e ->]|(response & e & -> & ->)]; repeat split.
Qed.

(** X7. When the server answers with an error status, the plan and the raw
    text on display are cleared and the status is the error text of the
    answer, or a default text when the answer has none or is [null]. *)
Theorem handleSubmit_error_response_clears_plan
    (fetch : string -> FetchInit -> Outcome FetchResponse) (st : PageState)
    (payload : LeadRequest) (response : FetchResponse) (data : FetchedJson) :
  leadRequestSchema_safeParse (leadRequestToJson (form st)) = SafeParseSuccess payload ->
  fetch "/api/plan" (planRequest payload) = Returned response ->
  ok response = false ->
  json response = Returned data ->
  page_plan (handleSubmit fetch st) = None
  /\ rawPlan (handleSubmit fetch st) = None
  /\ statusMessage (handleSubmit fetch st)
     = Some (match optionalError data with
             | Some text => text
             | None => "Unexpected error from the lead generation agent. Try again."
             end).
Proof.
  intros Hok Hfetch Hstatus Hjson.
  rewrite (handleSubmit_valid_form fetch st payload Hok). cbv zeta.
  rewrite Hfetch, Hjson, Hstatus. cbn. now destruct (optionalError data).
Qed.

(** X8. When the server answers with a success status and a body that is
    not [null], the page takes the plan and the raw text of the body, and
    the status is the warning when there is a non-empty one, whatever the
    notice; else the notice when there is a non-empty one; else the text
    that the blueprint was generated. *)
Theorem handleSubmit_success_response
    (fetch : string -> FetchInit -> Outcome FetchResponse) (st : PageState)
    (payload : LeadRequest) (response : FetchResponse) (d : DataFields) :
  leadRequestSchema_safeParse (leadRequestToJson (form st)) = SafeParseSuccess payload ->
  fetch "/api/plan" (planRequest payload) = Returned response ->
  ok response = true ->
  json response = Returned (ObjectJson d) ->
  page_plan (handleSubmit fetch st) = plan_of d
  /\ rawPlan (handleSubmit fetch st) = raw_of d
  /\ statusMessage (handleSubmit fetch st)
     = if truthy (warning_of d) then warning_of d
       else if truthy (notice_of d) then notice_of d
       else Some "Campaign blueprint generated!".
Proof.
  intros Hok Hfetch Hstatus Hjson.
  rewrite (handleSubmit_valid_form fetch st payload Hok). cbv zeta.
  rewrite Hfetch, Hjson, Hstatus. cbn [negb].
  destruct (truthy (warning_of d)); [repeat split|].
  destruct (truthy (notice_of d)); repeat split.
Qed.

(** X24. When the server answers with a success status and the body
    [null], reading [data.plan] throws inside the [try]: the plan and the
    raw text on display stay as they were and the status is the
    network-error message, although the network did not fail. *)
Theorem handleSubmit_null_body_reads_as_network_error
    (fetch : string -> FetchInit -> Outcome FetchResponse) (st : PageState)
    (payload : LeadRequest) (response : FetchResponse) :
  leadRequestSchema_safeParse (leadRequestToJson (form st)) = SafeParseSuccess payload ->
  fetch "/api/plan" (planRequest payload) = Returned response ->
  ok response = true ->
  json response = Returned NullJson ->
  page_plan (handleSubmit fetch st) = page_plan st
  /\ rawPlan (handleSubmit fetch st) = rawPlan st
  /\ statusMessage (handleSubmit fetch st)
     = Some "Network error. Check your connection and try generating again."
  /\ loading (handleSubmit fetch st) = false.
Proof.
  intros Hok Hfetch Hstatus Hjson.
  rewrite (handleSubmit_valid_form fetch st payload Hok). cbv zeta.
  rewrite Hfetch, Hjson, Hstatus. repeat split.
Qed.

End SubmitFacts.

(* ================================================================== *)
(** * Part XX: more about the route handler                             *)
(* ================================================================== *)

Lemma POST_model_plan_witness :
  run (@POST asciiStrings sampleLib worldModelPlan)
  = (Returned {| status := 200;
                 body := ModelBody (Some (@buildFallbackPlan asciiStrings sprintState))
                           None None |},
     [EvChatCompletion (chatRequest (buildPrompt defaultState))]).
Proof.
  apply (@POST_model_plan asciiStrings sampleLib worldModelPlan
           (leadRequestToJson defaultState) defaultState
           {| chat_completions_create := fun _ =>
                Returned (completionOf
                            (serializePlan (@buildFallbackPlan asciiStrings sprintState))) |}
           (buildPrompt defaultState)
           (completionOf (serializePlan (@buildFallbackPlan asciiStrings sprintState)))
           (parsePlan "Recovered the plan from the surrounding text."
              (serializePlan (@buildFallbackPlan asciiStrings sprintState)))
           (@buildFallbackPlan asciiStrings sprintState));
    vm_compute; reflexivity.
Defined.

Section RouteMore.
Context {SP : StringPrototype} {L : Lib}.

(** X10. Once the body is JSON the handler answers, with 400 exactly when
    the schema rejects the body and with 200 exactly when it accepts it; the
    400 answer comes with no effect at all: no model call, no fallback plan,
    nothing logged. *)
Theorem POST_status_reflects_validation (w : World) (rawInput : Json) :
  JSON_parse (request_body w) = Some rawInput ->
  exists (response : Response) (log : list Event),
    run (POST w) = (Returned response, log)
    /\ (status response = 400
        <-> exists error, leadRequestSchema_safeParse rawInput = SafeParseFailure error)
    /\ (status response = 200
        <-> exists payload, leadRequestSchema_safeParse rawInput = SafeParseSuccess payload)
    /\ (status response = 400 -> log = []).
Proof.
  intros Hjson. unfold POST. unfold_M.
  rewrite (request_json_parsed _ _ _ Hjson).
  destruct (leadRequestSchema_safeParse rawInput) as [payload|error].
  - assert (Hshape : forall (response : Response) (log : list Event),
               status response = 200 ->
               (status response = 400
                <-> exists error, SafeParseSuccess payload = SafeParseFailure error)
               /\ (status response = 200
                   <-> exists payload', SafeParseSuccess payload = SafeParseSuccess payload')
               /\ (status response = 400 -> log = [])).
    { intros response log H200. rewrite H200. repeat split; try discriminate; eauto.
      intros [error Herr]. discriminate. }
    destruct (truthy (OPENAI_API_KEY w)); cbn.
    + destruct (getOpenAIClient w) as [client|e]; cbn;
        [|eexists _, _; split; [reflexivity | now apply Hshape]].
      destruct (buildLeadPlanPrompt payload) as [prompt|e]; cbn;
        [|eexists _, _; split; [reflexivity | now apply Hshape]].
      destruct (chat_completions_create client (chatRequest prompt)) as [completion|e];
        cbn; [|eexists _, _; split; [reflexivity | now apply Hshape]].
      destruct (tryParsePlan (responseTextOf completion)) as [parsed|e]; cbn;
        eexists _, _; (split; [reflexivity | now apply Hshape]).
    + eexists _, _; split; [reflexivity | now apply Hshape].
  - cbn. eexists _, _. split; [reflexivity|]. cbn.
    repeat split; try discriminate; eauto. intros [payload Hp]. discriminate.
Qed.

(** X11. In every answer of the handler a plan excludes a raw text, a
    warning comes only with a plan and never with a notice, and an answer
    with status 400 carries neither plan nor raw text. *)
Theorem POST_plan_excludes_raw (w : World) (response : Response) (log : list Event) :
  run (POST w) = (Returned response, log) ->
  (forall p, data_plan (body response) = Some p -> data_raw (body response) = None)
  /\ (forall t, data_warning (body response) = Some t ->
        data_notice (body response) = None
        /\ exists p, data_plan (body response) = Some p)
  /\ (status response = 400 ->
        data_plan (body response) = None /\ data_raw (body response) = None).
Proof.
  unfold POST, request_json. unfold_M.
  destruct (JSON_parse (stripBOM (request_body w))) as [rawInput|]; [|discriminate].
  destruct (leadRequestSchema_safeParse rawInput) as [payload|error];
    [|intros [= <- <-]; cbn; repeat split; discriminate].
  destruct (truthy (OPENAI_API_KEY w)); cbn.
  - destruct (getOpenAIClient w) as [client|e]; cbn;
      [|intros [= <- <-]; cbn; repeat split; try discriminate; eauto].
    destruct (buildLeadPlanPrompt payload) as [prompt|e]; cbn;
      [|intros [= <- <-]; cbn; repeat split; try discriminate; eauto].
    destruct (chat_completions_create client (chatRequest prompt)) as [completion|e];
      cbn; [|intros [= <- <-]; cbn; repeat split; try discriminate; eauto].
    destruct (tryParsePlan (responseTextOf completion)) as [parsed|e]; cbn;
      intros [= <- <-]; cbn; repeat split; try discriminate; eauto.
    intros p Hp. now rewrite Hp.
  - intros [= <- <-]; cbn; repeat split; try discriminate; eauto.
Qed.

(** X12. One request makes at most one call to the model service and at
    most one fallback plan; the model is called only with a credential in
    the environment; and the fallback plan is built exactly when the answer
    carries a warning. *)
Theorem POST_effects_bounded (w : World) :
  length (List.filter isChatCompletion (snd (run (POST w)))) <= 1
  /\ length (List.filter isFallback (snd (run (POST w)))) <= 1
  /\ (modelInvoked (snd (run (POST w))) = true -> truthy (OPENAI_API_KEY w) = true)
  /\ (fallbackInvoked (snd (run (POST w))) = true
      <-> exists response t,
            fst (run (POST w)) = Returned response
            /\ data_warning (body response) = Some t).
Proof.
  unfold POST, request_json. unfold_M.
  destruct (JSON_parse (stripBOM (request_body w))) as [rawInput|];
    [|cbn; repeat split; try lia; try discriminate; intros (r & t & H & _); discriminate].
  destruct (leadRequestSchema_safeParse rawInput) as [payload|error];
    [|cbn; repeat split; try lia; try discriminate;
      intros (r & t & [= <-] & H); discriminate].
  destruct (truthy (OPENAI_API_KEY w)); cbn.
  - destruct (getOpenAIClient w) as [client|e]; cbn;
      [|repeat split; try lia; eauto].
    destruct (buildLeadPlanPrompt payload) as [prompt|e]; cbn;
      [|repeat split; try lia; eauto].
    destruct (chat_completions_create client (chatRequest prompt)) as [completion|e];
      cbn; [|repeat split; try lia; eauto].
    destruct (tryParsePlan (responseTextOf completion)) as [parsed|e]; cbn;
      repeat split; try lia; try discriminate; eauto.
    intros (r & t & [= <-] & H). discriminate.
  - repeat split; try lia; try discriminate; eauto.
Qed.

(** X13. When the client factory or the prompt builder throws, the handler
    answers with the fallback plan and its warning, logs the thrown value
    and never calls the model service. *)
Theorem POST_setup_failure_skips_model
    (w : World) (rawInput : Json) (payload : LeadRequest) (e : Exception) :
  JSON_parse (request_body w) = Some rawInput ->
  leadRequestSchema_safeParse rawInput = SafeParseSuccess payload ->
  truthy (OPENAI_API_KEY w) = true ->
  (getOpenAIClient w = Thrown e
   \/ exists client, getOpenAIClient w = Returned client
                     /\ buildLeadPlanPrompt payload = Thrown e) ->
  run (POST w)
  = (Returned
       {| status := 200;
          body := FallbackBody (buildFallbackPlan payload) None
                    "Failed to generate plan with OpenAI. Provided a fallback strategy instead." |},
     [EvConsoleError e; EvFallback payload]).
Proof.
  intros Hjson Hvalid Hkey Hthrow. unfold POST. unfold_M.
  rewrite (request_json_parsed _ _ _ Hjson), Hvalid, Hkey. cbn.
  destruct Hthrow as [->|(client & -> & Hprompt)]; cbn; [reflexivity|].
  now rewrite Hprompt.
Qed.

(** X14. When the parser throws on the model's text, the answer of the
    model is dropped: the handler logs the thrown value and answers with the
    fallback plan and its warning. *)
Theorem POST_parser_failure_falls_back
    (w : World) (rawInput : Json) (payload : LeadRequest)
    (client : OpenAIClient) (prompt : string)
    (completion : ChatCompletion) (e : Exception) :
  JSON_parse (request_body w) = Some rawInput ->
  leadRequestSchema_safeParse rawInput = SafeParseSuccess payload ->
  truthy (OPENAI_API_KEY w) = true ->
  getOpenAIClient w = Returned client ->
  buildLeadPlanPrompt payload = Returned prompt ->
  chat_completions_create client (chatRequest prompt) = Returned completion ->
  tryParsePlan (responseTextOf completion) = Thrown e ->
  run (POST w)
  = (Returned
       {| status := 200;
          body := FallbackBody (buildFallbackPlan payload) None
                    "Failed to generate plan with OpenAI. Provided a fallback strategy instead." |},
     [EvChatCompletion (chatRequest prompt); EvConsoleError e; EvFallback payload]).
Proof.
  intros Hjson Hvalid Hkey Hclient Hprompt Hcall Hparse. unfold POST. unfold_M.
  rewrite (request_json_parsed _ _ _ Hjson), Hvalid, Hkey. cbn.
  rewrite Hclient, Hprompt. cbn. now rewrite Hcall, Hparse.
Qed.

End RouteMore.

(* ================================================================== *)
(** * Part XXI: the page in front of the route, proved                  *)
(* ================================================================== *)

Section EndToEnd.
Context {SP : StringPrototype}.

Lemma numberFree_leadRequestToJson (r : LeadRequest) :
  numberFree (leadRequestToJson r) = true.
Proof.
  unfold leadRequestToJson, jstrings.
  destruct (notes r); cbn [numberFree forallb snd app];
    rewrite !numberFree_jstrings; reflexivity.
Qed.

(** What the page sends is JSON: the server reads the object of the
    payload. *)
Lemma JSON_parse_planRequest (payload : LeadRequest) :
  JSON_parse (fetch_body (planRequest payload)) = Some (leadRequestToJson payload).
Proof. apply JSON_parse_stringify, numberFree_leadRequestToJson. Qed.

Lemma POST_on_page_request {LS : Lib} (env : World) (payload : LeadRequest) :
  exists (response : Response) (log : list Event),
    run (POST (worldOf env (fetch_body (planRequest payload)))) = (Returned response, log)
    /\ (status response = 200 \/ status response = 400).
Proof.
  apply (POST_responds_on_json _ (leadRequestToJson payload)).
  apply JSON_parse_planRequest.
Qed.

(** X15. The handler answers every request that the page can send: the
    body that [handleSubmit] writes is read back by [request.json()] as the
    object of the payload, for every payload, so the handler throws on none
    of them. *)
Theorem POST_answers_page_requests {LS : Lib} (env : World) (payload : LeadRequest) :
  JSON_parse (fetch_body (planRequest payload)) = Some (leadRequestToJson payload)
  /\ exists (response : Response) (log : list Event),
       run (POST (worldOf env (fetch_body (planRequest payload)))) = (Returned response, log)
       /\ (status response = 200 \/ status response = 400).
Proof. split; [apply JSON_parse_planRequest | apply POST_on_page_request]. Qed.

(** X16. A submit through the route does not depend on what the framework
    does when the handler throws: the page cannot make the handler throw. *)
Theorem submit_never_meets_a_crash {L LS : Lib} (env : World) (st : PageState)
    (onCrash onCrash' : Exception -> Outcome FetchResponse) :
  handleSubmit (L := L) (fetchRoute (L := LS) env onCrash) st
  = handleSubmit (L := L) (fetchRoute (L := LS) env onCrash') st.
Proof.
  destruct (@leadRequestSchema_safeParse L (leadRequestToJson (form st)))
    as [payload|error] eqn:Hparse.
  - rewrite !(handleSubmit_valid_form (L := L) _ st payload Hparse). cbv zeta.
    unfold fetchRoute.
    destruct (POST_on_page_request (LS := LS) env payload) as (response & log & Hrun & _).
    now rewrite Hrun.
  - now rewrite !(handleSubmit_invalid_form (L := L) _ st error Hparse).
Qed.

Lemma fetchRoute_returns {LS : Lib} (env : World)
    (onCrash : Exception -> Outcome FetchResponse) (payload : LeadRequest)
    (response : Response) (log : list Event) :
  run (POST (worldOf env (fetch_body (planRequest payload)))) = (Returned response, log) ->
  fetchRoute (L := LS) env onCrash "/api/plan" (planRequest payload)
  = Returned {| ok := responseOk response; json := Returned (dataOf (body response)) |}.
Proof. intros Hrun. unfold fetchRoute. now rewrite Hrun. Qed.

(** X17. A submit through the route shows what the route answered.  After
    a 200 the page holds the plan and the raw text of the answer, and the
    preview renders them; after a 400 (the server's schema rejects what the
    page's schema accepted) the page holds neither and the status is
    "Invalid input". *)
Theorem submit_mirrors_route_answer {L LS : Lib} (env : World) (st : PageState)
    (onCrash : Exception -> Outcome FetchResponse)
    (payload : LeadRequest) (response : Response) (log : list Event) :
  @leadRequestSchema_safeParse L (leadRequestToJson (form st)) = SafeParseSuccess payload ->
  run (POST (L := LS) (worldOf env (fetch_body (planRequest payload))))
  = (Returned response, log) ->
  (status response = 200 ->
     page_plan (handleSubmit (L := L) (fetchRoute (L := LS) env onCrash) st)
     = data_plan (body response)
     /\ rawPlan (handleSubmit (L := L) (fetchRoute (L := LS) env onCrash) st)
        = data_raw (body response)
     /\ PlanPreview
          (page_plan (handleSubmit (L := L) (fetchRoute (L := LS) env onCrash) st))
          (rawPlan (handleSubmit (L := L) (fetchRoute (L := LS) env onCrash) st))
        = PlanPreview (data_plan (body response)) (data_raw (body response)))
  /\ (status response = 400 ->
        page_plan (handleSubmit (L := L) (fetchRoute (L := LS) env onCrash) st) = None
        /\ rawPlan (handleSubmit (L := L) (fetchRoute (L := LS) env onCrash) st) = None
        /\ statusMessage (handleSubmit (L := L) (fetchRoute (L := LS) env onCrash) st)
           = Some "Invalid input").
Proof.
  intros Hparse Hrun.
  rewrite (handleSubmit_valid_form (L := L) _ st payload Hparse). cbv zeta.
  rewrite (fetchRoute_returns (LS := LS) env onCrash payload response log Hrun).
  cbn [json ok].
  split; intros Hstatus.
  - unfold responseOk. rewrite Hstatus. cbn [Nat.leb andb negb dataOf].
    cbn [raw_of plan_of warning_of notice_of].
    destruct (truthy (data_warning (body response)));
      [|destruct (truthy (data_notice (body response)))]; repeat split.
  - unfold responseOk. rewrite Hstatus. cbn [Nat.leb andb negb].
    revert Hrun Hstatus. unfold POST. unfold_M.
    rewrite (request_json_parsed _ (leadRequestToJson payload))
      by apply JSON_parse_planRequest.
    cbn [request_body OPENAI_API_KEY getOpenAIClient worldOf].
    destruct (@leadRequestSchema_safeParse LS (leadRequestToJson payload))
      as [payload'|error].
    + destruct (truthy (OPENAI_API_KEY env)); cbn.
      * destruct (getOpenAIClient env) as [client|e]; cbn;
          [|intros [= <- <-]; discriminate].
        destruct (@buildLeadPlanPrompt LS payload') as [prompt|e]; cbn;
          [|intros [= <- <-]; discriminate].
        destruct (chat_completions_create client (chatRequest prompt)) as [completion|e];
          cbn; [|intros [= <- <-]; discriminate].
        destruct (@tryParsePlan LS (responseTextOf completion)) as [parsed|e]; cbn;
          intros [= <- <-]; discriminate.
      * intros [= <- <-]; discriminate.
    + intros [= <- <-] _. repeat split.
Qed.

(** X18. A submit of a valid form through a route without credential ends
    with the fallback plan of the brief on the page, no raw text, the
    warning of the route as status, and the preview renders the blueprint. *)
Theorem submit_without_credential_shows_fallback {L : Lib} (env : World) (st : PageState)
    (onCrash : Exception -> Outcome FetchResponse) (payload payload' : LeadRequest) :
  leadRequestSchema_safeParse (leadRequestToJson (form st)) = SafeParseSuccess payload ->
  leadRequestSchema_safeParse (leadRequestToJson payload) = SafeParseSuccess payload' ->
  truthy (OPENAI_API_KEY env) = false ->
  page_plan (handleSubmit (fetchRoute env onCrash) st) = Some (buildFallbackPlan payload')
  /\ rawPlan (handleSubmit (fetchRoute env onCrash) st) = None
  /\ statusMessage (handleSubmit (fetchRoute env onCrash) st)
     = Some "OPENAI_API_KEY is not configured. Responding with a heuristic fallback plan."
  /\ loading (handleSubmit (fetchRoute env onCrash) st) = false
  /\ PlanPreview (page_plan (handleSubmit (fetchRoute env onCrash) st))
       (rawPlan (handleSubmit (fetchRoute env onCrash) st))
     = Some (Blueprint (buildFallbackPlan payload')).
Proof.
  intros Hparse Hserver Hkey.
  rewrite (handleSubmit_valid_form _ st payload Hparse). cbv zeta.
  assert (Hrun : run (POST (worldOf env (fetch_body (planRequest payload))))
    = (Returned
         {| status := 200;
            body := FallbackBody (buildFallbackPlan payload') None
                      "OPENAI_API_KEY is not configured. Responding with a heuristic fallback plan." |},
       [EvFallback payload'])).
  { unfold POST. unfold_M.
    rewrite (request_json_parsed _ (leadRequestToJson payload))
      by apply JSON_parse_planRequest.
    rewrite Hserver. cbn [OPENAI_API_KEY worldOf]. now rewrite Hkey. }
  rewrite (fetchRoute_returns env onCrash payload _ _ Hrun). repeat split.
Qed.

End EndToEnd.

(* ================================================================== *)
(** * Part XXII: the preview and the clipboard, proved                  *)
(* ================================================================== *)

Section PreviewFacts.
Context {SP : StringPrototype}.

(** X19. [PlanPreview] always renders one of its three templates: the
    [return null] after the second test is never reached.  It shows the
    blueprint exactly when there is a plan, whatever the raw text; the raw
    text exactly when there is no plan and the text is not empty; and the
    placeholder otherwise, so an empty raw text counts as none. *)
Theorem PlanPreview_always_renders (plan : option LeadPlan) (raw : option string) :
  exists view : PreviewView,
    PlanPreview plan raw = Some view
    /\ (forall p, view = Blueprint p <-> plan = Some p)
    /\ (forall text, view = RawResponse text
                     <-> plan = None /\ raw = Some text /\ text <> EmptyString)
    /\ (view = Placeholder
        <-> plan = None /\ (raw = None \/ raw = Some EmptyString)).
Proof.
  unfold PlanPreview.
  destruct plan as [p|]; cbn [andb].
  - exists (Blueprint p). split; [reflexivity|]. repeat split; try discriminate.
    + intros [= ->]. reflexivity.
    + intros [= ->]. reflexivity.
    + intros [H _]. discriminate.
    + intros [H _]. discriminate.
  - destruct raw as [[|c r]|]; cbn.
    + exists Placeholder. split; [reflexivity|]. repeat split; try discriminate; auto.
      * intros (_ & [= <-] & H). congruence.
    + exists (RawResponse (String c r)). split; [reflexivity|].
      repeat split; try discriminate; try congruence.
      * intros (_ & [= ->] & _). reflexivity.
      * intros [_ [H|H]]; discriminate.
    + exists Placeholder. split; [reflexivity|]. repeat split; try discriminate; auto.
      intros (_ & H & _). discriminate.
Qed.

Lemma append_cancel_r (a b s : string) : a +:+ s = b +:+ s -> a = b.
Proof.
  revert b. induction a as [|x a IH]; intros [|y b] H.
  - reflexivity.
  - apply (f_equal String.length) in H. rewrite append_nil_l, append_cons in H.
    cbn [String.length] in H. rewrite length_append in H. lia.
  - apply (f_equal String.length) in H. rewrite append_nil_l, append_cons in H.
    cbn [String.length] in H. rewrite length_append in H. lia.
  - rewrite !append_cons in H. injection H as -> H. f_equal. now apply IH.
Qed.

(** X20. In the blueprint of a fallback plan the React keys of the channel
    entries are pairwise distinct exactly when the channels of the brief
    are: two equal channels give two entries with the same key. *)
Theorem fallback_channel_keys_distinct (payload : LeadRequest) :
  NoDup (channelKeys (buildFallbackPlan payload)) <-> NoDup (channels payload).
Proof.
  unfold channelKeys. cbn [buildFallbackPlan channelStrategy].
  rewrite map_map. cbn [channelPlay channel objective].
  assert (Hinj : Inj (=) (=) (fun c : string =>
            c +:+ "-" +:+ "Drive " +:+ toLowerCase (offer payload) +:+ " conversions.")).
  { intros c1 c2 H. exact (append_cancel_r _ _ _ H). }
  exact (NoDup_fmap _ (channels payload)).
Qed.

Lemma dashFree_append_dash (a b : string) : dashFree (a +:+ String "-" b) = false.
Proof.
  induction a as [|x a IH]; [reflexivity|].
  rewrite append_cons. cbn [dashFree]. rewrite IH. apply andb_false_r.
Qed.

Lemma append_dash_inj (a b d1 d2 : string) :
  dashFree d1 = true -> dashFree d2 = true ->
  a +:+ String "-" d1 = b +:+ String "-" d2 -> d1 = d2.
Proof.
  intros H1 H2. revert b. induction a as [|x a IH]; intros [|y b] H.
  - rewrite !append_nil_l in H. now injection H.
  - rewrite append_nil_l, append_cons in H. injection H as _ H.
    rewrite H, dashFree_append_dash in H1. discriminate.
  - rewrite append_nil_l, append_cons in H. injection H as _ H.
    rewrite <- H, dashFree_append_dash in H2. discriminate.
  - rewrite !append_cons in H. injection H as _ H. now apply (IH b).
Qed.

Lemma dashFree_string_of_uint (d : Decimal.uint) : dashFree (NilEmpty.string_of_uint d) = true.
Proof. induction d; cbn; auto. Qed.

Lemma decimal_inj (i j : nat) : decimal i = decimal j -> i = j.
Proof.
  unfold decimal. intros H. apply Unsigned.to_uint_inj.
  assert (Hs : NilEmpty.uint_of_string (NilEmpty.string_of_uint (Nat.to_uint i))
               = NilEmpty.uint_of_string (NilEmpty.string_of_uint (Nat.to_uint j)))
    by now rewrite H.
  rewrite !NilEmpty.usu in Hs. now injection Hs.
Qed.

Lemma NoDup_imap_index {A} (f : nat -> A -> string) (l : list A) :
  (forall i j x y, f i x = f j y -> i = j) -> NoDup (imap f l).
Proof.
  intros Hinj. apply NoDup_alt. intros i j k Hi Hj.
  rewrite list_lookup_imap in Hi, Hj.
  destruct (l !! i) as [x|]; [|discriminate].
  destruct (l !! j) as [y|]; [|discriminate].
  cbn in Hi, Hj. apply (Hinj i j x y). congruence.
Qed.

(** X21. The keys that end with the index of the entry never collide: the
    keys of the steps of a flow are pairwise distinct, and so are the keys
    of the experiments, whatever the texts of the plan, equal or not. *)
Theorem indexed_keys_distinct (flow : AutomationFlow) (p : LeadPlan) :
  NoDup (stepKeys flow) /\ NoDup (experimentKeys p).
Proof.
  split; apply NoDup_imap_index; intros i j x y H; apply decimal_inj.
  - apply (append_dash_inj (name flow) (name flow)); [apply dashFree_string_of_uint..|].
    exact H.
  - apply (append_dash_inj (hypothesis x) (hypothesis y));
      [apply dashFree_string_of_uint..|]. exact H.
Qed.

(** X22. What the copy button of the blueprint hands to the clipboard is
    JSON, and it parses to the same object as the text the server sent:
    the object of the plan. *)
Theorem clipboard_text_parses_to_plan (p : LeadPlan) (raw : option string)
    (writeText : string -> Outcome unit) :
  fst (handleCopy writeText (Some p) raw) = clipboardText (Some p) raw
  /\ JSON_parse (clipboardText (Some p) raw) = Some (planToJson p)
  /\ JSON_parse (clipboardText (Some p) raw) = JSON_parse (serializePlan p).
Proof.
  assert (Hgap : JSON_parse (clipboardText (Some p) raw) = Some (planToJson p)).
  { apply JSON_parse_stringify_gap, numberFree_planToJson. }
  split; [|split].
  - unfold handleCopy. now destruct (writeText _).
  - exact Hgap.
  - rewrite Hgap. symmetry. apply JSON_parse_stringify, numberFree_planToJson.
Qed.

(** X23. The entries of the fallback channel strategy differ in their
    channel only: objective, play, cadence and sample copy are the same for
    every channel of the brief. *)
Theorem fallback_channel_plays_uniform (payload : LeadRequest) :
  exists o p c s : string,
    Forall (fun cp : ChannelPlay =>
              objective cp = o /\ play cp = p /\ cadence cp = c /\ sampleCopy cp = s)
           (channelStrategy (buildFallbackPlan payload)).
Proof.
  eexists _, _, _, _. cbn [buildFallbackPlan channelStrategy].
  induction (channels payload) as [|ch chs IH]; cbn [map]; constructor.
  - cbn [channelPlay objective play cadence sampleCopy]. repeat split.
  - exact IH.
Qed.

End PreviewFacts.

(* ================================================================== *)
(** * Part XXIII: the theorems at sample inputs                         *)
(* ================================================================== *)

Lemma handleSubmit_rejected_form_sends_nothing_witness :
  @handleSubmit sampleLib fetchOffline strayGoalsPage
  = @handleSubmit sampleLib (@fetchRoute asciiStrings sampleLib worldNoKey crashPage)
      strayGoalsPage
  /\ page_plan (@handleSubmit sampleLib fetchOffline strayGoalsPage) = None
  /\ rawPlan (@handleSubmit sampleLib fetchOffline strayGoalsPage) = None
  /\ statusMessage (@handleSubmit sampleLib fetchOffline strayGoalsPage) = None
  /\ loading (@handleSubmit sampleLib fetchOffline strayGoalsPage) = false
  /\ form (@handleSubmit sampleLib fetchOffline strayGoalsPage) = strayGoalsState.
Proof.
  apply (@handleSubmit_rejected_form_sends_nothing sampleLib strayGoalsPage
           {| issues := [ issueAt [PKey "goals"; PIndex 0] "Invalid option";
                          issueAt [PKey "goals"; PIndex 1] "Invalid option" ] |}).
  vm_compute. reflexivity.
Defined.

Lemma handleSubmit_settles_witness :
  loading (@handleSubmit sampleLib fetchOffline initialPage) = false
  /\ errors (@handleSubmit sampleLib fetchOffline initialPage) = ∅
  /\ form (@handleSubmit sampleLib fetchOffline initialPage) = defaultState
  /\ exists text : string,
       statusMessage (@handleSubmit sampleLib fetchOffline initialPage) = Some text.
Proof.
  apply (@handleSubmit_settles sampleLib fetchOffline initialPage defaultState).
  vm_compute. reflexivity.
Defined.

Lemma handleSubmit_network_failure_keeps_plan_witness :
  page_plan (@handleSubmit sampleLib fetchOffline shownPage)
  = Some (@buildFallbackPlan asciiStrings sprintState)
  /\ rawPlan (@handleSubmit sampleLib fetchOffline shownPage)
     = Some "An earlier answer of the model."
  /\ statusMessage (@handleSubmit sampleLib fetchOffline shownPage)
     = Some "Network error. Check your connection and try generating again.".
Proof.
  apply (@handleSubmit_network_failure_keeps_plan sampleLib fetchOffline shownPage
           defaultState).
  - vm_compute. reflexivity.
  - left. exists (Error "Failed to fetch"). reflexivity.
Defined.

Lemma handleSubmit_error_response_clears_plan_witness :
  page_plan shownPage = Some (@buildFallbackPlan asciiStrings sprintState)
  /\ rawPlan shownPage = Some "An earlier answer of the model."
  /\ page_plan (@handleSubmit sampleLib
                  (@fetchRoute asciiStrings olderLib worldNoKey crashPage) shownPage) = None
  /\ rawPlan (@handleSubmit sampleLib
                (@fetchRoute asciiStrings olderLib worldNoKey crashPage) shownPage) = None
  /\ statusMessage (@handleSubmit sampleLib
                      (@fetchRoute asciiStrings olderLib worldNoKey crashPage) shownPage)
     = Some "Invalid input".
Proof.
  split; [reflexivity|]. split; [reflexivity|].
  apply (@handleSubmit_error_response_clears_plan sampleLib
           (@fetchRoute asciiStrings olderLib worldNoKey crashPage) shownPage defaultState
           {| ok := false;
              json := Returned
                        (dataOf
                           (InvalidInputBody "Invalid input"
                              {| formErrors := [];
                                 fieldErrors := [("channels", ["Invalid option"])] |})) |}
           (dataOf
              (InvalidInputBody "Invalid input"
                 {| formErrors := [];
                    fieldErrors := [("channels", ["Invalid option"])] |})));
    vm_compute; reflexivity.
Defined.

Lemma handleSubmit_success_response_witness :
  page_plan (@handleSubmit sampleLib fetchBothTexts shownPage)
  = Some (@buildFallbackPlan asciiStrings defaultState)
  /\ rawPlan (@handleSubmit sampleLib fetchBothTexts shownPage) = None
  /\ statusMessage (@handleSubmit sampleLib fetchBothTexts shownPage)
     = Some "The plan was cut short.".
Proof.
  apply (@handleSubmit_success_response sampleLib fetchBothTexts shownPage defaultState
           {| ok := true; json := Returned (ObjectJson bothTexts) |} bothTexts);
    vm_compute; reflexivity.
Defined.

Lemma handleSubmit_null_body_reads_as_network_error_witness :
  page_plan (@handleSubmit sampleLib fetchNull shownPage)
  = Some (@buildFallbackPlan asciiStrings sprintState)
  /\ rawPlan (@handleSubmit sampleLib fetchNull shownPage)
     = Some "An earlier answer of the model."
  /\ statusMessage (@handleSubmit sampleLib fetchNull shownPage)
     = Some "Network error. Check your connection and try generating again."
  /\ loading (@handleSubmit sampleLib fetchNull shownPage) = false.
Proof.
  apply (@handleSubmit_null_body_reads_as_network_error sampleLib fetchNull shownPage
           defaultState {| ok := true; json := Returned NullJson |});
    vm_compute; reflexivity.
Defined.

Lemma POST_status_reflects_validation_witness :
  exists (response : Response) (log : list Event),
    run (@POST asciiStrings sampleLib worldStrayGoals) = (Returned response, log)
    /\ (status response = 400
        <-> exists error,
              validate sampleOptions (leadRequestToJson strayGoalsState)
              = SafeParseFailure error)
    /\ (status response = 200
        <-> exists payload,
              validate sampleOptions (leadRequestToJson strayGoalsState)
              = SafeParseSuccess payload)
    /\ (status response = 400 -> log = []).
Proof.
  apply (@POST_status_reflects_validation asciiStrings sampleLib worldStrayGoals
           (leadRequestToJson strayGoalsState)).
  vm_compute. reflexivity.
Defined.

Lemma POST_plan_excludes_raw_witness :
  (forall p, data_plan (body answerNoKey) = Some p -> data_raw (body answerNoKey) = None)
  /\ (forall t, data_warning (body answerNoKey) = Some t ->
        data_notice (body answerNoKey) = None
        /\ exists p, data_plan (body answerNoKey) = Some p)
  /\ (status answerNoKey = 400 ->
        data_plan (body answerNoKey) = None /\ data_raw (body answerNoKey) = None).
Proof.
  apply (@POST_plan_excludes_raw asciiStrings sampleLib worldNoKey answerNoKey
           [EvFallback defaultState]).
  vm_compute. reflexivity.
Defined.

Lemma POST_setup_failure_skips_model_witness :
  run (@POST asciiStrings sampleLib worldBadCredential)
  = (Returned
       {| status := 200;
          body := FallbackBody (@buildFallbackPlan asciiStrings defaultState) None
                    "Failed to generate plan with OpenAI. Provided a fallback strategy instead." |},
     [EvConsoleError (Error "The OPENAI_API_KEY is malformed"); EvFallback defaultState]).
Proof.
  apply (@POST_setup_failure_skips_model asciiStrings sampleLib worldBadCredential
           (leadRequestToJson defaultState) defaultState
           (Error "The OPENAI_API_KEY is malformed"));
    [vm_compute; reflexivity .. | left; reflexivity].
Defined.

Lemma POST_parser_failure_falls_back_witness :
  run (@POST asciiStrings throwingParserLib worldRefusal)
  = (Returned
       {| status := 200;
          body := FallbackBody (@buildFallbackPlan asciiStrings defaultState) None
                    "Failed to generate plan with OpenAI. Provided a fallback strategy instead." |},
     [EvChatCompletion (chatRequest (buildPrompt defaultState));
      EvConsoleError (Error "Maximum call stack size exceeded");
      EvFallback defaultState]).
Proof.
  apply (@POST_parser_failure_falls_back asciiStrings throwingParserLib worldRefusal
           (leadRequestToJson defaultState) defaultState clientRefusing
           (buildPrompt defaultState) (completionOf "I cannot help with that.")
           (Error "Maximum call stack size exceeded"));
    vm_compute; reflexivity.
Defined.

Lemma submit_mirrors_route_answer_witness :
  (page_plan (@handleSubmit sampleLib
                (@fetchRoute asciiStrings sampleLib worldNoKey crashPage) shownPage)
   = Some (@buildFallbackPlan asciiStrings defaultState)
   /\ rawPlan (@handleSubmit sampleLib
                 (@fetchRoute asciiStrings sampleLib worldNoKey crashPage) shownPage) = None
   /\ PlanPreview
        (page_plan (@handleSubmit sampleLib
                      (@fetchRoute asciiStrings sampleLib worldNoKey crashPage) shownPage))
        (rawPlan (@handleSubmit sampleLib
                    (@fetchRoute asciiStrings sampleLib worldNoKey crashPage) shownPage))
      = Some (Blueprint (@buildFallbackPlan asciiStrings defaultState)))
  /\ (page_plan (@handleSubmit sampleLib
                   (@fetchRoute asciiStrings olderLib worldNoKey crashPage) shownPage) = None
      /\ rawPlan (@handleSubmit sampleLib
                    (@fetchRoute asciiStrings olderLib worldNoKey crashPage) shownPage) = None
      /\ statusMessage (@handleSubmit sampleLib
                          (@fetchRoute asciiStrings olderLib worldNoKey crashPage) shownPage)
         = Some "Invalid input").
Proof.
  split.
  - refine (proj1 (@submit_mirrors_route_answer asciiStrings sampleLib sampleLib worldNoKey
                     shownPage crashPage defaultState answerNoKey
                     [EvFallback defaultState] _ _) eq_refl);
      vm_compute; reflexivity.
  - refine (proj2 (@submit_mirrors_route_answer asciiStrings sampleLib olderLib worldNoKey
                     shownPage crashPage defaultState
                     {| status := 400;
                        body := InvalidInputBody "Invalid input"
                                  {| formErrors := [];
                                     fieldErrors := [("channels", ["Invalid option"])] |} |}
                     [] _ _) eq_refl);
      vm_compute; reflexivity.
Defined.

Lemma submit_without_credential_shows_fallback_witness :
  page_plan (@handleSubmit sampleLib
               (@fetchRoute asciiStrings sampleLib worldNoKey crashPage) initialPage)
  = Some (@buildFallbackPlan asciiStrings defaultState)
  /\ rawPlan (@handleSubmit sampleLib
                (@fetchRoute asciiStrings sampleLib worldNoKey crashPage) initialPage) = None
  /\ statusMessage (@handleSubmit sampleLib
                      (@fetchRoute asciiStrings sampleLib worldNoKey crashPage) initialPage)
     = Some "OPENAI_API_KEY is not configured. Responding with a heuristic fallback plan."
  /\ loading (@handleSubmit sampleLib
                (@fetchRoute asciiStrings sampleLib worldNoKey crashPage) initialPage) = false
  /\ PlanPreview
       (page_plan (@handleSubmit sampleLib
                     (@fetchRoute asciiStrings sampleLib worldNoKey crashPage) initialPage))
       (rawPlan (@handleSubmit sampleLib
                   (@fetchRoute asciiStrings sampleLib worldNoKey crashPage) initialPage))
     = Some (Blueprint (@buildFallbackPlan asciiStrings defaultState)).
Proof.
  apply (@submit_without_credential_shows_fallback asciiStrings sampleLib worldNoKey
           initialPage crashPage defaultState defaultState);
    vm_compute; reflexivity.
Defined.
